(** * SOSi linguist dashboard: aggregation, gap analysis, loading and search

    A shallow embedding of [src/sosi_dashboard.py].  The script is a
    Streamlit page: it loads up to three spreadsheets into a dict of
    pandas tables and then, tab after tab, derives counts, rates, gaps,
    time buckets and search results from them.

    Tables are modelled row by row, cells are a small tagged union of the
    Python values a spreadsheet cell can hold, the dict of loaded tables is
    a finite map, and Python exceptions are an explicit error monad. *)

From Stdlib Require Import ZArith QArith Qcanon String Ascii List Lia.
From stdpp Require Import base decidable option list sorting numbers strings pretty gmap.

Open Scope string_scope.
Open Scope nat_scope.
Open Scope list_scope.

(** ** Python values and exceptions *)

(** A parsed date-time, kept as its civil fields (as [datetime] does). *)
Record Timestamp := mkTimestamp {
  ts_year : Z; ts_month : Z; ts_day : Z;
  ts_hour : Z; ts_minute : Z; ts_second : Z }.

(** One cell of a loaded table. [CNaN] is the missing value pandas puts in
    an empty cell, [CNaT] the missing date-time. *)
Inductive cell :=
  | CStr (s : string)
  | CInt (z : Z)
  | CNaN
  | CTime (t : Timestamp)
  | CNaT.

Global Instance Timestamp_eq_dec : EqDecision Timestamp.
Proof. solve_decision. Defined.
Global Instance cell_eq_dec : EqDecision cell.
Proof. solve_decision. Defined.

(** The exceptions the script can let escape. *)
Inductive exn :=
  | KeyError (key : string)        (* a column label that is not there *)
  | ValueError (what : string)    (* a library call refuses its argument *)
  | AttributeError                (* [.dt] or [.str] on values that have none *)
  | ReadError.                    (* the bytes are not a spreadsheet *)

Inductive res (A : Type) :=
  | Ok (a : A)
  | Raise (e : exn).
Arguments Ok {A} a.
Arguments Raise {A} e.

Global Instance res_ret : MRet res := fun _ a => Ok a.
Global Instance res_bind : MBind res := fun _ _ f m =>
  match m with Ok a => f a | Raise e => Raise e end.

(** ** Tables *)

Record DataFrame := mkDataFrame {
  columns : list string;
  rows : list (list cell) }.

(** [pd.DataFrame()] *)
Definition empty_frame : DataFrame := mkDataFrame [] [].

(** [len(df)] *)
Definition len (df : DataFrame) : nat := length (rows df).

(** [col in df.columns] *)
Definition has_column (col : string) (df : DataFrame) : bool :=
  bool_decide (col ∈ columns df).

(** Position of the first column with that label. *)
Definition column_index (col : string) (df : DataFrame) : option nat :=
  fst <$> list_find (eq col) (columns df).

(** The cell of a row at a position; a short row reads as missing. *)
Definition cell_at (i : nat) (r : list cell) : cell := default CNaN (r !! i).

(** [df[col]]: the column as a series, [KeyError] when the label is absent. *)
Definition get_column (col : string) (df : DataFrame) : res (list cell) :=
  match column_index col df with
  | Some i => Ok (cell_at i <$> rows df)
  | None => Raise (KeyError col)
  end.

(** [df[mask]]: the rows whose mask entry is [True]. *)
Fixpoint select_rows (mask : list bool) (rs : list (list cell)) : list (list cell) :=
  match mask, rs with
  | b :: mask', r :: rs' =>
      if b then r :: select_rows mask' rs' else select_rows mask' rs'
  | _, _ => []
  end.

Definition boolean_index (mask : list bool) (df : DataFrame) : DataFrame :=
  mkDataFrame (columns df) (select_rows mask (rows df)).

(** [df.empty]: some axis has length zero. *)
Definition is_empty (df : DataFrame) : bool :=
  match rows df, columns df with
  | [], _ | _, [] => true
  | _, _ => false
  end.

(** [series == s] on one element: true only for a string cell equal to [s]. *)
Definition eq_str (s : string) (c : cell) : bool :=
  match c with
  | CStr s' => bool_decide (s' = s)
  | _ => false
  end.

(** [pd.isna] on one element. *)
Definition isna (c : cell) : bool :=
  match c with
  | CNaN | CNaT => true
  | _ => false
  end.

(** ** [Series.value_counts] *)

(** Number of elements of a series equal to [k]. *)
Definition count_eq (k : cell) (l : list cell) : nat :=
  length (filter (eq k) l).

(** The distinct values of a series in order of first appearance. *)
Fixpoint uniques (l : list cell) : list cell :=
  match l with
  | [] => []
  | x :: l' => x :: filter (fun y => y ≠ x) (uniques l')
  end.

(** Descending order on the counts of (value, count) pairs. *)
Definition count_ge (p q : cell * nat) : Prop := q.2 ≤ p.2.

(** Sorting by descending count, entries with equal counts keeping their
    order. *)
Fixpoint insert_desc (x : cell * nat) (l : list (cell * nat)) : list (cell * nat) :=
  match l with
  | [] => [x]
  | y :: l' => if decide (y.2 ≤ x.2) then x :: y :: l' else y :: insert_desc x l'
  end.

Definition sort_desc (l : list (cell * nat)) : list (cell * nat) :=
  foldr insert_desc [] l.

(** [s.value_counts()]: missing values dropped, one entry per distinct
    value, most frequent first, equal counts in order of first appearance. *)
Definition value_counts (s : list cell) : list (cell * nat) :=
  let present := filter (fun c => isna c = false) s in
  sort_desc ((fun k => (k, count_eq k present)) <$> uniques present).

(** ** Gap analysis (tab 4) *)

Record GapEntry := mkGapEntry {
  gap_Language : cell;
  gap_Unfulfilled : nat;
  gap_Priority : string }.

(** [lambda x: 'CRITICAL' if x >= 10 else 'HIGH' if x >= 5 else 'MEDIUM'] *)
Definition priority_of (x : nat) : string :=
  if decide (10 ≤ x) then "CRITICAL"
  else if decide (5 ≤ x) then "HIGH"
  else "MEDIUM".

(** The [critical_gaps] table of the gap tab (lines 319-327). [Ok None]
    when the tab shows no table: the status column is absent or no row is
    unfulfilled. *)
Definition critical_gaps (df : DataFrame) : res (option (list GapEntry)) :=
  if has_column "Has Linguist?" df then
    hl ← get_column "Has Linguist?" df;
    let no_linguist_df := boolean_index (eq_str "NO" <$> hl) df in
    if negb (is_empty no_linguist_df) then
      language ← get_column "Language" no_linguist_df;
      let gap_summary := value_counts language in
      let kept := filter (fun p => 5 ≤ p.2) gap_summary in
      Ok (Some ((fun p => mkGapEntry p.1 p.2 (priority_of p.2)) <$> kept))
    else Ok None
  else Ok None.

(** ** Language statistics (tab 2) *)

(** [df.groupby(key)[val].apply(f)]: one entry per distinct, non-missing
    key, [f] applied to the values of the rows with that key.  pandas
    returns the groups sorted by key; the script only looks them up by key
    (a left join), so the groups are kept in order of first appearance. *)
Definition groupby_apply {A} (keys vals : list cell) (f : list cell → A)
    : list (cell * A) :=
  let present := filter (fun c => isna c = false) keys in
  (fun k => (k, f (snd <$> filter (fun kv => kv.1 = k) (zip keys vals))))
    <$> uniques present.

(** First entry of a keyed table with that key. *)
Fixpoint assoc {A} (k : cell) (l : list (cell * A)) : option A :=
  match l with
  | [] => None
  | (k', a) :: l' => if decide (k' = k) then Some a else assoc k l'
  end.

(** [lambda x: 'Sourceable' if (x == 'YES').any() else 'Not Sourceable'] *)
Definition sourcing_of (x : list cell) : string :=
  if existsb (eq_str "YES") x then "Sourceable" else "Not Sourceable".

(** [left.merge(right, on='Language', how='left')] for a right table with
    one row per key: each left row gets the status of its language, a
    missing value when the right table has none. *)
Definition merge_left (left : list (cell * nat)) (right : list (cell * string))
    : list (list cell) :=
  (fun p => [p.1; CInt (Z.of_nat p.2);
             match assoc p.1 right with Some s => CStr s | None => CNaN end])
    <$> left.

(** [process_language_stats(df)] (lines 100-117) *)
Definition process_language_stats (df : DataFrame) : res DataFrame :=
  if negb (has_column "Language" df) then Ok empty_frame
  else
    language ← get_column "Language" df;
    let language_counts := value_counts language in
    if has_column "Has Linguist?" df then
      hl ← get_column "Has Linguist?" df;
      let sourcing_status := groupby_apply language hl sourcing_of in
      Ok (mkDataFrame ["Language"; "Request Count"; "Status"]
            (merge_left language_counts sourcing_status))
    else
      Ok (mkDataFrame ["Language"; "Request Count"]
            ((fun p => [p.1; CInt (Z.of_nat p.2)]) <$> language_counts)).

(** The integer held by a cell of a count column. *)
Definition int_of (c : cell) : Z :=
  match c with CInt z => z | _ => 0%Z end.

(** ** Overview metrics (tab 1) *)

(** A NumPy float: a finite value (kept exact), an infinity, or NaN. *)
Inductive number :=
  | Num (q : Qc)
  | Inf
  | NaNum.

(** [a / b] on counts: NumPy answers a zero divisor with [nan] or [inf]. *)
Definition true_divide (a b : nat) : number :=
  match b, a with
  | O, O => NaNum
  | O, _ => Inf
  | _, _ => Num (Qc_of_Z (Z.of_nat a) / Qc_of_Z (Z.of_nat b))%Qc
  end.

(** [x * 100] *)
Definition times_100 (x : number) : number :=
  match x with
  | Num q => Num (q * Qc_of_Z 100)%Qc
  | other => other
  end.

(** [(series == s).sum()] *)
Definition count_str (s : string) (col : list cell) : nat :=
  length (filter (fun c => eq_str s c = true) col).

(** [(fulfilled / total_requests * 100) if total_requests > 0 else 0] *)
Definition fulfillment_rate (fulfilled total_requests : nat) : number :=
  if decide (0 < total_requests)
  then times_100 (true_divide fulfilled total_requests)
  else Num 0%Qc.

(** [series.nunique()] *)
Definition nunique (col : list cell) : nat :=
  length (uniques (filter (fun c => isna c = false) col)).

Record Overview := mkOverview {
  ov_total_requests : nat;
  ov_fulfillment : option (nat * number);   (* fulfilled, fulfillment_rate *)
  ov_unique_languages : option nat;
  ov_unfulfilled : option nat }.

(** The four metrics of the overview (lines 138-162); a metric is [None]
    when its column check skips it. *)
Definition overview (df : DataFrame) : res Overview :=
  let total_requests := len df in
  col2 ←
    (if has_column "Has Linguist?" df then
       hl ← get_column "Has Linguist?" df;
       let fulfilled := count_str "YES" hl in
       Ok (Some (fulfilled, fulfillment_rate fulfilled total_requests))
     else Ok None);
  col3 ←
    (if has_column "Language" df then
       language ← get_column "Language" df; Ok (Some (nunique language))
     else Ok None);
  col4 ←
    (if has_column "Has Linguist?" df then
       hl ← get_column "Has Linguist?" df; Ok (Some (count_str "NO" hl))
     else Ok None);
  Ok (mkOverview total_requests col2 col3 col4).

(** ** Loading the workbooks *)

(** An uploaded file: [None] when its bytes are not a spreadsheet,
    otherwise its worksheets, in order, by name. *)
Definition Workbook : Type := list (string * DataFrame).
Definition UploadedFile : Type := option Workbook.

(** [pd.read_excel(file, sheet_name=...)]; without a name, the first sheet. *)
Definition read_excel (file : UploadedFile) (sheet_name : option string)
    : res DataFrame :=
  match file with
  | None => Raise ReadError
  | Some sheets =>
      match sheet_name with
      | None =>
          match sheets with
          | (_, t) :: _ => Ok t
          | [] => Raise ReadError
          end
      | Some name =>
          match list_find (fun p => p.1 = name) sheets with
          | Some (_, (_, t)) => Ok t
          | None => Raise (ValueError name)
          end
      end
  end.

(** A string as the list of its bytes; text is UTF-8. *)
Definition chars (s : string) : list ascii := list_ascii_of_string s.

(** The characters [str.isspace] accepts, each as its UTF-8 bytes: the
    ASCII controls 9 to 13 and 28 to 31, the space, U+0085, U+00A0,
    U+1680, U+2000 to U+200A, U+2028, U+2029, U+202F, U+205F and U+3000. *)
Definition whitespace : list (list ascii) :=
  ((fun n => [ascii_of_nat n]) <$> [9; 10; 11; 12; 13; 28; 29; 30; 31; 32])
  ++ ((fun n => ascii_of_nat <$> [194; n]) <$> [133; 160])
  ++ [ascii_of_nat <$> [225; 154; 128]]
  ++ ((fun n => ascii_of_nat <$> [226; 128; n])
        <$> [128; 129; 130; 131; 132; 133; 134; 135; 136; 137; 138; 168; 169; 175])
  ++ [ascii_of_nat <$> [226; 129; 159]; ascii_of_nat <$> [227; 128; 128]].

(** The text behind one leading character of [ws], when it starts with
    one. *)
Fixpoint skip_space (ws : list (list ascii)) (l : list ascii) : option (list ascii) :=
  match ws with
  | [] => None
  | w :: ws' =>
      if decide (w `prefix_of` l) then Some (drop (length w) l)
      else skip_space ws' l
  end.

(** Leading characters of [ws] cut off, at most [fuel] of them. *)
Fixpoint lstrip_with (ws : list (list ascii)) (fuel : nat) (l : list ascii)
    : list ascii :=
  match fuel with
  | O => l
  | S fuel' =>
      match skip_space ws l with
      | Some l' => lstrip_with ws fuel' l'
      | None => l
      end
  end.

(** [str.lstrip()] and [str.rstrip()]; a text has no more characters than
    bytes. *)
Definition lstrip (l : list ascii) : list ascii :=
  lstrip_with whitespace (length l) l.

Definition rstrip (l : list ascii) : list ascii :=
  reverse (lstrip_with (reverse <$> whitespace) (length l) (reverse l)).

(** [str.strip()] *)
Definition strip (s : string) : string :=
  string_of_list_ascii (rstrip (lstrip (chars s))).

(** [index.str.strip()]: only an index of text has the [.str] accessor;
    the index of a sheet without a header row is not one. *)
Definition str_strip (index : list string) : res (list string) :=
  match index with
  | [] => Raise AttributeError
  | _ :: _ => Ok (strip <$> index)
  end.

(** The fallback of [load_data]'s bare [except]. *)
Definition load_default_sheet (file : UploadedFile) (data : gmap string DataFrame)
    : res (gmap string DataFrame) :=
  a ← read_excel file None;
  Ok (<["analysis" := a]> data).

(** [load_data] (lines 77-97); an argument is [None] when nothing was
    uploaded for it. *)
Definition load_data (master_file analysis_file linguist_file : option UploadedFile)
    : res (gmap string DataFrame) :=
  let data : gmap string DataFrame := ∅ in
  data ←
    match master_file with
    | Some f =>
        m ← read_excel f None;
        cols ← str_strip (columns m);
        Ok (<["master" := mkDataFrame cols (rows m)]> data)
    | None => Ok data
    end;
  data ←
    match analysis_file with
    | Some f =>
        match read_excel f (Some "All Historical Data") with
        | Raise _ => load_default_sheet f data
        | Ok a =>
            let data := <["analysis" := a]> data in
            match read_excel f (Some "Summary") with
            | Raise _ => load_default_sheet f data
            | Ok s => Ok (<["summary" := s]> data)
            end
        end
    | None => Ok data
    end;
  match linguist_file with
  | Some f =>
      l ← read_excel f None;
      Ok (<["linguists" := l]> data)
  | None => Ok data
  end.

(** ** Writing a column *)

(** A row as the table shows it: one cell per column, missing where the
    stored row is short. *)
Definition row_view (n : nat) (r : list cell) : list cell :=
  (fun i => cell_at i r) <$> seq 0 n.

(** [df[col] = values]: overwrite the column of that label, or append it. *)
Definition set_column (col : string) (values : list cell) (df : DataFrame)
    : DataFrame :=
  let n := length (columns df) in
  match column_index col df with
  | Some i =>
      mkDataFrame (columns df)
        (zip_with (fun r v => <[i := v]> (row_view n r)) (rows df) values)
  | None =>
      mkDataFrame (columns df ++ [col])
        (zip_with (fun r v => row_view n r ++ [v]) (rows df) values)
  end.

(** ** Dates *)

(** [pd.to_datetime(series, errors='coerce')] is pandas' own parser and no
    part of the script; it is taken as it comes.  It answers with a series
    of the same length: a date-time series, with NaT for what it cannot
    read.  Or it refuses the column and raises (text with two different UTC
    offsets, under pandas 3), or answers with a series of other objects (the
    same text under pandas 2), and such a series has no [.dt]. *)
Class DatetimeParser := {
  to_datetime : list cell → res (list cell);
  to_datetime_length : ∀ s s', to_datetime s = Ok s' → length s' = length s }.

(** An element of a date-time series as a cell. *)
Definition cell_of_datetime (o : option Timestamp) : cell :=
  match o with Some t => CTime t | None => CNaT end.

(** [series.dt]: only a series of date-times has it. *)
Fixpoint dt (s : list cell) : res (list (option Timestamp)) :=
  match s with
  | [] => Ok []
  | CTime t :: s' => rest ← dt s'; Ok (Some t :: rest)
  | CNaT :: s' => rest ← dt s'; Ok (None :: rest)
  | _ :: _ => Raise AttributeError
  end.

(** Days from 1970-01-01 to a civil date (proleptic Gregorian). *)
Definition days_from_civil (y m d : Z) : Z :=
  let y := (if decide (m ≤ 2) then y - 1 else y)%Z in
  let era := (y / 400)%Z in
  let yoe := (y - era * 400)%Z in
  let mp := (if decide (2 < m) then m - 3 else m + 9)%Z in
  let doy := ((153 * mp + 2) / 5 + d - 1)%Z in
  let doe := (yoe * 365 + yoe / 4 - yoe / 100 + doy)%Z in
  (era * 146097 + doe - 719468)%Z.

(** [Timestamp.weekday()]: Monday is 0. *)
Definition weekday (t : Timestamp) : nat :=
  Z.to_nat ((days_from_civil (ts_year t) (ts_month t) (ts_day t) + 3) `mod` 7).

Definition day_order : list string :=
  ["Monday"; "Tuesday"; "Wednesday"; "Thursday"; "Friday"; "Saturday"; "Sunday"].

(** [Timestamp.day_name()] *)
Definition day_name (t : Timestamp) : string :=
  default "Sunday" (day_order !! weekday t).

Definition pad2 (z : Z) : string :=
  if decide (z < 10)%Z then "0" +:+ pretty z else pretty z.

(** [str(timestamp.to_period('M'))] *)
Definition month_str (t : Timestamp) : string :=
  pretty (ts_year t) +:+ "-" +:+ pad2 (ts_month t).

(** [str(timestamp)] *)
Definition timestamp_str (t : Timestamp) : string :=
  month_str t +:+ "-" +:+ pad2 (ts_day t) +:+ " " +:+ pad2 (ts_hour t)
    +:+ ":" +:+ pad2 (ts_minute t) +:+ ":" +:+ pad2 (ts_second t).

(** ** Charts *)

(** What [px.bar] says of two empty arrays. *)
Definition no_bars : exn :=
  ValueError "Cannot accept list of column references or list of columns for both x and y".

(** [px.bar(x=..., y=...)] on two arrays.  plotly takes an empty array for
    a list of column names and refuses two of them, so the chart of an
    empty series is not drawn; arrays of two lengths are refused as well.
    A chart is kept as the points it shows. *)
Definition px_bar {A B} (x : list A) (y : list B) : res (list (A * B)) :=
  match x, y with
  | [], [] => Raise no_bars
  | _, _ =>
      if decide (length x = length y) then Ok (zip x y)
      else Raise (ValueError "All arguments should have the same length")
  end.

(** [px.pie(values=..., names=...)] *)
Definition px_pie {A B} (values : list A) (names : list B) : res (list (B * A)) :=
  if decide (length values = length names) then Ok (zip names values)
  else Raise (ValueError "All arguments should have the same length").

(** [px.line(frame, x=..., y=...)]: the two named columns of the frame. *)
Definition px_line (data_frame : DataFrame) (x y : string)
    : res (list (cell * cell)) :=
  match get_column x data_frame, get_column y data_frame with
  | Ok xs, Ok ys => Ok (zip xs ys)
  | _, _ => Raise (ValueError "not the name of a column in data_frame")
  end.

(** ** Grouping *)

(** The text of a group key; the keys grouped by the script are text. *)
Definition key_text (c : cell) : string :=
  match c with CStr s => s | _ => "" end.

(** Ascending order of group keys. *)
Definition key_le (p q : cell * nat) : Prop :=
  String.leb (key_text p.1) (key_text q.1) = true.

Fixpoint insert_key (x : cell * nat) (l : list (cell * nat)) : list (cell * nat) :=
  match l with
  | [] => [x]
  | y :: l' =>
      if String.leb (key_text x.1) (key_text y.1) then x :: y :: l'
      else y :: insert_key x l'
  end.

(** [df.groupby(col).size()] on the column: one entry per distinct,
    non-missing key with the number of its rows, sorted by key. *)
Definition groupby_size (keys : list cell) : list (cell * nat) :=
  let present := filter (fun c => isna c = false) keys in
  foldr insert_key [] ((fun k => (k, count_eq k present)) <$> uniques present).

(** [sizes.reset_index(name=...)]: the series as a frame of two columns. *)
Definition reset_index (key name : string) (sizes : list (cell * nat)) : DataFrame :=
  mkDataFrame [key; name] ((fun p => [p.1; CInt (Z.of_nat p.2)]) <$> sizes).

(** ** Trends (tab 3) *)

Definition date_columns : list string :=
  ["Date of request"; "Hearing Date"; "Row Added"].

(** One turn of the date loop:
    [if col in df.columns: df[col] = pd.to_datetime(df[col], errors='coerce')].
    Under a label that occurs twice [df[col]] is a frame, and [to_datetime]
    refuses a frame with a repeated label. *)
Definition convert_date_column `{DatetimeParser} (df : DataFrame) (col : string)
    : res DataFrame :=
  if has_column col df then
    if decide (1 < length (filter (eq col) (columns df))) then
      Raise (ValueError "cannot assemble with duplicate keys")
    else
      s ← get_column col df;
      converted ← to_datetime s;
      Ok (set_column col converted df)
  else Ok df.

Fixpoint convert_date_columns `{DatetimeParser} (df : DataFrame) (cols : list string)
    : res DataFrame :=
  match cols with
  | [] => Ok df
  | col :: cols' => df' ← convert_date_column df col; convert_date_columns df' cols'
  end.

(** [df.dropna(subset=[col])] *)
Definition dropna (col : string) (df : DataFrame) : res DataFrame :=
  s ← get_column col df;
  Ok (boolean_index ((fun c => negb (isna c)) <$> s) df).

(** [df_time['Month'] = df_time['Row Added'].dt.to_period('M').astype(str)] *)
Definition add_month (df_time : DataFrame) : res DataFrame :=
  row_added ← get_column "Row Added" df_time;
  stamps ← dt row_added;
  let months := (fun o => match o with
                          | Some t => CStr (month_str t)
                          | None => CStr "NaT"
                          end) <$> stamps in
  Ok (set_column "Month" months df_time).

(** [df_time.groupby('Month').size().reset_index(name='Requests')] *)
Definition monthly_requests (df_time : DataFrame) : res DataFrame :=
  month ← get_column "Month" df_time;
  Ok (reset_index "Month" "Requests" (groupby_size month)).

(** [counts.reindex(labels, fill_value=fill)] *)
Definition reindex (labels : list string) (fill : nat) (counts : list (cell * nat))
    : list (string * nat) :=
  (fun l => (l, default fill (assoc (CStr l) counts))) <$> labels.

(** [lines 280-283]: the requests per day of the week. *)
Definition day_of_week_volume (df_time : DataFrame) : res (list (string * nat)) :=
  row_added ← get_column "Row Added" df_time;
  stamps ← dt row_added;
  let names := (fun o => match o with
                         | Some t => CStr (day_name t)
                         | None => CNaN
                         end) <$> stamps in
  let df_time := set_column "Day of Week" names df_time in
  day_of_week ← get_column "Day of Week" df_time;
  Ok (reindex day_order 0 (value_counts day_of_week)).

(** The three charts of the trends tab, each as the points it shows. *)
Record Trends := mkTrends {
  tr_monthly : option (list (cell * cell));
  tr_day_counts : option (list (string * nat));
  tr_priority_counts : option (list (cell * nat)) }.

(** The trends tab after the date loop (lines 260-306), on the converted
    table; [df_time] is a table of its own.  The two tests of
    ['Row Added' in df.columns] are one here.  The labels of the table are
    taken to be distinct. *)
Definition trends_of (df : DataFrame) : res Trends :=
  time ←
    (if has_column "Row Added" df then
       df_time ← dropna "Row Added" df;
       df_time ← add_month df_time;
       monthly_requests ← monthly_requests df_time;
       monthly ← px_line monthly_requests "Month" "Requests";
       day_counts ← day_of_week_volume df_time;
       days ← px_bar day_counts.*1 day_counts.*2;
       Ok (Some (monthly, days))
     else Ok None);
  priority ←
    (if has_column "Priority" df then
       priority ← get_column "Priority" df;
       let priority_counts := value_counts priority in
       pie ← px_pie priority_counts.*2 priority_counts.*1;
       Ok (Some pie)
     else Ok None);
  Ok (mkTrends (fst <$> time) (snd <$> time) priority).

(** The trends tab (lines 251-306).  [df = data['master']] is the loaded
    table itself, so the date loop writes into [data]. *)
Definition tab3 `{DatetimeParser} (data : gmap string DataFrame)
    : res (gmap string DataFrame * option Trends) :=
  match data !! "master" with
  | None => Ok (data, None)
  | Some df =>
      df ← convert_date_columns df date_columns;
      let data := <["master" := df]> data in
      trends ← trends_of df;
      Ok (data, Some trends)
  end.

(** ** Language analysis tab (tab 2) and gap tab (tab 4) *)

(** The language tab (lines 199-245): the language table under the status
    filter, and the series behind the chart of languages without linguists
    ([.head(15)]). *)
Definition tab2 (status_filter : string) (df : DataFrame)
    : res (DataFrame * option (list (cell * nat))) :=
  language_stats ← process_language_stats df;
  language_stats ←
    (if bool_decide (status_filter ≠ "All") && has_column "Status" language_stats
     then
       status ← get_column "Status" language_stats;
       Ok (boolean_index (eq_str status_filter <$> status) language_stats)
     else Ok language_stats);
  gap_languages ←
    (if has_column "Has Linguist?" df then
       hl ← get_column "Has Linguist?" df;
       let no_linguist_df := boolean_index (eq_str "NO" <$> hl) df in
       if negb (is_empty no_linguist_df) then
         language ← get_column "Language" no_linguist_df;
         Ok (Some (take 15 (value_counts language)))
       else Ok None
     else Ok None);
  Ok (language_stats, gap_languages).

(** ** Search (tab 5) *)

(** [row.astype(str)] is pandas' own conversion and is taken as it comes:
    the text of each cell of a row of the table, or none for a cell that
    stays missing.  What it makes of a number depends on the types of the
    columns (a column of integers with a blank holds floats) and what it
    makes of a blank on the version of pandas; a text cell is its text. *)
Class CellText := {
  astype_str : DataFrame → list cell → list (option string);
  astype_str_length : ∀ df r, length (astype_str df r) = length r;
  astype_str_text : ∀ df r j s,
    r !! j = Some (CStr s) → astype_str df r !! j = Some (Some s) }.

(** [str.contains(pat, case=False)] runs [re.search] with [re.IGNORECASE]:
    the search term is a regular expression.  The fragment modelled here
    has two kinds of atoms, a literal character and [.]; a term that uses
    any other regular-expression syntax is outside it.  The matching is
    written on bytes, which is the matching on characters for a term and a
    text of ASCII characters. *)
Inductive atom :=
  | Lit (a : ascii)
  | Dot.

(** The characters [re] gives a meaning of their own. *)
Definition is_meta (a : ascii) : bool :=
  bool_decide (a ∈ chars ".^$*+?{}[]\|()").

Fixpoint re_compile_chars (pat : list ascii) : option (list atom) :=
  match pat with
  | [] => Some []
  | a :: pat' =>
      if decide (a = "."%char) then (Dot ::.) <$> re_compile_chars pat'
      else if is_meta a then None
      else (Lit a ::.) <$> re_compile_chars pat'
  end.

Definition re_compile (pat : string) : option (list atom) :=
  re_compile_chars (chars pat).

(** Case folding of a byte: the ASCII letters.  What the engine folds
    outside ASCII is left out; the theorem on the search names the text on
    which that makes no difference. *)
Definition lower (a : ascii) : ascii :=
  let n := nat_of_ascii a in
  if (65 <=? n) && (n <=? 90) then ascii_of_nat (n + 32) else a.

Definition newline : ascii := ascii_of_nat 10.

(** One atom against one character, ignoring case; [.] takes anything but
    a line feed. *)
Definition atom_matches (p : atom) (b : ascii) : bool :=
  match p with
  | Lit a => bool_decide (lower a = lower b)
  | Dot => bool_decide (b ≠ newline)
  end.

(** The pattern matches at the start of the text. *)
Fixpoint match_here (p : list atom) (s : list ascii) : bool :=
  match p, s with
  | [], _ => true
  | a :: p', b :: s' => atom_matches a b && match_here p' s'
  | _ :: _, [] => false
  end.

(** [re.search]: the pattern matches at some position of the text. *)
Fixpoint re_search (p : list atom) (s : list ascii) : bool :=
  match_here p s ||
  match s with
  | [] => false
  | _ :: s' => re_search p s'
  end.

(** [lambda x: x.astype(str).str.contains(search_term, case=False).any()]
    on one row; a cell that stays missing matches nothing. *)
Definition row_matches `{CellText} (p : list atom) (df : DataFrame) (r : list cell)
    : bool :=
  existsb (fun o => match o with
                    | Some s => re_search p (chars s)
                    | None => false
                    end)
    (astype_str df (row_view (length (columns df)) r)).

Inductive SearchOutcome :=
  | NotSearched                       (* empty term or no analysis table *)
  | OutsideFragment                   (* the term is not in the fragment *)
  | Found (filtered_df : DataFrame).

(** [mask = df.apply(..., axis=1); filtered_df = df[mask]] (lines 405-406) *)
Definition search `{CellText} (search_term : string) (df : DataFrame)
    : SearchOutcome :=
  match re_compile search_term with
  | None => OutsideFragment
  | Some p =>
      let mask := row_matches p df <$> rows df in
      Found (boolean_index mask df)
  end.

(** [if search_term and 'analysis' in data: ...] *)
Definition tab5 `{CellText} (search_term : string) (data : gmap string DataFrame)
    : SearchOutcome :=
  if decide (search_term = "") then NotSearched
  else match data !! "analysis" with
       | Some df => search search_term df
       | None => NotSearched
       end.

(** ** The overview tab (tab 1) and its charts *)

(** The bar chart of the overview (line 172):
    [df['Language'].value_counts().head(10)]. *)
Definition top_languages (df : DataFrame) : res (option (list (cell * nat))) :=
  if has_column "Language" df then
    language ← get_column "Language" df;
    Ok (Some (take 10 (value_counts language)))
  else Ok None.

(** ['Sourceable' if x == 'YES' else 'Not Sourceable'] *)
Definition pie_name (x : cell) : string :=
  if eq_str "YES" x then "Sourceable" else "Not Sourceable".

(** The pie chart of the overview (lines 185-191): the names and values
    handed to [px.pie], one pair per distinct status. *)
Definition status_pie (df : DataFrame) : res (option (list (string * nat))) :=
  if has_column "Has Linguist?" df then
    hl ← get_column "Has Linguist?" df;
    let status_counts := value_counts hl in
    Ok (Some ((fun p => (pie_name p.1, p.2)) <$> status_counts))
  else Ok None.

(** The value a pie chart shows under a name: the values given under
    that name, added up. *)
Definition pie_share (name : string) (pie : list (string * nat)) : nat :=
  sum_list_with snd (filter (fun p => p.1 = name) pie).

(** A chart that is drawn only when its series was computed. *)
Definition draw {A B} (plot : A → res B) (series : option A) : res (option B) :=
  match series with
  | Some s => fig ← plot s; Ok (Some fig)
  | None => Ok None
  end.

(** The overview tab (lines 138-193): the metrics, the bar chart of the
    top languages ([x] the counts, [y] the languages) and the status pie. *)
Definition tab1 (df : DataFrame)
    : res (Overview * option (list (nat * cell)) * option (list (string * nat))) :=
  metrics ← overview df;
  top_languages ← top_languages df;
  bars ← draw (fun s : list (cell * nat) => px_bar s.*2 s.*1) top_languages;
  status ← status_pie df;
  pie ← draw (fun s : list (string * nat) => px_pie s.*2 s.*1) status;
  Ok (metrics, bars, pie).

(** The language tab with its chart drawn (lines 199-245). *)
Definition tab2_chart (status_filter : string) (df : DataFrame)
    : res (DataFrame * option (list (cell * nat))) :=
  '(language_stats, gap_languages) ← tab2 status_filter df;
  bars ← draw (fun s : list (cell * nat) => px_bar s.*1 s.*2) gap_languages;
  Ok (language_stats, bars).

(** The location series of the gap tab (lines 343-346). *)
Definition location_counts (df : DataFrame) : res (option (list (cell * nat))) :=
  if has_column "Location" df || has_column "Notes" df then
    let location_col := if has_column "Location" df then "Location" else "Notes" in
    location ← get_column location_col df;
    Ok (Some (take 10 (value_counts location)))
  else Ok None.

(** The location chart (lines 343-355). *)
Definition location_chart (df : DataFrame) : res (option (list (cell * nat))) :=
  location_counts ← location_counts df;
  draw (fun s : list (cell * nat) => px_bar s.*1 s.*2) location_counts.

(** The gap tab (lines 312-355): the gap table and the location chart. *)
Definition tab4 (df : DataFrame)
    : res (option (list GapEntry) * option (list (cell * nat))) :=
  critical_gaps ← critical_gaps df;
  locations ← location_chart df;
  Ok (critical_gaps, locations).

(** ** One run of the script *)

Record Page := mkPage {
  pg_overview : option (Overview * option (list (nat * cell))
                        * option (list (string * nat)));
  pg_language : option (DataFrame * option (list (cell * nat)));
  pg_trends : option Trends;
  pg_gaps : option (option (list GapEntry) * option (list (cell * nat)));
  pg_search : SearchOutcome }.

(** A step that only runs when the analysis table is loaded. *)
Definition on_analysis {A} (data : gmap string DataFrame)
    (f : DataFrame → res A) : res (option A) :=
  match data !! "analysis" with
  | Some df => a ← f df; Ok (Some a)
  | None => Ok None
  end.

(** The five tabs in page order, over the loaded tables.  An exception
    ends the run where it is raised. *)
Definition render `{DatetimeParser} `{CellText} (status_filter search_term : string)
    (data : gmap string DataFrame) : res (gmap string DataFrame * Page) :=
  t1 ← on_analysis data tab1;
  t2 ← on_analysis data (tab2_chart status_filter);
  '(data, t3) ← tab3 data;
  t4 ← on_analysis data tab4;
  let t5 := tab5 search_term data in
  Ok (data, mkPage t1 t2 t3 t4 t5).

(** [if master_file or analysis_file: data = load_data(...); ...] *)
Definition script `{DatetimeParser} `{CellText}
    (master_file analysis_file linguist_file : option UploadedFile)
    (status_filter search_term : string)
    : res (option (gmap string DataFrame * Page)) :=
  match master_file, analysis_file with
  | None, None => Ok None
  | _, _ =>
      data ← load_data master_file analysis_file linguist_file;
      page ← render status_filter search_term data;
      Ok (Some page)
  end.

(** ** A date parser and a cell text for the worked examples *)

Definition digit (a : ascii) : option Z :=
  let n := nat_of_ascii a in
  if (48 <=? n) && (n <=? 57) then Some (Z.of_nat (n - 48)) else None.

Definition two_digits (a b : ascii) : option Z :=
  x ← digit a; y ← digit b; Some (10 * x + y)%Z.

Definition is_leap (y : Z) : bool :=
  bool_decide (y `mod` 4 = 0)%Z
  && (bool_decide (y `mod` 100 ≠ 0)%Z || bool_decide (y `mod` 400 = 0)%Z).

Definition days_in_month (y m : Z) : Z :=
  if decide (m = 2)%Z then (if is_leap y then 29 else 28)%Z
  else if bool_decide (m ∈ [4; 6; 9; 11]%Z) then 30%Z
  else 31%Z.

(** Reads [YYYY-MM-DD]. *)
Definition parse_iso_date (s : string) : option Timestamp :=
  match chars s with
  | [y1; y2; y3; y4; s1; m1; m2; s2; d1; d2] =>
      y1 ← digit y1; y2 ← digit y2; y3 ← digit y3; y4 ← digit y4;
      m1 ← digit m1; m2 ← digit m2; d1 ← digit d1; d2 ← digit d2;
      let y := (1000 * y1 + 100 * y2 + 10 * y3 + y4)%Z in
      let m := (10 * m1 + m2)%Z in
      let d := (10 * d1 + d2)%Z in
      if bool_decide (s1 = "-"%char ∧ s2 = "-"%char)
         && bool_decide (1 ≤ m ≤ 12)%Z
         && bool_decide (1 ≤ d ≤ days_in_month y m)%Z
      then Some (mkTimestamp y m d 0 0 0)
      else None
  | _ => None
  end.

(** Reads [YYYY-MM-DD HH:MM:SS+HH:MM] (or [-HH:MM]): the time on the clock
    and the UTC offset in minutes. *)
Definition parse_iso_offset (s : string) : option (Timestamp * Z) :=
  match drop 10 (chars s) with
  | [sp; h1; h2; c1; m1; m2; c2; s1; s2; sign; o1; o2; c3; o3; o4] =>
      date ← parse_iso_date (string_of_list_ascii (take 10 (chars s)));
      h ← two_digits h1 h2; mi ← two_digits m1 m2; se ← two_digits s1 s2;
      oh ← two_digits o1 o2; om ← two_digits o3 o4;
      if bool_decide (sp = " "%char ∧ c1 = ":"%char ∧ c2 = ":"%char ∧ c3 = ":"%char)
         && bool_decide (sign = "+"%char ∨ sign = "-"%char)
         && bool_decide (h < 24 ∧ mi < 60 ∧ se < 60 ∧ oh < 24 ∧ om < 60)%Z
      then Some (mkTimestamp (ts_year date) (ts_month date) (ts_day date) h mi se,
                 (if decide (sign = "-"%char) then -1 else 1) * (60 * oh + om))%Z
      else None
  | _ => None
  end.

(** The civil date of a day number (inverse of [days_from_civil]). *)
Definition civil_from_days (z : Z) : Z * Z * Z :=
  let z := (z + 719468)%Z in
  let era := (z / 146097)%Z in
  let doe := (z - era * 146097)%Z in
  let yoe := ((doe - doe / 1460 + doe / 36524 - doe / 146096) / 365)%Z in
  let doy := (doe - (365 * yoe + yoe / 4 - yoe / 100))%Z in
  let mp := ((5 * doy + 2) / 153)%Z in
  let d := (doy - (153 * mp + 2) / 5 + 1)%Z in
  let m := (if decide (mp < 10) then mp + 3 else mp - 9)%Z in
  let y := (yoe + era * 400)%Z in
  ((if decide (m ≤ 2) then y + 1 else y)%Z, m, d).

(** An integer is read as nanoseconds since 1970-01-01; what lies outside
    the 64-bit range is unreadable.  Fractions of a second are dropped. *)
Definition timestamp_of_ns (ns : Z) : option Timestamp :=
  if bool_decide (- 2 ^ 63 < ns < 2 ^ 63)%Z then
    let secs := (ns / 1000000000)%Z in
    let '(y, m, d) := civil_from_days (secs / 86400) in
    let sod := (secs `mod` 86400)%Z in
    Some (mkTimestamp y m d (sod / 3600) (sod `mod` 3600 / 60) (sod `mod` 60))
  else None.

(** One value read on its own: the date-time and, for text that carries
    one, the UTC offset. *)
Definition iso_read (c : cell) : option (Timestamp * option Z) :=
  match c with
  | CStr s =>
      match parse_iso_date s with
      | Some t => Some (t, None)
      | None => (fun p => (p.1, Some p.2)) <$> parse_iso_offset s
      end
  | CInt z => (fun t => (t, None)) <$> timestamp_of_ns z
  | CTime t => Some (t, None)
  | CNaN | CNaT => None
  end.

(** The format of a column is read off its first value that is not
    missing, when that is text: with an offset ([true]) or without. *)
Definition iso_format (s : list cell) : option bool :=
  match list_find (fun c => isna c = false) s with
  | Some (_, CStr x) => (fun r => bool_decide (is_Some r.2)) <$> iso_read (CStr x)
  | _ => None
  end.

(** One value read in a column of that format: text of the other format
    is not read, nor is a number among text. *)
Definition iso_read_as (fmt : option bool) (c : cell)
    : option (Timestamp * option Z) :=
  match fmt, c with
  | Some aware, CStr _ =>
      r ← iso_read c;
      if decide (bool_decide (is_Some r.2) = aware) then Some r else None
  | Some _, CInt _ => None
  | _, _ => iso_read c
  end.

(** The column as a whole: values that were read with two different
    offsets, or some with and some without, make the parser raise. *)
Definition iso_to_datetime (s : list cell) : res (list cell) :=
  let readings := iso_read_as (iso_format s) <$> s in
  if decide (length (remove_dups (snd <$> omap id readings)) ≤ 1)
  then Ok ((fun r => cell_of_datetime (fst <$> r)) <$> readings)
  else Raise (ValueError "Mixed timezones detected").

(** The parser used where an example has to be evaluated.  It reads the
    two formats above, integers and date-times, answers NaT for every other
    text and raises on mixed offsets, as pandas 3 does.  pandas reads many
    more formats; the theorems hold for every parser. *)
Global Instance iso_parser : DatetimeParser.
Proof.
  refine {| to_datetime := iso_to_datetime |}.
  intros s s'. unfold iso_to_datetime. case_decide; [|done].
  intros [= <-]. by rewrite !length_fmap.
Defined.

(** The text of one value on its own. *)
Definition cell_text (c : cell) : option string :=
  match c with
  | CStr s => Some s
  | CInt z => Some (pretty z)
  | CTime t => Some (timestamp_str t)
  | CNaN | CNaT => None
  end.

(** The cell text used where an example has to be evaluated: what pandas 3
    makes of a row of a table that has a column of text and no blank among
    its numbers.  The theorems hold for every cell text. *)
Global Instance object_text : CellText.
Proof.
  refine {| astype_str := fun _ r => cell_text <$> r |}.
  - intros _ r. apply length_fmap.
  - intros _ r j s Hj. by rewrite list_lookup_fmap, Hj.
Defined.

(** ** The words of the specification *)

(** [q] occurs in [s] as a run of consecutive characters. *)
Definition infix_of (q s : list ascii) : Prop :=
  ∃ pre post, s = pre ++ q ++ post.

(** [s] contains [q] as a substring, upper and lower case taken as equal. *)
Definition contains_ci (q s : string) : Prop :=
  infix_of (lower <$> chars q) (lower <$> chars s).

(** Text of ASCII characters only. *)
Definition is_ascii (s : string) : Prop :=
  Forall (fun a => nat_of_ascii a < 128) (chars s).

(** The four letters outside ASCII that a search ignoring case takes for
    an ASCII letter, as UTF-8: U+0130 and U+0131 (for i), U+017F (for s)
    and U+212A (for k). *)
Definition ascii_lookalikes : list (list ascii) :=
  [ascii_of_nat <$> [196; 176]; ascii_of_nat <$> [196; 177];
   ascii_of_nat <$> [197; 191]; ascii_of_nat <$> [226; 132; 170]].

(** Text that holds none of them. *)
Definition plain_case (s : string) : Prop :=
  ∀ w, w ∈ ascii_lookalikes → ¬ infix_of w (chars s).

(** The number of rows of language [l] whose status cell is exactly [s],
    counted on the two columns side by side. *)
Definition requests_with (s : string) (l : cell) (language hl : list cell) : nat :=
  length (filter (fun p => p.1 = l ∧ p.2 = CStr s) (zip language hl)).

(** The column of cells at a position. *)
Definition column_at (j : nat) (df : DataFrame) : list cell := cell_at j <$> rows df.

(** The sum of the integers of a count column. *)
Definition sum_counts (col : list cell) : Z :=
  foldr (fun c acc => int_of c + acc)%Z 0%Z col.

(** The date-times of a series, the unreadable ones left out. *)
Definition readable (stamps : list (option Timestamp)) : list Timestamp :=
  omap id stamps.

(** The number of date-times of a series that fall on the day [d]. *)
Definition on_day (d : string) (stamps : list (option Timestamp)) : nat :=
  length (filter (fun o => day_name <$> o = Some d) stamps).

(** Ascending order of the months of the monthly chart. *)
Definition month_le (p q : cell * cell) : Prop :=
  String.leb (key_text p.1) (key_text q.1) = true.








(** The pairs (language, count) of the gap table. *)
Definition gap_pairs (entries : list GapEntry) : list (cell * nat) :=
  (fun e => (gap_Language e, gap_Unfulfilled e)) <$> entries.

(** The languages of the rows whose status is ["NO"]. *)
Definition unfulfilled_languages (i j : nat) (df : DataFrame) : list cell :=
  cell_at i <$> filter (fun r => eq_str "NO" (cell_at j r) = true) (rows df).

(** The value of a computation that did not raise. *)
Definition result_of {A} (r : res A) : option A :=
  match r with Ok a => Some a | Raise _ => None end.

(** [load_data]'s treatment of the master sheet's header. *)
Definition strip_columns (t : DataFrame) : DataFrame :=
  mkDataFrame (strip <$> columns t) (rows t).

(** The three steps of [load_data], one per uploaded file. *)
Definition master_step (master_file : option UploadedFile)
    : res (gmap string DataFrame) :=
  match master_file with
  | Some f =>
      m ← read_excel f None;
      cols ← str_strip (columns m);
      Ok (<["master" := mkDataFrame cols (rows m)]> ∅)
  | None => Ok ∅
  end.

Definition analysis_step (analysis_file : option UploadedFile)
    (data : gmap string DataFrame) : res (gmap string DataFrame) :=
  match analysis_file with
  | Some f =>
      match read_excel f (Some "All Historical Data") with
      | Raise _ => load_default_sheet f data
      | Ok a =>
          let data := <["analysis" := a]> data in
          match read_excel f (Some "Summary") with
          | Raise _ => load_default_sheet f data
          | Ok s => Ok (<["summary" := s]> data)
          end
      end
  | None => Ok data
  end.

Definition linguist_step (linguist_file : option UploadedFile)
    (data : gmap string DataFrame) : res (gmap string DataFrame) :=
  match linguist_file with
  | Some f => l ← read_excel f None; Ok (<["linguists" := l]> data)
  | None => Ok data
  end.

(** ** Worked examples *)

(** The scenario of the specification, with a language above ten added. *)
Definition scenario : DataFrame :=
  mkDataFrame ["Language"; "Has Linguist?"]
    ([[CStr "Spanish"; CStr "YES"]; [CStr "Spanish"; CStr "NO"]]
     ++ replicate 6 [CStr "Farsi"; CStr "NO"]
     ++ replicate 2 [CStr "Klingon"; CStr "NO"]
     ++ replicate 11 [CStr "Dari"; CStr "NO"]).

(** Status cells that are neither ["YES"] nor ["NO"]. *)
Definition mixed_status : DataFrame :=
  mkDataFrame ["Language"; "Has Linguist?"]
    [[CStr "Spanish"; CStr "YES"]; [CStr "Spanish"; CStr "yes"];
     [CStr "Farsi"; CStr "NO"]; [CStr "Farsi"; CStr "Yes"];
     [CStr "Dari"; CNaN]].

(** A master table whose dates are still text, one of them unreadable. *)
Definition master_table : DataFrame :=
  mkDataFrame ["Row Added"; "Priority"]
    [[CStr "2024-01-01"; CStr "HIGH"];
     [CStr "TBD"; CStr "NORMAL"];
     [CStr "2024-01-07"; CStr "HIGH"];
     [CStr "2024-01-08"; CStr "URGENT"]].

Definition master_example : gmap string DataFrame :=
  {[ "master" := master_table ]}.

(** A master table whose dates carry two different UTC offsets. *)
Definition two_offsets : DataFrame :=
  mkDataFrame ["Row Added"]
    [[CStr "2024-01-01 10:00:00+01:00"]; [CStr "2024-01-02 10:00:00+02:00"]].

(** A master table without the [Row Added] column. *)
Definition undated : DataFrame :=
  mkDataFrame ["Priority"] [[CStr "HIGH"]; [CStr "NORMAL"]].

(** A workbook with a single sheet, and one that lacks the summary sheet. *)
Definition one_sheet : UploadedFile :=
  Some [("Sheet1", mkDataFrame ["Language"] [[CStr "Farsi"]])].

Definition no_summary : UploadedFile :=
  Some [("Cover", mkDataFrame ["Title"] [[CStr "Requests"]]);
        ("All Historical Data", mkDataFrame ["Language"] [[CStr "Farsi"]])].

(** A workbook that lacks neither named sheet. *)
Definition both_sheets : UploadedFile :=
  Some [("Summary", mkDataFrame ["Total"] [[CInt 7]]);
        ("All Historical Data",
         mkDataFrame [" Language"] [[CStr "Farsi"]])].


(** U+00A0, the no-break space. *)
Definition nbsp : string := string_of_list_ascii (ascii_of_nat <$> [194; 160]).

(** A master workbook whose first header carries white space, a no-break
    space included. *)
Definition padded_master : UploadedFile :=
  Some [("Requests",
         mkDataFrame [" Row Added " +:+ nbsp; "Priority"]
           [[CStr "2024-01-01"; CStr "HIGH"]])].

(** An analysis table with the status column and no language column. *)
Definition status_only : DataFrame :=
  mkDataFrame ["Has Linguist?"] [[CStr "NO"]].

Definition spanish_rows : DataFrame :=
  mkDataFrame ["COI"; "Language"]
    [[CInt 101; CStr "Spanish"]; [CInt 102; CStr "Farsi"];
     [CInt 103; CStr "SPANISH"]; [CInt 104; CNaN]].


(** ** Tactics *)

(** One step of the error monad. *)
Tactic Notation "bind_step" := cbn [mbind res_bind].
Tactic Notation "bind_step" "in" hyp(H) := cbn [mbind res_bind] in H.

(** Membership in a list written out in full. *)
Ltac in_literal H :=
  apply list_elem_of_In in H;
  repeat (destruct H as [<-|H]; [reflexivity|]); destruct H.


(** * Properties *)

(** ** Columns and row selection *)

Lemma has_column_index (col : string) (df : DataFrame) :
  has_column col df = true ↔ ∃ i, column_index col df = Some i.
Proof.
  unfold has_column, column_index. rewrite bool_decide_eq_true. split.
  - intros Hin. destruct (list_find_elem_of (eq col) (columns df) col Hin eq_refl)
      as [[i y] Hf]. exists i. by rewrite Hf.
  - intros [i Hi]. destruct (list_find (eq col) (columns df)) as [[j y]|] eqn:Hf;
      [|done]. apply list_find_Some in Hf as (Hl & <- & _).
    eapply list_elem_of_lookup_2; eauto.
Qed.

Lemma get_column_Ok (col : string) (df : DataFrame) (s : list cell) :
  get_column col df = Ok s →
  ∃ i, column_index col df = Some i ∧ s = cell_at i <$> rows df.
Proof.
  unfold get_column. destruct (column_index col df) as [i|]; [|done].
  intros [= <-]. eauto.
Qed.

Lemma has_column_get (col : string) (df : DataFrame) :
  has_column col df = true → ∃ s, get_column col df = Ok s.
Proof.
  intros [i Hi]%has_column_index. unfold get_column. rewrite Hi. eauto.
Qed.

Lemma get_column_has (col : string) (df : DataFrame) (s : list cell) :
  get_column col df = Ok s → has_column col df = true.
Proof.
  intros (i & Hi & _)%get_column_Ok. apply has_column_index. eauto.
Qed.

Lemma get_column_length (col : string) (df : DataFrame) (s : list cell) :
  get_column col df = Ok s → length s = len df.
Proof.
  intros (i & _ & ->)%get_column_Ok. by rewrite length_fmap.
Qed.

Lemma select_rows_fmap (f : list cell → bool) (rs : list (list cell)) :
  select_rows (f <$> rs) rs = filter (fun r => f r = true) rs.
Proof.
  induction rs as [|r rs IH]; [done|]. cbn [fmap list_fmap select_rows].
  rewrite filter_cons. destruct (f r) eqn:Hf.
  - rewrite decide_True by done. by rewrite IH.
  - rewrite decide_False by done. exact IH.
Qed.

(** Selecting by a mask computed from a column keeps the rows whose cell
    in that column passes the test. *)
Lemma boolean_index_column (col : string) (df : DataFrame) (s : list cell)
    (f : cell → bool) (i : nat) :
  column_index col df = Some i →
  get_column col df = Ok s →
  boolean_index (f <$> s) df
  = mkDataFrame (columns df) (filter (fun r => f (cell_at i r) = true) (rows df)).
Proof.
  intros Hi (j & Hj & ->)%get_column_Ok. assert (j = i) as -> by congruence.
  unfold boolean_index. f_equal. rewrite <- list_fmap_compose.
  apply (select_rows_fmap (f ∘ cell_at i)).
Qed.

(** ** Counting values *)

Lemma insert_desc_perm (x : cell * nat) (l : list (cell * nat)) :
  insert_desc x l ≡ₚ x :: l.
Proof.
  induction l as [|y l IH]; [done|]. cbn. case_decide; [done|].
  rewrite IH. apply Permutation_swap.
Qed.

Lemma sort_desc_perm (l : list (cell * nat)) : sort_desc l ≡ₚ l.
Proof.
  induction l as [|x l IH]; [done|]. cbn. rewrite insert_desc_perm.
  by constructor.
Qed.

Lemma insert_desc_sorted (x : cell * nat) (l : list (cell * nat)) :
  StronglySorted count_ge l → StronglySorted count_ge (insert_desc x l).
Proof.
  induction 1 as [|y l Hs IH Hall]; cbn.
  - repeat constructor.
  - case_decide as Hle.
    + constructor; [by constructor|]. constructor; [exact Hle|].
      eapply Forall_impl; [exact Hall|]. unfold count_ge. intros z Hz. cbn in *. lia.
    + constructor; [exact IH|]. rewrite insert_desc_perm. constructor; [|exact Hall].
      unfold count_ge. lia.
Qed.

Lemma sort_desc_sorted (l : list (cell * nat)) :
  StronglySorted count_ge (sort_desc l).
Proof.
  induction l as [|x l IH]; cbn; [constructor|]. by apply insert_desc_sorted.
Qed.

Lemma uniques_elem_of (x : cell) (l : list cell) : x ∈ uniques l ↔ x ∈ l.
Proof.
  induction l as [|y l IH]; cbn; [done|].
  rewrite !elem_of_cons, list_elem_of_filter, IH.
  destruct (decide (x = y)); tauto.
Qed.

Lemma uniques_NoDup (l : list cell) : NoDup (uniques l).
Proof.
  induction l as [|y l IH]; cbn; constructor.
  - rewrite list_elem_of_filter. tauto.
  - by apply NoDup_filter.
Qed.

Lemma count_eq_cons (k y : cell) (l : list cell) :
  count_eq k (y :: l) = (if decide (k = y) then 1 else 0) + count_eq k l.
Proof.
  unfold count_eq. rewrite filter_cons. by case_decide.
Qed.

Lemma count_eq_pos (k : cell) (l : list cell) : 0 < count_eq k l ↔ k ∈ l.
Proof.
  induction l as [|y l IH]; [rewrite elem_of_nil; cbn; lia|].
  rewrite count_eq_cons, elem_of_cons. case_decide; [|rewrite IH]; intuition lia.
Qed.

Lemma sum_indicator (y : cell) (us : list cell) :
  NoDup us → y ∈ us →
  sum_list_with (fun k => if decide (k = y) then 1 else 0) us = 1.
Proof.
  induction 1 as [|z us Hz Hnd IH]; [by rewrite elem_of_nil|].
  rewrite elem_of_cons. cbn. intros Hy. case_decide as Hzy.
  - subst z. f_equal. clear IH Hy Hnd. induction us as [|u us IH]; [done|].
    cbn. apply not_elem_of_cons in Hz as [Hne Hz]. rewrite decide_False by done.
    by apply IH.
  - destruct Hy as [->|Hy]; [done|]. by apply IH.
Qed.

(** Every element is counted under exactly one of the distinct values. *)
Lemma count_eq_cover (us l : list cell) :
  NoDup us → (∀ x, x ∈ l → x ∈ us) →
  sum_list_with (fun k => count_eq k l) us = length l.
Proof.
  intros Hnd. induction l as [|y l IH]; intros Hcov.
  - clear. induction us as [|u us IH]; [done|]. cbn. exact IH.
  - assert (sum_list_with (fun k => count_eq k (y :: l)) us
            = sum_list_with (fun k => if decide (k = y) then 1 else 0) us
              + sum_list_with (fun k => count_eq k l) us) as ->.
    { clear. induction us as [|u us IH]; [done|].
      cbn [sum_list_with]. rewrite count_eq_cons, IH. lia. }
    rewrite sum_indicator by (try apply Hcov; by try left).
    rewrite IH by (intros x Hx; apply Hcov; by right). done.
Qed.

Lemma value_counts_perm (s : list cell) :
  let present := filter (fun c => isna c = false) s in
  value_counts s ≡ₚ (fun k => (k, count_eq k present)) <$> uniques present.
Proof. apply sort_desc_perm. Qed.

Lemma count_eq_present (k : cell) (s : list cell) :
  isna k = false →
  count_eq k (filter (fun c => isna c = false) s) = count_eq k s.
Proof.
  intros Hk. unfold count_eq. rewrite list_filter_filter. f_equal.
  apply list_filter_iff. intros x. split; [tauto|]. by intros <-.
Qed.

(** What [value_counts] holds: the non-missing values of the series, each
    with the number of its occurrences. *)
Lemma value_counts_elem_of (k : cell) (n : nat) (s : list cell) :
  (k, n) ∈ value_counts s ↔ isna k = false ∧ k ∈ s ∧ n = count_eq k s.
Proof.
  rewrite value_counts_perm, list_elem_of_fmap. split.
  - intros (k' & [= -> ->] & Hin). apply (proj1 (uniques_elem_of _ _)) in Hin.
    apply (proj1 (list_elem_of_filter _ _ _)) in Hin as [Hna Hin].
    by rewrite count_eq_present.
  - intros (Hna & Hin & ->). exists k. rewrite count_eq_present by done.
    split; [done|]. apply uniques_elem_of, list_elem_of_filter. done.
Qed.

Lemma fmap_fst_pair {A} (f : cell → A) (us : list cell) :
  ((fun k => (k, f k)) <$> us).*1 = us.
Proof. induction us as [|u us IH]; [done|]. cbn. by rewrite IH. Qed.

Lemma value_counts_keys_NoDup (s : list cell) : NoDup ((value_counts s).*1).
Proof.
  rewrite value_counts_perm, fmap_fst_pair. apply uniques_NoDup.
Qed.

Lemma value_counts_sorted (s : list cell) : StronglySorted count_ge (value_counts s).
Proof. apply sort_desc_sorted. Qed.

Lemma value_counts_sum (s : list cell) :
  sum_list_with snd (value_counts s) = length (filter (fun c => isna c = false) s).
Proof.
  rewrite value_counts_perm. set (present := filter _ s).
  rewrite <- (count_eq_cover (uniques present) present).
  - generalize (uniques present). intros us. induction us as [|u us IH]; [done|].
    cbn. by rewrite IH.
  - apply uniques_NoDup.
  - intros x. by rewrite uniques_elem_of.
Qed.

Lemma filter_keys_NoDup (P : cell * nat → Prop) `{∀ p, Decision (P p)}
    (l : list (cell * nat)) :
  NoDup (l.*1) → NoDup ((filter P l).*1).
Proof.
  induction l as [|p l IH]; [done|]. cbn [fmap list_fmap].
  intros [Hp Hnd]%NoDup_cons. rewrite filter_cons. case_decide; [|by apply IH].
  cbn [fmap list_fmap]. apply NoDup_cons. split; [|by apply IH].
  intros (q & Hq & Hin)%list_elem_of_fmap.
  apply (proj1 (list_elem_of_filter _ _ _)) in Hin as [_ Hin].
  apply Hp, list_elem_of_fmap. eauto.
Qed.

Lemma filter_sorted {A} (R : relation A) (P : A → Prop) `{∀ x, Decision (P x)}
    (l : list A) :
  StronglySorted R l → StronglySorted R (filter P l).
Proof.
  induction 1 as [|x l Hs IH Hall]; [constructor|].
  rewrite filter_cons. case_decide; [|done]. constructor; [done|].
  apply Forall_forall. intros y [_ Hy]%list_elem_of_filter.
  revert y Hy. by apply Forall_forall.
Qed.

Lemma eq_str_true (s : string) (c : cell) : eq_str s c = true ↔ c = CStr s.
Proof.
  destruct c; cbn; rewrite ?bool_decide_eq_true; split; congruence.
Qed.

(** Counting a language among the selected rows is counting, on the two
    columns side by side, the rows of that language with that status. *)
Lemma count_selected (s : string) (k : cell) (i j : nat) (rs : list (list cell)) :
  count_eq k (cell_at i <$> filter (fun r => eq_str s (cell_at j r) = true) rs)
  = requests_with s k (cell_at i <$> rs) (cell_at j <$> rs).
Proof.
  unfold count_eq, requests_with. induction rs as [|r rs IH]; [done|].
  cbn [fmap list_fmap zip zip_with]. rewrite !filter_cons. cbn [fst snd].
  destruct (eq_str s (cell_at j r)) eqn:Hs.
  - apply eq_str_true in Hs. rewrite decide_True by done.
    cbn [fmap list_fmap]. rewrite filter_cons.
    destruct (decide (k = cell_at i r)) as [->|Hne].
    + rewrite decide_True by done. cbn [length]. by rewrite IH.
    + rewrite decide_False by (intros [? _]; congruence). exact IH.
  - rewrite decide_False by done.
    rewrite decide_False; [exact IH|].
    intros [_ Hc]. apply eq_str_true in Hc. congruence.
Qed.

Lemma priority_of_spec (x : nat) :
  (priority_of x = "CRITICAL" ↔ 10 ≤ x)
  ∧ (priority_of x = "HIGH" ↔ 5 ≤ x < 10)
  ∧ (priority_of x = "MEDIUM" ↔ x < 5).
Proof.
  unfold priority_of. repeat case_decide; repeat split; intros; try lia; try done.
Qed.

(** The gap table as a function of the unfulfilled rows' languages. *)
Lemma critical_gaps_unfold (df : DataFrame) (language hl : list cell) :
  get_column "Language" df = Ok language →
  get_column "Has Linguist?" df = Ok hl →
  ∃ out nl,
    critical_gaps df = Ok out
    ∧ (∀ k, count_eq k nl = requests_with "NO" k language hl)
    ∧ default [] out
      = (fun p => mkGapEntry p.1 p.2 (priority_of p.2))
          <$> filter (fun p => 5 ≤ p.2) (value_counts nl).
Proof.
  intros Hl Hh. unfold critical_gaps.
  rewrite (get_column_has _ _ _ Hh), Hh. bind_step.
  destruct (get_column_Ok _ _ _ Hl) as (i & Hi & ->).
  destruct (get_column_Ok _ _ _ Hh) as (j & Hj & Ehl).
  rewrite (boolean_index_column _ _ _ (eq_str "NO") j Hj Hh). subst hl.
  set (sel := filter _ (rows df)).
  exists (if negb (is_empty (mkDataFrame (columns df) sel))
          then Some ((fun p => mkGapEntry p.1 p.2 (priority_of p.2))
                       <$> filter (fun p => 5 ≤ p.2) (value_counts (cell_at i <$> sel)))
          else None), (cell_at i <$> sel).
  split; [|split].
  - destruct (is_empty _); cbn [negb]; [done|].
    unfold get_column, column_index in *. cbn [columns rows]. by rewrite Hi.
  - intros k. apply count_selected.
  - destruct (is_empty _) eqn:He; cbn [negb default]; [|done].
    unfold is_empty in He. cbn [rows columns] in He.
    destruct sel as [|r sel]; [done|].
    destruct (columns df) as [|c cs] eqn:Hc; [|done].
    unfold column_index in Hi. by rewrite Hc in Hi.
Qed.

(** The entries of the gap table, one by one. *)
Lemma gap_entries_char (nl language hl : list cell) (e : GapEntry) :
  (∀ k, count_eq k nl = requests_with "NO" k language hl) →
  e ∈ (fun p => mkGapEntry p.1 p.2 (priority_of p.2))
        <$> filter (fun p => 5 ≤ p.2) (value_counts nl)
  ↔ isna (gap_Language e) = false
    ∧ gap_Unfulfilled e = requests_with "NO" (gap_Language e) language hl
    ∧ 5 ≤ gap_Unfulfilled e
    ∧ gap_Priority e = priority_of (gap_Unfulfilled e).
Proof.
  intros Hcnt. rewrite list_elem_of_fmap. split.
  - intros ([k n] & -> & Hin). cbn.
    apply (proj1 (list_elem_of_filter _ _ _)) in Hin as [H5 Hin].
    apply (proj1 (value_counts_elem_of _ _ _)) in Hin as (Hna & _ & ->).
    cbn in H5. by rewrite <- Hcnt.
  - destruct e as [l n t]. cbn. intros (Hna & -> & H5 & ->).
    exists (l, requests_with "NO" l language hl). split; [done|].
    apply list_elem_of_filter. split; [done|].
    apply value_counts_elem_of. rewrite Hcnt. split; [done|]. split; [|done].
    apply count_eq_pos. rewrite Hcnt. lia.
Qed.

(** ** C2 *)

(** C2. No entry of the gap table has tier MEDIUM.  The tier function
    does answer MEDIUM, for a count below five, but the count filter has
    removed every such count before the tier is assigned. *)
Theorem critical_gaps_never_medium (df : DataFrame) (entries : list GapEntry)
    (e : GapEntry) :
  critical_gaps df = Ok (Some entries) →
  e ∈ entries →
  gap_Priority e ≠ "MEDIUM"
  ∧ gap_Priority e = priority_of (gap_Unfulfilled e)
  ∧ 5 ≤ gap_Unfulfilled e
  ∧ (∀ x, priority_of x = "MEDIUM" ↔ x < 5).
Proof.
  unfold critical_gaps. destruct (has_column "Has Linguist?" df); [|done].
  destruct (get_column "Has Linguist?" df) as [hl|]; [|done]. bind_step.
  destruct (negb _); [|done].
  destruct (get_column "Language" _) as [language|]; [|done]. bind_step.
  intros [= <-] ([k n] & -> & Hin)%list_elem_of_fmap. cbn.
  apply (proj1 (list_elem_of_filter _ _ _)) in Hin as [H5 _]. cbn in H5.
  split; [|split; [done|split; [done|intros x; apply priority_of_spec]]].
  intros Hm. apply priority_of_spec in Hm. lia.
Qed.

Lemma critical_gaps_never_medium_witness :
  gap_Priority (mkGapEntry (CStr "Farsi") 6 "HIGH") ≠ "MEDIUM".
Proof.
  apply (critical_gaps_never_medium scenario
           [mkGapEntry (CStr "Dari") 11 "CRITICAL"; mkGapEntry (CStr "Farsi") 6 "HIGH"]).
  - vm_compute. reflexivity.
  - apply list_elem_of_further, list_elem_of_here.
Defined.

(** ** Overview metrics *)

Lemma has_column_false_get (col : string) (df : DataFrame) :
  has_column col df = false → get_column col df = Raise (KeyError col).
Proof.
  intros Hf. unfold get_column.
  destruct (column_index col df) as [i|] eqn:Hi; [|done].
  assert (has_column col df = true) by (apply has_column_index; eauto). congruence.
Qed.

(** The overview never raises: each metric reads its column under a
    check that the column is there. *)
Lemma overview_Ok (df : DataFrame) :
  overview df =
  Ok (mkOverview (len df)
        match get_column "Has Linguist?" df with
        | Ok hl => Some (count_str "YES" hl,
                         fulfillment_rate (count_str "YES" hl) (len df))
        | Raise _ => None
        end
        match get_column "Language" df with
        | Ok language => Some (nunique language)
        | Raise _ => None
        end
        match get_column "Has Linguist?" df with
        | Ok hl => Some (count_str "NO" hl)
        | Raise _ => None
        end).
Proof.
  unfold overview.
  destruct (has_column "Has Linguist?" df) eqn:Hh;
    [destruct (has_column_get _ _ Hh) as [hl ->]
    |rewrite (has_column_false_get _ _ Hh)];
  (destruct (has_column "Language" df) eqn:Hl;
    [destruct (has_column_get _ _ Hl) as [language ->]
    |rewrite (has_column_false_get _ _ Hl)]); reflexivity.
Qed.

Lemma count_str_le (s : string) (col : list cell) : count_str s col ≤ length col.
Proof. apply length_filter. Qed.

Lemma ratio_bounds (f t : nat) :
  f ≤ t → 0 < t →
  (0 ≤ Qc_of_Z (Z.of_nat f) / Qc_of_Z (Z.of_nat t) * Qc_of_Z 100
   ∧ Qc_of_Z (Z.of_nat f) / Qc_of_Z (Z.of_nat t) * Qc_of_Z 100 ≤ Qc_of_Z 100)%Qc.
Proof.
  intros Hle Hpos.
  assert (0 < Qc_of_Z (Z.of_nat t))%Qc as Ht
    by (apply (proj1 (Z2Qc_inj_lt 0 (Z.of_nat t))); lia).
  assert (0 ≤ Qc_of_Z (Z.of_nat f))%Qc as Hf
    by (apply (proj1 (Z2Qc_inj_le 0 (Z.of_nat f))); lia).
  assert (0 ≤ Qc_of_Z 100)%Qc as H100
    by (by apply (proj1 (Z2Qc_inj_le 0 100))).
  assert (Qc_of_Z (Z.of_nat f) ≤ Qc_of_Z (Z.of_nat t))%Qc as Hft
    by (apply (proj1 (Z2Qc_inj_le _ _)); lia).
  assert (0 ≤ Qc_of_Z (Z.of_nat f) / Qc_of_Z (Z.of_nat t))%Qc as H0.
  { apply Qcmult_nonneg_nonneg; [done|]. apply Qclt_le_weak, Qcinv_pos, Ht. }
  assert (Qc_of_Z (Z.of_nat f) / Qc_of_Z (Z.of_nat t) ≤ 1)%Qc as H1.
  { apply (Qcmult_le_mono_pos_r _ _ (Qc_of_Z (Z.of_nat t))); [done|].
    rewrite Qcmult_1_l, Qcmult_comm, Qcmult_div_r; [done|].
    intros E. rewrite E in Ht. by apply Qclt_not_eq in Ht. }
  split.
  - by apply Qcmult_nonneg_nonneg.
  - rewrite <- (Qcmult_1_l (Qc_of_Z 100)) at 2.
    by apply Qcmult_le_mono_nonneg_r.
Qed.

(** ** C4 *)

(** C4. For a table with the [Has Linguist?] column the fulfillment rate
    is a finite number (never NaN, never an infinity): it is 0 for the
    empty table, the number of rows whose status is ["YES"] divided by the
    number of rows, times 100, for a non-empty one, and it always lies
    between 0 and 100.  Numbers are exact rationals here. *)
Theorem fulfillment_rate_spec (df : DataFrame) (hl : list cell) :
  get_column "Has Linguist?" df = Ok hl →
  ∃ ov q,
    overview df = Ok ov
    ∧ ov_fulfillment ov = Some (count_str "YES" hl, Num q)
    ∧ (len df = 0 → q = Qc_of_Z 0)
    ∧ (0 < len df →
       q = (Qc_of_Z (Z.of_nat (count_str "YES" hl)) / Qc_of_Z (Z.of_nat (len df))
            * Qc_of_Z 100)%Qc)
    ∧ (Qc_of_Z 0 ≤ q)%Qc ∧ (q ≤ Qc_of_Z 100)%Qc.
Proof.
  intros Hh. rewrite overview_Ok, Hh.
  pose proof (count_str_le "YES" hl) as Hle.
  rewrite (get_column_length _ _ _ Hh) in Hle.
  unfold fulfillment_rate. destruct (decide (0 < len df)) as [Hpos|Hz].
  - unfold true_divide. destruct (len df) as [|t] eqn:Ht; [lia|].
    do 2 eexists. split; [reflexivity|]. cbn [ov_fulfillment times_100].
    split; [reflexivity|]. split; [lia|]. split; [done|].
    rewrite Z2Qc_inj_0. apply ratio_bounds; lia.
  - do 2 eexists. split; [reflexivity|]. cbn [ov_fulfillment].
    split; [reflexivity|]. split; [by rewrite Z2Qc_inj_0|]. split; [lia|].
    split; [done|]. by apply (proj1 (Z2Qc_inj_le 0 100)).
Qed.

Lemma fulfillment_rate_spec_witness :
  overview (mkDataFrame ["Has Linguist?"] [])
  = Ok (mkOverview 0 (Some (0, Num 0%Qc)) None (Some 0))
  ∧ ∃ ov q,
      overview scenario = Ok ov
      ∧ ov_fulfillment ov = Some (1, Num q)
      ∧ (Qc_of_Z 0 ≤ q)%Qc ∧ (q ≤ Qc_of_Z 100)%Qc.
Proof.
  split; [reflexivity|].
  destruct (fulfillment_rate_spec scenario (cell_at 1 <$> rows scenario) eq_refl)
    as (ov & q & Ho & Hf & _ & _ & H0 & H100).
  exists ov, q. split; [exact Ho|]. split; [exact Hf|]. split; [exact H0|exact H100].
Defined.

(** ** Exact status values *)

Lemma count_str_filter (s : string) (col : list cell) :
  count_str s col = length (filter (eq (CStr s)) col).
Proof.
  unfold count_str. f_equal. apply list_filter_iff. intros c.
  rewrite eq_str_true. split; congruence.
Qed.

(** Rows counted as fulfilled, as unfulfilled, and the rest make up the
    whole column. *)
Lemma count_str_partition (col : list cell) :
  count_str "YES" col + count_str "NO" col
  + length (filter (fun c => c ≠ CStr "YES" ∧ c ≠ CStr "NO") col)
  = length col.
Proof.
  unfold count_str. induction col as [|c col IH]; [done|].
  rewrite !filter_cons. cbn [length]. rewrite <- IH.
  destruct (eq_str "YES" c) eqn:Hy, (eq_str "NO" c) eqn:Hn.
  - apply eq_str_true in Hy, Hn. congruence.
  - apply eq_str_true in Hy. rewrite decide_True, decide_False by done.
    rewrite decide_False by (intros [? _]; done). cbn [length]. lia.
  - apply eq_str_true in Hn. rewrite decide_False, decide_True by done.
    rewrite decide_False by (intros [_ ?]; done). cbn [length]. lia.
  - rewrite !decide_False by done.
    rewrite decide_True; [cbn [length]; lia|].
    split; intros E; apply eq_str_true in E; congruence.
Qed.

Lemma filter_length_pos {A} (P : A → Prop) `{∀ x, Decision (P x)} (l : list A) :
  0 < length (filter P l) ↔ ∃ x, x ∈ l ∧ P x.
Proof.
  split.
  - destruct (filter P l) as [|x l'] eqn:E; cbn; [lia|]. intros _.
    assert (x ∈ filter P l) as Hx by (rewrite E; left).
    apply (proj1 (list_elem_of_filter _ _ _)) in Hx. exists x. tauto.
  - intros (x & Hx & HP).
    assert (x ∈ filter P l) as Hin by (apply list_elem_of_filter; done).
    destruct (filter P l); [by apply elem_of_nil in Hin|cbn; lia].
Qed.

(** ** Language statistics *)

Lemma process_language_stats_Ok (df : DataFrame) (language : list cell) :
  get_column "Language" df = Ok language →
  process_language_stats df =
  Ok match get_column "Has Linguist?" df with
     | Ok hl =>
         mkDataFrame ["Language"; "Request Count"; "Status"]
           (merge_left (value_counts language)
              (groupby_apply language hl sourcing_of))
     | Raise _ =>
         mkDataFrame ["Language"; "Request Count"]
           ((fun p => [p.1; CInt (Z.of_nat p.2)]) <$> value_counts language)
     end.
Proof.
  intros Hl. unfold process_language_stats.
  rewrite (get_column_has _ _ _ Hl), Hl. cbn [negb mbind res_bind].
  destruct (has_column "Has Linguist?" df) eqn:Hh.
  - by destruct (has_column_get _ _ Hh) as [hl ->].
  - by rewrite (has_column_false_get _ _ Hh).
Qed.

Lemma sum_counts_pairs (l : list (cell * nat)) :
  sum_counts ((fun p => CInt (Z.of_nat p.2)) <$> l) = Z.of_nat (sum_list_with snd l).
Proof.
  induction l as [|p l IH]; [done|].
  cbn [fmap list_fmap sum_counts foldr sum_list_with int_of].
  unfold sum_counts in IH. rewrite IH. lia.
Qed.

Lemma filter_all {A} (P : A → Prop) `{∀ x, Decision (P x)} (l : list A) :
  (∀ x, x ∈ l → P x) → filter P l = l.
Proof.
  induction l as [|x l IH]; [done|]. intros Hall.
  rewrite filter_cons_True by (apply Hall; left).
  f_equal. apply IH. intros y Hy. apply Hall. by right.
Qed.

Lemma get_column_at (i : nat) (col : string) (cols : list string)
    (rs : list (list cell)) :
  column_index col (mkDataFrame cols []) = Some i →
  get_column col (mkDataFrame cols rs) = Ok (cell_at i <$> rs).
Proof. unfold get_column, column_index. cbn [columns rows]. by intros ->. Qed.

(** The two leading columns of the language table are the pairs of
    [value_counts], with or without the status column. *)
Lemma process_language_stats_columns (df : DataFrame) (language : list cell) :
  get_column "Language" df = Ok language →
  ∃ out,
    process_language_stats df = Ok out
    ∧ get_column "Language" out = Ok ((value_counts language).*1)
    ∧ get_column "Request Count" out
      = Ok ((fun p => CInt (Z.of_nat p.2)) <$> value_counts language).
Proof.
  intros Hl. rewrite (process_language_stats_Ok _ _ Hl).
  eexists. split; [reflexivity|].
  destruct (get_column "Has Linguist?" df) as [hl|]; unfold merge_left;
    (split; [rewrite (get_column_at 0) by reflexivity
            |rewrite (get_column_at 1) by reflexivity]);
    cbn [rows]; by rewrite <- list_fmap_compose.
Qed.

(** ** C5 *)

(** C5. If the table has no [Language] column, the language statistics
    are the empty table, and nothing is raised.  Otherwise the statistics
    list each non-missing language once with the number of its rows, as a
    non-negative integer, in descending order of count; and when the
    [Language] column has no missing value the counts add up to the number
    of rows of the table. *)
Theorem language_counts_spec (df : DataFrame) :
  (has_column "Language" df = false → process_language_stats df = Ok empty_frame)
  ∧ (∀ language, get_column "Language" df = Ok language →
       ∃ out pairs,
         process_language_stats df = Ok out
         ∧ get_column "Language" out = Ok (pairs.*1)
         ∧ get_column "Request Count" out
           = Ok ((fun p => CInt (Z.of_nat p.2)) <$> pairs)
         ∧ NoDup (pairs.*1)
         ∧ (∀ l n, (l, n) ∈ pairs
                   ↔ isna l = false ∧ l ∈ language ∧ n = count_eq l language)
         ∧ StronglySorted (fun p q => q.2 ≤ p.2) pairs
         ∧ Forall (fun c => 0 ≤ int_of c)%Z
             ((fun p => CInt (Z.of_nat p.2)) <$> pairs)
         ∧ ((∀ c, c ∈ language → isna c = false) →
            sum_counts ((fun p => CInt (Z.of_nat p.2)) <$> pairs)
            = Z.of_nat (len df))).
Proof.
  split.
  - intros Hf. unfold process_language_stats. by rewrite Hf.
  - intros language Hl.
    destruct (process_language_stats_columns df language Hl) as (out & Ho & Hc1 & Hc2).
    exists out, (value_counts language).
    split; [exact Ho|]. split; [exact Hc1|]. split; [exact Hc2|].
    split; [apply value_counts_keys_NoDup|].
    split; [intros l n; apply value_counts_elem_of|].
    split; [apply value_counts_sorted|]. split.
    + apply Forall_fmap, Forall_forall. intros p _. cbn. lia.
    + intros Hna. rewrite sum_counts_pairs, value_counts_sum.
      rewrite <- (get_column_length _ _ _ Hl). f_equal. f_equal.
      apply filter_all. intros c Hc. by apply Hna.
Qed.

Lemma language_counts_spec_witness :
  process_language_stats (mkDataFrame ["Requester"] [[CStr "Court A"]]) = Ok empty_frame
  ∧ process_language_stats scenario
    = Ok (mkDataFrame ["Language"; "Request Count"; "Status"]
            [[CStr "Dari"; CInt 11; CStr "Not Sourceable"];
             [CStr "Farsi"; CInt 6; CStr "Not Sourceable"];
             [CStr "Spanish"; CInt 2; CStr "Sourceable"];
             [CStr "Klingon"; CInt 2; CStr "Not Sourceable"]])
  ∧ ∃ out (pairs : list (cell * nat)),
      process_language_stats scenario = Ok out
      ∧ sum_counts ((fun p => CInt (Z.of_nat p.2)) <$> pairs) = 21%Z.
Proof.
  split; [|split].
  - apply (language_counts_spec (mkDataFrame ["Requester"] [[CStr "Court A"]])).
    vm_compute. reflexivity.
  - vm_compute. reflexivity.
  - destruct (proj2 (language_counts_spec scenario) (cell_at 0 <$> rows scenario) eq_refl)
      as (out & pairs & Ho & _ & _ & _ & _ & _ & _ & Hsum).
    exists out, pairs. split; [exact Ho|]. apply Hsum.
    intros c Hc. in_literal Hc.
Defined.

(** ** Sourcing status *)

Lemma assoc_fmap_pair {A} (g : cell → A) (us : list cell) (k : cell) :
  k ∈ us → assoc k ((fun u => (u, g u)) <$> us) = Some (g k).
Proof.
  induction us as [|u us IH]; [by intros ?%elem_of_nil|].
  cbn [fmap list_fmap assoc]. case_decide as Hu; [by subst|].
  intros [->|Hin]%elem_of_cons; [done|]. by apply IH.
Qed.

(** A language is sourceable exactly when one of its rows has the status
    ["YES"]. *)
Lemma sourcing_of_group (k : cell) (keys vals : list cell) :
  sourcing_of (snd <$> filter (fun kv => kv.1 = k) (zip keys vals)) = "Sourceable"
  ↔ (k, CStr "YES") ∈ zip keys vals.
Proof.
  unfold sourcing_of.
  destruct (existsb _ _) eqn:He.
  - split; [intros _|done]. apply existsb_exists in He as (c & Hc & Hy).
    apply eq_str_true in Hy. subst c. apply list_elem_of_In in Hc.
    apply list_elem_of_fmap in Hc as ([k' v] & Hv & Hin). cbn in Hv. subst v.
    apply (proj1 (list_elem_of_filter _ _ _)) in Hin as [Hk Hin]. cbn in Hk. by subst.
  - split; [done|]. intros Hin. exfalso.
    assert (existsb (eq_str "YES")
              (snd <$> filter (fun kv => kv.1 = k) (zip keys vals)) = true) as Ht;
      [|congruence].
    apply existsb_exists. exists (CStr "YES"). split; [|by apply eq_str_true].
    apply list_elem_of_In, list_elem_of_fmap. exists (k, CStr "YES").
    split; [done|]. by apply list_elem_of_filter.
Qed.

Lemma sourcing_of_cases (x : list cell) :
  sourcing_of x = "Sourceable" ∨ sourcing_of x = "Not Sourceable".
Proof. unfold sourcing_of. destruct (existsb _ _); auto. Qed.

(** ** C10 *)

(** C10. The status column is compared by exact string equality.  The
    fulfilled count is the number of cells equal to the string ["YES"], the
    unfulfilled count the number of cells equal to ["NO"]; together they
    never exceed the number of rows and fall short of it exactly when some
    cell is neither; a language is Sourceable exactly when one of its rows
    has the status ["YES"]; and values such as ["yes"], ["Yes"] or a blank
    count for neither. *)
Theorem status_comparisons_exact (df : DataFrame) (hl : list cell) :
  get_column "Has Linguist?" df = Ok hl →
  ∃ ov rate,
    overview df = Ok ov
    ∧ ov_fulfillment ov = Some (length (filter (eq (CStr "YES")) hl), rate)
    ∧ ov_unfulfilled ov = Some (length (filter (eq (CStr "NO")) hl))
    ∧ length (filter (eq (CStr "YES")) hl) + length (filter (eq (CStr "NO")) hl)
      ≤ len df
    ∧ (length (filter (eq (CStr "YES")) hl) + length (filter (eq (CStr "NO")) hl)
       < len df
       ↔ ∃ c, c ∈ hl ∧ c ≠ CStr "YES" ∧ c ≠ CStr "NO")
    ∧ (∀ language, get_column "Language" df = Ok language →
       ∃ stats,
         process_language_stats df = Ok stats
         ∧ ∀ r, r ∈ rows stats →
             ∃ l n s, r = [l; CInt n; CStr s]
               ∧ (s = "Sourceable" ↔ (l, CStr "YES") ∈ zip language hl)
               ∧ (s ≠ "Sourceable" → s = "Not Sourceable"))
    ∧ (∀ language, get_column "Language" df = Ok language →
       ∃ out,
         critical_gaps df = Ok out
         ∧ ∀ e, e ∈ default [] out →
             gap_Unfulfilled e = requests_with "NO" (gap_Language e) language hl)
    ∧ count_str "YES" [CStr "yes"; CStr "Yes"; CStr " YES"; CStr ""; CNaN] = 0
    ∧ count_str "NO" [CStr "no"; CStr "No"; CStr "NO "; CStr ""; CNaN] = 0.
Proof.
  intros Hh. rewrite overview_Ok, Hh. do 2 eexists.
  split; [reflexivity|]. cbn [ov_fulfillment ov_unfulfilled].
  rewrite <- !count_str_filter.
  pose proof (count_str_partition hl) as Hp.
  rewrite (get_column_length _ _ _ Hh) in Hp.
  split; [reflexivity|]. split; [reflexivity|]. split; [lia|].
  split; [|split; [|split; [|split; reflexivity]]].
  - rewrite <- (filter_length_pos (fun c => c ≠ CStr "YES" ∧ c ≠ CStr "NO")). lia.
  - intros language Hl. rewrite (process_language_stats_Ok _ _ Hl), Hh.
    eexists. split; [reflexivity|]. cbn [rows]. unfold merge_left.
    intros r ([l n] & -> & Hin)%list_elem_of_fmap. cbn [fst snd].
    apply (proj1 (value_counts_elem_of _ _ _)) in Hin as (Hna & Hin & _).
    unfold groupby_apply. rewrite assoc_fmap_pair
      by (apply uniques_elem_of, list_elem_of_filter; done).
    do 3 eexists. split; [reflexivity|]. split; [apply sourcing_of_group|].
    intros Hne. by destruct (sourcing_of_cases
      (snd <$> filter (fun kv => kv.1 = l) (zip language hl))).
  - intros language Hl.
    destruct (critical_gaps_unfold df language hl Hl Hh)
      as (out & nl & Hout & Hcnt & Hent).
    exists out. split; [exact Hout|]. rewrite Hent.
    intros e He. apply (proj1 (gap_entries_char nl language hl e Hcnt)) in He.
    tauto.
Qed.

Lemma status_comparisons_exact_witness :
  ∃ ov rate,
    overview mixed_status = Ok ov
    ∧ ov_fulfillment ov = Some (1, rate)
    ∧ ov_unfulfilled ov = Some 1
    ∧ 1 + 1 < len mixed_status.
Proof.
  destruct (status_comparisons_exact mixed_status (cell_at 1 <$> rows mixed_status)
              eq_refl) as (ov & rate & Ho & Hf & Hu & _).
  exists ov, rate. split; [exact Ho|]. split; [exact Hf|]. split; [exact Hu|].
  vm_compute. lia.
Defined.

(** ** Writing and reading columns *)

Lemma column_index_lookup (col : string) (df : DataFrame) (j : nat) :
  column_index col df = Some j → columns df !! j = Some col.
Proof.
  unfold column_index. destruct (list_find _ _) as [[i y]|] eqn:Hf; [|done].
  intros [= <-]. by apply list_find_Some in Hf as (Hl & <- & _).
Qed.

Lemma column_index_lt (col : string) (df : DataFrame) (j : nat) :
  column_index col df = Some j → j < length (columns df).
Proof. intros Hj%column_index_lookup. by eapply lookup_lt_Some. Qed.

Lemma column_index_same_columns (col : string) (df df' : DataFrame) :
  columns df' = columns df → column_index col df' = column_index col df.
Proof. unfold column_index. by intros ->. Qed.

Lemma get_column_at_index (col : string) (df : DataFrame) (j : nat) :
  column_index col df = Some j → get_column col df = Ok (column_at j df).
Proof. unfold get_column. by intros ->. Qed.

Lemma cell_at_row_view (n j : nat) (r : list cell) :
  j < n → cell_at j (row_view n r) = cell_at j r.
Proof.
  intros Hj. unfold cell_at at 1, row_view.
  by rewrite list_lookup_fmap, lookup_seq_lt.
Qed.

Lemma length_row_view (n : nat) (r : list cell) : length (row_view n r) = n.
Proof. unfold row_view. by rewrite length_fmap, length_seq. Qed.

Lemma cell_at_insert (n i j : nat) (v : cell) (r : list cell) :
  i < n → j < n →
  cell_at j (<[i := v]> (row_view n r)) = if decide (i = j) then v else cell_at j r.
Proof.
  intros Hi Hj. unfold cell_at at 1. case_decide as Hij.
  - subst j. by rewrite list_lookup_insert_eq by (by rewrite length_row_view).
  - rewrite list_lookup_insert_ne by done. by apply cell_at_row_view.
Qed.

Lemma cell_at_append (n j : nat) (v : cell) (r : list cell) :
  cell_at j (row_view n r ++ [v])
  = if decide (j < n) then cell_at j r
    else if decide (j = n) then v else CNaN.
Proof.
  unfold cell_at at 1. case_decide as Hj.
  - rewrite lookup_app_l by (by rewrite length_row_view).
    by apply cell_at_row_view.
  - rewrite lookup_app_r by (rewrite length_row_view; lia).
    rewrite length_row_view. case_decide as Hn.
    + subst j. by rewrite Nat.sub_diag.
    + destruct (j - n) as [|k] eqn:E; [lia|done].
Qed.

Lemma fmap_zip_with_l (g : list cell → cell → list cell) (h : list cell → cell)
    (rs : list (list cell)) (vals : list cell) :
  length vals = length rs → (∀ r v, h (g r v) = h r) →
  h <$> zip_with g rs vals = h <$> rs.
Proof.
  intros Hlen Hg. revert vals Hlen.
  induction rs as [|r rs IH]; intros [|v vals]; cbn; try done.
  intros [= Hlen]. by rewrite Hg, IH.
Qed.

Lemma fmap_zip_with_r (g : list cell → cell → list cell) (h : list cell → cell)
    (rs : list (list cell)) (vals : list cell) :
  length vals = length rs → (∀ r v, h (g r v) = v) →
  h <$> zip_with g rs vals = vals.
Proof.
  intros Hlen Hg. revert vals Hlen.
  induction rs as [|r rs IH]; intros [|v vals]; cbn; try done.
  intros [= Hlen]. by rewrite Hg, IH.
Qed.

(** After [df[col] = values] the column reads back as [values]. *)
Lemma get_set_column (col : string) (vals : list cell) (df : DataFrame) :
  length vals = len df →
  get_column col (set_column col vals df) = Ok vals.
Proof.
  intros Hlen. unfold set_column.
  destruct (column_index col df) as [i|] eqn:Hi.
  - rewrite (get_column_at_index col _ i) by done.
    unfold column_at. cbn [rows]. f_equal.
    apply fmap_zip_with_r; [done|]. intros r v.
    rewrite cell_at_insert by (by eapply column_index_lt).
    by rewrite decide_True.
  - assert (column_index col (mkDataFrame (columns df ++ [col]) (rows df))
            = Some (length (columns df))) as Hn.
    { unfold column_index in *. cbn [columns].
      destruct (list_find (eq col) (columns df)) as [[? ?]|] eqn:Hf; [done|].
      rewrite list_find_app_r by done. cbn. by rewrite decide_True. }
    unfold get_column, column_index in *. cbn [columns rows] in *. rewrite Hn.
    f_equal. apply fmap_zip_with_r; [done|]. intros r v.
    rewrite cell_at_append. rewrite decide_False by lia. by rewrite decide_True.
Qed.

(** Writing one column leaves every other column of the table as it was. *)
Lemma set_column_other (c : string) (vals : list cell) (df : DataFrame) (j : nat) :
  length vals = len df →
  j < length (columns df) →
  column_index c df ≠ Some j →
  column_at j (set_column c vals df) = column_at j df.
Proof.
  intros Hlen Hj Hne. unfold set_column, column_at.
  destruct (column_index c df) as [i|] eqn:Hi; cbn [rows].
  - apply fmap_zip_with_l; [done|]. intros r v.
    rewrite cell_at_insert by (done || by eapply column_index_lt).
    rewrite decide_False; [done|congruence].
  - apply fmap_zip_with_l; [done|]. intros r v.
    rewrite cell_at_append. by rewrite decide_True.
Qed.

Lemma set_column_index_other (c col : string) (vals : list cell) (df : DataFrame)
    (j : nat) :
  column_index col df = Some j →
  column_index col (set_column c vals df) = Some j.
Proof.
  intros Hj. unfold set_column. destruct (column_index c df) as [i|]; [done|].
  unfold column_index in *. cbn [columns].
  destruct (list_find (eq col) (columns df)) as [[k y]|] eqn:Hf; [|done].
  by rewrite (list_find_app_l _ _ _ _ _ Hf).
Qed.

Lemma set_column_len (c : string) (vals : list cell) (df : DataFrame) :
  length vals = len df → len (set_column c vals df) = len df.
Proof.
  intros Hlen. unfold set_column, len in *.
  destruct (column_index c df); cbn [rows]; rewrite length_zip_with; lia.
Qed.

Lemma set_column_existing_columns (c : string) (vals : list cell) (df : DataFrame) :
  has_column c df = true → columns (set_column c vals df) = columns df.
Proof.
  intros [i Hi]%has_column_index. unfold set_column. by rewrite Hi.
Qed.

(** ** Counting under a predicate *)

Lemma length_filter_all {A} (P : A → Prop) `{∀ x, Decision (P x)} (l : list A) :
  length (filter P l) = length l ↔ ∀ x, x ∈ l → P x.
Proof.
  induction l as [|x l IH]; [by split; [intros _ ? ?%elem_of_nil|]|].
  rewrite filter_cons. pose proof (length_filter P l) as Hle. case_decide as Hx.
  - cbn [length]. split.
    + intros [= E]. intros y [->|Hy]%elem_of_cons; [done|]. by apply IH.
    + intros Hall. f_equal. apply IH. intros y Hy. apply Hall. by right.
  - cbn [length]. split; [lia|]. intros Hall. destruct Hx. apply Hall. left.
Qed.

Lemma length_filter_none {A} (P : A → Prop) `{∀ x, Decision (P x)} (l : list A) :
  length (filter P l) = 0 ↔ ∀ x, x ∈ l → ¬ P x.
Proof.
  pose proof (filter_length_pos P l) as Hp. split.
  - intros E x Hx HP. assert (0 < length (filter P l)) by (apply Hp; eauto). lia.
  - intros Hall. destruct (length (filter P l)) as [|n] eqn:E; [done|].
    destruct (proj1 Hp) as (x & Hx & HP); [lia|]. by destruct (Hall x Hx).
Qed.

(** The counts of the values that satisfy a test add up to the number of
    elements that satisfy it. *)
Lemma count_eq_cover_filter (P : cell → Prop) `{∀ c, Decision (P c)}
    (us l : list cell) :
  NoDup us → (∀ x, x ∈ l → x ∈ us) →
  sum_list_with (fun k => count_eq k l) (filter P us) = length (filter P l).
Proof.
  intros Hnd Hcov.
  rewrite <- (count_eq_cover (filter P us) (filter P l)).
  - assert (∀ k, k ∈ filter P us → count_eq k (filter P l) = count_eq k l) as Hk.
    { intros k [HP _]%list_elem_of_filter. unfold count_eq.
      rewrite list_filter_filter. f_equal. apply list_filter_iff.
      intros x. split; [tauto|]. by intros <-. }
    revert Hk. generalize (filter P us). intros vs Hk.
    induction vs as [|v vs IH]; [done|]. cbn.
    rewrite Hk by left. f_equal. apply IH. intros k Hk'. apply Hk. by right.
  - by apply NoDup_filter.
  - intros x [HP Hx]%list_elem_of_filter. apply list_elem_of_filter. auto.
Qed.

Lemma sum_list_with_fmap_pair (f : cell → nat) (us : list cell) :
  sum_list_with snd ((fun k => (k, f k)) <$> us) = sum_list_with f us.
Proof. induction us as [|u us IH]; [done|]. cbn. by rewrite IH. Qed.

Lemma filter_fmap_pair (P : cell → Prop) `{∀ c, Decision (P c)}
    (f : cell → nat) (us : list cell) :
  filter (fun p : cell * nat => P p.1) ((fun k => (k, f k)) <$> us)
  = (fun k => (k, f k)) <$> filter P us.
Proof.
  induction us as [|u us IH]; [done|]. cbn [fmap list_fmap].
  rewrite !filter_cons. cbn [fst]. case_decide; cbn [fmap list_fmap]; by rewrite IH.
Qed.

(** The counts [value_counts] gives to the values passing a test add up
    to the number of non-missing elements that pass it. *)
Lemma value_counts_sum_filter (P : cell → Prop) `{∀ c, Decision (P c)}
    (s : list cell) :
  sum_list_with snd (filter (fun p => P p.1) (value_counts s))
  = length (filter P (filter (fun c => isna c = false) s)).
Proof.
  rewrite value_counts_perm. set (present := filter _ s).
  rewrite filter_fmap_pair, sum_list_with_fmap_pair.
  apply count_eq_cover_filter; [apply uniques_NoDup|].
  intros x. by rewrite uniques_elem_of.
Qed.

Lemma value_counts_length (s : list cell) : length (value_counts s) = nunique s.
Proof.
  unfold nunique. rewrite value_counts_perm. by rewrite length_fmap.
Qed.

(** ** C1 *)

Lemma selected_nil_iff (j : nat) (df : DataFrame) :
  filter (fun r => eq_str "NO" (cell_at j r) = true) (rows df) = []
  ↔ CStr "NO" ∉ column_at j df.
Proof.
  unfold column_at. split.
  - intros E (r & Hr & Hin)%list_elem_of_fmap.
    assert (r ∈ filter (fun r => eq_str "NO" (cell_at j r) = true) (rows df)) as Hf
      by (apply list_elem_of_filter; split; [by apply eq_str_true|done]).
    rewrite E in Hf. by apply elem_of_nil in Hf.
  - intros Hno. apply length_zero_iff_nil, length_filter_none.
    intros r Hr Hs%eq_str_true. apply Hno, list_elem_of_fmap. eauto.
Qed.

(** The two places that read the languages of the unfulfilled rows, on a
    table that has the status column and no [Language] column. *)
Lemma language_read_unchecked (status_filter : string) (df : DataFrame) (j : nat) :
  column_index "Has Linguist?" df = Some j →
  has_column "Language" df = false →
  critical_gaps df
  = (if decide (CStr "NO" ∈ column_at j df) then Raise (KeyError "Language")
     else Ok None)
  ∧ tab2 status_filter df
    = (if decide (CStr "NO" ∈ column_at j df) then Raise (KeyError "Language")
       else Ok (empty_frame, None)).
Proof.
  intros Hj Hl.
  assert (has_column "Has Linguist?" df = true) as Hh
    by (apply has_column_index; eauto).
  unfold tab2, critical_gaps, process_language_stats. rewrite Hh, Hl. cbn [negb].
  bind_step. change (has_column "Status" empty_frame) with false.
  rewrite andb_false_r. bind_step.
  rewrite (get_column_at_index _ _ _ Hj). bind_step.
  rewrite (boolean_index_column _ _ _ (eq_str "NO") j Hj)
    by (by apply get_column_at_index).
  pose proof (selected_nil_iff j df) as Hsel.
  set (sel := filter _ (rows df)) in *.
  unfold is_empty. cbn [rows columns].
  destruct sel as [|r sel].
  - destruct (decide (CStr "NO" ∈ column_at j df)) as [Hin|_];
      [by destruct (proj1 Hsel eq_refl)|]. split; reflexivity.
  - destruct (decide (CStr "NO" ∈ column_at j df)) as [_|Hn];
      [|by apply Hsel in Hn].
    destruct (columns df) as [|c cs] eqn:Hc.
    { unfold column_index in Hj. by rewrite Hc in Hj. }
    cbn [negb].
    rewrite (has_column_false_get "Language" (mkDataFrame (c :: cs) (r :: sel)))
      by (unfold has_column in *; cbn [columns]; by rewrite <- Hc).
    split; reflexivity.
Qed.

(** The gap table on a table that has both columns. *)
Lemma critical_gaps_entries (df : DataFrame) (language hl : list cell) :
  get_column "Language" df = Ok language →
  get_column "Has Linguist?" df = Ok hl →
  ∃ out, critical_gaps df = Ok out ∧
    let entries := default [] out in
    (∀ l, l ∈ gap_Language <$> entries
          ↔ isna l = false ∧ 5 ≤ requests_with "NO" l language hl)
    ∧ NoDup (gap_Language <$> entries)
    ∧ (∀ e, e ∈ entries →
         gap_Unfulfilled e = requests_with "NO" (gap_Language e) language hl
         ∧ 5 ≤ gap_Unfulfilled e
         ∧ (10 ≤ gap_Unfulfilled e → gap_Priority e = "CRITICAL")
         ∧ (gap_Unfulfilled e < 10 → gap_Priority e = "HIGH")
         ∧ (gap_Priority e = "CRITICAL" → 10 ≤ gap_Unfulfilled e)
         ∧ (gap_Priority e = "HIGH" → 5 ≤ gap_Unfulfilled e < 10))
    ∧ StronglySorted (fun a b => gap_Unfulfilled b ≤ gap_Unfulfilled a) entries.
Proof.
  intros Hl Hh.
  destruct (critical_gaps_unfold df language hl Hl Hh) as (out & nl & Hout & Hcnt & Hent).
  exists out. split; [exact Hout|]. cbn zeta. rewrite Hent. clear Hent Hout.
  pose proof (fun e => gap_entries_char nl language hl e Hcnt) as Hchar.
  split; [|split; [|split]].
  - intros l. rewrite list_elem_of_fmap. split.
    + intros (e & -> & He). apply Hchar in He as (? & <- & ? & _). done.
    + intros [Hna H5].
      exists (mkGapEntry l (requests_with "NO" l language hl)
                (priority_of (requests_with "NO" l language hl))).
      split; [done|]. apply Hchar. done.
  - rewrite <- list_fmap_compose.
    replace ((gap_Language ∘ _) <$> _)
      with ((filter (fun p : cell * nat => 5 ≤ p.2) (value_counts nl)).*1)
      by (apply list_fmap_ext; by intros ? []).
    apply filter_keys_NoDup, value_counts_keys_NoDup.
  - intros e (_ & He & H5 & Ht)%Hchar.
    destruct (priority_of_spec (gap_Unfulfilled e)) as (Hc & Hh' & _).
    rewrite Ht. split; [done|]. split; [done|].
    split; [apply Hc|]. split; [intros; apply Hh'; lia|].
    split; [apply Hc|apply Hh'].
  - apply (StronglySorted_fmap _ count_ge); [by intros [] []|].
    apply filter_sorted, value_counts_sorted.
Qed.

(** C1. On a table that has the [Has Linguist?] column the gap tab does
    one of two things.  When the table has the [Language] column it shows
    exactly the languages that occur at least five times among the rows
    whose status is ["NO"], each once, with that count; at least ten is tier
    CRITICAL, five to nine is tier HIGH, nothing below five is shown, and
    the entries are in descending order of count.  When the table has no
    [Language] column the tab reads it all the same as soon as some row has
    the status ["NO"], and raises [KeyError]; with no such row it shows
    nothing. *)
Theorem critical_gaps_threshold (df : DataFrame) (hl : list cell) :
  get_column "Has Linguist?" df = Ok hl →
  match get_column "Language" df with
  | Ok language =>
      ∃ out, critical_gaps df = Ok out ∧
        let entries := default [] out in
        (∀ l, l ∈ gap_Language <$> entries
              ↔ isna l = false ∧ 5 ≤ requests_with "NO" l language hl)
        ∧ NoDup (gap_Language <$> entries)
        ∧ (∀ e, e ∈ entries →
             gap_Unfulfilled e = requests_with "NO" (gap_Language e) language hl
             ∧ 5 ≤ gap_Unfulfilled e
             ∧ (10 ≤ gap_Unfulfilled e → gap_Priority e = "CRITICAL")
             ∧ (gap_Unfulfilled e < 10 → gap_Priority e = "HIGH")
             ∧ (gap_Priority e = "CRITICAL" → 10 ≤ gap_Unfulfilled e)
             ∧ (gap_Priority e = "HIGH" → 5 ≤ gap_Unfulfilled e < 10))
        ∧ StronglySorted (fun a b => gap_Unfulfilled b ≤ gap_Unfulfilled a) entries
  | Raise _ =>
      critical_gaps df
      = if decide (CStr "NO" ∈ hl) then Raise (KeyError "Language") else Ok None
  end.
Proof.
  intros Hh. destruct (get_column "Language" df) as [language|e] eqn:Hl.
  - by apply critical_gaps_entries.
  - destruct (get_column_Ok _ _ _ Hh) as (j & Hj & ->).
    apply (language_read_unchecked "All" df j Hj).
    destruct (has_column "Language" df) eqn:Hc; [|done].
    destruct (has_column_get _ _ Hc) as [x Hx]. congruence.
Qed.

Lemma critical_gaps_threshold_witness :
  critical_gaps status_only = Raise (KeyError "Language")
  ∧ ∃ out, critical_gaps scenario = Ok out ∧ NoDup (gap_Language <$> default [] out).
Proof.
  split.
  - exact (critical_gaps_threshold status_only [CStr "NO"] eq_refl).
  - destruct (critical_gaps_threshold scenario (cell_at 1 <$> rows scenario) eq_refl)
      as (out & Hout & _ & Hnd & _).
    exists out. split; [exact Hout|exact Hnd].
Defined.

(** ** The date conversion of the trends tab *)

Section Trends.
Context `{DatetimeParser}.

(** One turn of the date loop that does not raise: the column of that
    label, if there is one, holds what the parser answered; nothing else
    changes. *)
Lemma convert_date_column_spec (df df' : DataFrame) (col : string) :
  convert_date_column df col = Ok df' →
  columns df' = columns df
  ∧ len df' = len df
  ∧ (∀ j, j < length (columns df) → column_index col df ≠ Some j →
       column_at j df' = column_at j df)
  ∧ (∀ j, column_index col df = Some j →
       to_datetime (column_at j df) = Ok (column_at j df')).
Proof.
  unfold convert_date_column. destruct (has_column col df) eqn:Hc.
  - case_decide; [done|].
    destruct (proj1 (has_column_index _ _) Hc) as [i Hi].
    rewrite (get_column_at_index _ _ _ Hi). bind_step.
    destruct (to_datetime (column_at i df)) as [converted|] eqn:Hconv; [|done].
    bind_step. intros [= <-].
    assert (length converted = len df) as Hlen.
    { rewrite (to_datetime_length _ _ Hconv). unfold column_at.
      by rewrite length_fmap. }
    split; [by apply set_column_existing_columns|].
    split; [by apply set_column_len|]. split.
    + intros j Hj Hne. by apply set_column_other.
    + intros j Hj. assert (j = i) as -> by congruence.
      pose proof (get_set_column col _ df Hlen) as Hg.
      rewrite (get_column_at_index col _ i) in Hg
        by (by apply set_column_index_other).
      congruence.
  - intros [= <-]. split; [done|]. split; [done|]. split; [done|].
    intros j Hj. assert (has_column col df = true)
      by (apply has_column_index; eauto). congruence.
Qed.

(** The whole loop, when it does not raise: a column whose label is not
    in the list is untouched, a listed column holds what the parser
    answered for it. *)
Lemma convert_date_columns_spec (cols : list string) (df df' : DataFrame) :
  NoDup cols →
  convert_date_columns df cols = Ok df' →
  columns df' = columns df
  ∧ len df' = len df
  ∧ (∀ j col, columns df !! j = Some col → col ∉ cols →
       column_at j df' = column_at j df)
  ∧ (∀ j col, col ∈ cols → column_index col df = Some j →
       to_datetime (column_at j df) = Ok (column_at j df')).
Proof.
  intros Hnd. revert df. induction Hnd as [|c cols Hc Hnd IH]; intros df.
  - intros [= <-]. repeat split; try done. by intros j col ?%elem_of_nil.
  - cbn [convert_date_columns].
    destruct (convert_date_column df c) as [d1|] eqn:E1; [|done]. bind_step.
    intros E2.
    destruct (convert_date_column_spec _ _ _ E1) as (Hc1 & Hl1 & Ho1 & Hs1).
    destruct (IH d1 E2) as (Hc2 & Hl2 & Ho2 & Hs2).
    split; [congruence|]. split; [congruence|]. split.
    + intros j col Hj [Hne Hnin]%not_elem_of_cons.
      rewrite (Ho2 j col) by (by rewrite ?Hc1).
      apply Ho1; [by eapply lookup_lt_Some|].
      intros Hi%column_index_lookup. congruence.
    + intros j col [->|Hin]%elem_of_cons Hj.
      * rewrite (Ho2 j c); [by apply Hs1| |done].
        rewrite Hc1. by apply column_index_lookup.
      * rewrite <- (Ho1 j); [|by eapply column_index_lt|].
        -- apply (Hs2 j col Hin).
           by rewrite (column_index_same_columns _ _ _ Hc1).
        -- intros Hi%column_index_lookup. apply column_index_lookup in Hj.
           assert (c = col) by congruence. by subst.
Qed.

(** A table without any of the listed columns goes through the loop
    unchanged. *)
Lemma convert_date_columns_absent (cols : list string) (df : DataFrame) :
  (∀ c, c ∈ cols → has_column c df = false) →
  convert_date_columns df cols = Ok df.
Proof.
  induction cols as [|c cols IH]; [done|]. intros Hno.
  cbn [convert_date_columns]. unfold convert_date_column.
  rewrite (Hno c) by left. bind_step. apply IH. intros c' Hc'. apply Hno. by right.
Qed.

End Trends.

Lemma date_columns_NoDup : NoDup date_columns.
Proof. compute_done. Qed.

Lemma has_column_same_columns (col : string) (df df' : DataFrame) :
  columns df' = columns df → has_column col df' = has_column col df.
Proof. unfold has_column. by intros ->. Qed.

(** ** Day-of-week counts *)

Lemma dropna_parsed (stamps : list (option Timestamp)) :
  filter (fun c => negb (isna c) = true) (cell_of_datetime <$> stamps)
  = CTime <$> readable stamps.
Proof.
  induction stamps as [|[t|] stamps IH]; [done| |]; cbn [fmap list_fmap].
  - rewrite filter_cons_True by done. unfold readable in *. cbn. by rewrite IH.
  - rewrite filter_cons_False by (cbn; done). exact IH.
Qed.

Lemma dt_times (ts : list Timestamp) : dt (CTime <$> ts) = Ok (Some <$> ts).
Proof.
  induction ts as [|t ts IH]; [done|]. cbn [fmap list_fmap dt]. by rewrite IH.
Qed.

Lemma filter_fmap_cell (P : cell → bool) (j : nat) (rs : list (list cell)) :
  cell_at j <$> filter (fun r => P (cell_at j r) = true) rs
  = filter (fun c => P c = true) (cell_at j <$> rs).
Proof.
  induction rs as [|r rs IH]; [done|]. cbn [fmap list_fmap].
  rewrite !filter_cons. case_decide; cbn [fmap list_fmap]; by rewrite IH.
Qed.

Lemma assoc_elem_of {A} (k : cell) (a : A) (l : list (cell * A)) :
  assoc k l = Some a → (k, a) ∈ l.
Proof.
  induction l as [|[k' a'] l IH]; [done|]. cbn. case_decide.
  - intros [= <-]. subst. left.
  - intros ?. right. by apply IH.
Qed.

Lemma assoc_None {A} (k : cell) (l : list (cell * A)) :
  assoc k l = None → k ∉ l.*1.
Proof.
  induction l as [|[k' a'] l IH]; [intros _; apply not_elem_of_nil|].
  cbn. case_decide; [done|]. intros Hn. apply not_elem_of_cons. split; [done|].
  by apply IH.
Qed.

(** Looking a value up in [value_counts], with 0 for a value that does
    not occur, gives the number of its occurrences. *)
Lemma value_counts_lookup (k : cell) (s : list cell) :
  isna k = false → default 0 (assoc k (value_counts s)) = count_eq k s.
Proof.
  intros Hna. destruct (assoc k (value_counts s)) as [n|] eqn:Ha; cbn.
  - apply assoc_elem_of, value_counts_elem_of in Ha. tauto.
  - apply assoc_None in Ha. destruct (count_eq k s) as [|n] eqn:Hc; [done|].
    exfalso. apply Ha. apply list_elem_of_fmap. exists (k, S n). split; [done|].
    apply value_counts_elem_of. split; [done|]. split; [|done].
    apply count_eq_pos. lia.
Qed.

Lemma count_day_names (d : string) (stamps : list (option Timestamp)) :
  count_eq (CStr d)
    ((fun o => match o with Some t => CStr (day_name t) | None => CNaN end)
       <$> stamps)
  = on_day d stamps.
Proof.
  unfold count_eq, on_day. induction stamps as [|[t|] stamps IH]; [done| |];
    cbn [fmap list_fmap]; rewrite !filter_cons; cbn [fmap option_fmap option_map].
  - destruct (decide (day_name t = d)) as [->|Hne].
    + rewrite !decide_True by done. cbn [length]. by rewrite IH.
    + rewrite !decide_False by congruence. exact IH.
  - rewrite !decide_False by done. exact IH.
Qed.

Lemma on_day_readable (d : string) (stamps : list (option Timestamp)) :
  on_day d (Some <$> readable stamps) = on_day d stamps.
Proof.
  unfold on_day, readable. induction stamps as [|[t|] stamps IH]; [done| |].
  - change (omap id (Some t :: stamps)) with (t :: omap id stamps).
    rewrite fmap_cons, !filter_cons.
    case_decide; cbn [length]; by rewrite IH.
  - change (omap id (None :: stamps)) with (omap id stamps).
    rewrite filter_cons_False by done. exact IH.
Qed.

(** [lines 280-283] on a table whose [Row Added] column holds dates. *)
Lemma day_of_week_volume_spec (df_time : DataFrame) (s : list cell)
    (stamps : list (option Timestamp)) :
  get_column "Row Added" df_time = Ok s →
  dt s = Ok stamps →
  day_of_week_volume df_time
  = Ok ((fun d => (d, on_day d stamps)) <$> day_order).
Proof.
  intros Hs Hdt. unfold day_of_week_volume. rewrite Hs. bind_step.
  rewrite Hdt. bind_step.
  rewrite get_set_column.
  - bind_step. f_equal. unfold reindex.
    apply list_fmap_ext. intros _ d _.
    by rewrite value_counts_lookup, count_day_names.
  - rewrite length_fmap. rewrite <- (get_column_length _ _ _ Hs).
    clear Hs. revert stamps Hdt. induction s as [|c s IH]; intros stamps.
    + by intros [= <-].
    + cbn [dt]. destruct c; try done;
        (destruct (dt s) as [rest|]; [|done]); bind_step;
        intros [= <-]; cbn [length]; f_equal; by apply IH.
Qed.

(** ** The charts of the trends tab *)

(** A series that is not empty is drawn as it is. *)
Lemma px_bar_series {A B} (s : list (A * B)) :
  s ≠ [] → px_bar s.*1 s.*2 = Ok s.
Proof.
  intros Hs. unfold px_bar. destruct s as [|p s]; [done|]. cbn [fmap list_fmap].
  rewrite decide_True by (cbn; by rewrite !length_fmap).
  f_equal. apply (zip_fst_snd (p :: s)).
Qed.


Lemma px_pie_series {A B} (s : list (B * A)) : px_pie s.*2 s.*1 = Ok s.
Proof.
  unfold px_pie. rewrite decide_True by (by rewrite !length_fmap).
  f_equal. apply zip_fst_snd.
Qed.

Lemma px_line_reset_index (sizes : list (cell * nat)) :
  px_line (reset_index "Month" "Requests" sizes) "Month" "Requests"
  = Ok ((fun p => (p.1, CInt (Z.of_nat p.2))) <$> sizes).
Proof.
  unfold px_line, reset_index, get_column, column_index. cbn [columns rows].
  change (fst <$> list_find (eq "Month") ["Month"; "Requests"]) with (Some 0).
  change (fst <$> list_find (eq "Requests") ["Month"; "Requests"]) with (Some 1).
  cbn beta iota. f_equal.
  induction sizes as [|p sizes IH]; [done|]. cbn. by rewrite IH.
Qed.

(** The priority series is read from a column the date loop does not
    touch. *)
Lemma priority_after_conversion `{DatetimeParser} (df df' : DataFrame) :
  convert_date_columns df date_columns = Ok df' →
  get_column "Priority" df' = get_column "Priority" df.
Proof.
  intros E.
  destruct (convert_date_columns_spec date_columns df df' date_columns_NoDup E)
    as (Hcols & _ & Hother & _).
  destruct (has_column "Priority" df) eqn:Hp.
  - destruct (proj1 (has_column_index _ _) Hp) as [j Hj].
    rewrite (get_column_at_index "Priority" df' j)
      by (by rewrite (column_index_same_columns _ _ _ Hcols)).
    rewrite (get_column_at_index _ _ _ Hj).
    rewrite (Hother j "Priority"); [done|by apply column_index_lookup|compute_done].
  - rewrite (has_column_false_get _ _ Hp). apply has_column_false_get.
    by rewrite (has_column_same_columns _ _ _ Hcols).
Qed.

(** The priority pie of a table. *)
Lemma priority_pie (df : DataFrame) :
  (if has_column "Priority" df then
     priority ← get_column "Priority" df;
     let priority_counts := value_counts priority in
     pie ← px_pie priority_counts.*2 priority_counts.*1;
     Ok (Some pie)
   else Ok None)
  = Ok match get_column "Priority" df with
       | Ok p => Some (value_counts p)
       | Raise _ => None
       end.
Proof.
  destruct (has_column "Priority" df) eqn:Hp.
  - destruct (has_column_get _ _ Hp) as [p ->]. bind_step. cbn zeta.
    by rewrite px_pie_series.
  - by rewrite (has_column_false_get _ _ Hp).
Qed.

(** The monthly points of a series of date-times. *)
Definition monthly_points (ts : list Timestamp) : list (cell * cell) :=
  (fun p => (p.1, CInt (Z.of_nat p.2)))
    <$> groupby_size ((fun t => CStr (month_str t)) <$> ts).

(** The trends tab after the date loop, on a table whose [Row Added]
    column is a date-time series. *)
Lemma trends_of_dated (df : DataFrame) (j : nat) (stamps : list (option Timestamp)) :
  column_index "Row Added" df = Some j →
  column_at j df = cell_of_datetime <$> stamps →
  trends_of df
  = Ok (mkTrends
          (Some (monthly_points (readable stamps)))
          (Some ((fun d => (d, on_day d stamps)) <$> day_order))
          match get_column "Priority" df with
          | Ok p => Some (value_counts p)
          | Raise _ => None
          end).
Proof.
  intros Hj Hset. unfold trends_of.
  assert (has_column "Row Added" df = true) as ->
    by (apply has_column_index; eauto).
  unfold dropna. rewrite (get_column_at_index _ _ _ Hj). bind_step.
  rewrite (boolean_index_column "Row Added" df _ (fun c => negb (isna c)) j Hj)
    by (by apply get_column_at_index).
  set (df_time := mkDataFrame _ _).
  assert (column_index "Row Added" df_time = Some j) as Hjt by exact Hj.
  assert (column_at j df_time = CTime <$> readable stamps) as Hcol.
  { unfold column_at, df_time. cbn [rows].
    rewrite (filter_fmap_cell (fun c => negb (isna c))).
    fold (column_at j df). rewrite Hset. apply dropna_parsed. }
  assert (len df_time = length (readable stamps)) as Hlt.
  { unfold len. rewrite <- (length_fmap (cell_at j)). fold (column_at j df_time).
    by rewrite Hcol, length_fmap. }
  unfold add_month. rewrite (get_column_at_index _ _ _ Hjt), Hcol. bind_step.
  rewrite dt_times. bind_step. rewrite <- list_fmap_compose.
  set (months := _ <$> readable stamps).
  assert (length months = len df_time) as Hlm
    by (unfold months; by rewrite length_fmap).
  unfold monthly_requests. rewrite (get_set_column _ _ _ Hlm). bind_step.
  rewrite px_line_reset_index. bind_step.
  erewrite (day_of_week_volume_spec _ (CTime <$> readable stamps)
              (Some <$> readable stamps)); [| |apply dt_times].
  - bind_step. rewrite px_bar_series by done. bind_step.
    rewrite priority_pie. bind_step. cbn [fmap option_fmap option_map fst snd].
    assert ((fun d => (d, on_day d (Some <$> readable stamps))) <$> day_order
            = (fun d => (d, on_day d stamps)) <$> day_order) as ->
      by (apply list_fmap_ext; intros _ d _; by rewrite on_day_readable).
    reflexivity.
  - rewrite (get_column_at_index _ _ j) by (by apply set_column_index_other).
    f_equal. rewrite <- Hcol. apply set_column_other; [done| |].
    + eapply column_index_lt. exact Hjt.
    + intros Hmo%column_index_lookup. apply column_index_lookup in Hjt.
      rewrite Hjt in Hmo. done.
Qed.

(** The trends tab after the date loop, on a table without a
    [Row Added] column. *)
Lemma trends_of_undated (df : DataFrame) :
  has_column "Row Added" df = false →
  trends_of df
  = Ok (mkTrends None None
          match get_column "Priority" df with
          | Ok p => Some (value_counts p)
          | Raise _ => None
          end).
Proof.
  intros Hr. unfold trends_of. rewrite Hr. bind_step.
  rewrite priority_pie. reflexivity.
Qed.

(** What the trends tab is made of. *)
Lemma tab3_data `{DatetimeParser} (data data' : gmap string DataFrame)
    (t : option Trends) :
  tab3 data = Ok (data', t) →
  match data !! "master" with
  | None => data' = data ∧ t = None
  | Some df =>
      ∃ df' trends,
        convert_date_columns df date_columns = Ok df'
        ∧ data' = <["master" := df']> data
        ∧ trends_of df' = Ok trends
        ∧ t = Some trends
  end.
Proof.
  unfold tab3. destruct (data !! "master") as [df|]; [|by intros [= <- <-]].
  destruct (convert_date_columns df date_columns) as [df'|]; [|done].
  bind_step. destruct (trends_of df') as [trends|] eqn:Et; [|done]. bind_step.
  intros [= <- <-]. exists df', trends. done.
Qed.

(** The trends tab on a master table whose date loop gives [df'], with a
    date-time series under [Row Added]. *)
Lemma tab3_dated `{DatetimeParser} (data : gmap string DataFrame)
    (df df' : DataFrame) (stamps : list (option Timestamp)) :
  data !! "master" = Some df →
  convert_date_columns df date_columns = Ok df' →
  get_column "Row Added" df' = Ok (cell_of_datetime <$> stamps) →
  tab3 data
  = Ok (<["master" := df']> data,
        Some (mkTrends
                (Some (monthly_points (readable stamps)))
                (Some ((fun d => (d, on_day d stamps)) <$> day_order))
                match get_column "Priority" df with
                | Ok p => Some (value_counts p)
                | Raise _ => None
                end)).
Proof.
  intros Hm E Hra. unfold tab3. rewrite Hm, E. bind_step.
  destruct (get_column_Ok _ _ _ Hra) as (j & Hj & Hcol).
  rewrite (trends_of_dated df' j stamps Hj) by (by rewrite Hcol).
  bind_step. by rewrite (priority_after_conversion _ _ E).
Qed.

(** ** C6 *)

(** C6, as the code has it.  Take a master table with distinct column
    labels, and let the date loop go through.  If the table has a
    [Row Added] column and the loop has made a date-time series of it, the
    trends tab produces the day-of-week volume as exactly seven entries, in
    the order Monday, Tuesday, Wednesday, Thursday, Friday, Saturday,
    Sunday; the count of a day is the number of rows dated on that day,
    hence 0 for a day no row falls on.  If the table has no [Row Added]
    column the tab computes no day-of-week volume. *)
Theorem day_of_week_volume_seven `{DatetimeParser} (data : gmap string DataFrame)
    (df df' : DataFrame) (stamps : list (option Timestamp)) :
  data !! "master" = Some df →
  NoDup (columns df) →
  convert_date_columns df date_columns = Ok df' →
  (get_column "Row Added" df' = Ok (cell_of_datetime <$> stamps) →
   ∃ trends counts,
     tab3 data = Ok (<["master" := df']> data, Some trends)
     ∧ tr_day_counts trends = Some counts
     ∧ counts = (fun d => (d, on_day d stamps)) <$> day_order
     ∧ counts.*1 = ["Monday"; "Tuesday"; "Wednesday"; "Thursday"; "Friday";
                    "Saturday"; "Sunday"]
     ∧ length counts = 7
     ∧ (∀ d, d ∈ day_order →
          (∀ t, Some t ∈ stamps → day_name t ≠ d) →
          (d, 0) ∈ counts))
  ∧ (has_column "Row Added" df = false →
     ∃ trends,
       tab3 data = Ok (<["master" := df']> data, Some trends)
       ∧ tr_day_counts trends = None).
Proof.
  intros Hm _ E. split.
  - intros Hra. do 2 eexists. split; [exact (tab3_dated data df df' stamps Hm E Hra)|].
    cbn [tr_day_counts].
    split; [reflexivity|]. split; [reflexivity|]. split; [reflexivity|].
    split; [reflexivity|].
    intros d Hd Hnone. apply list_elem_of_fmap. exists d. split; [|done].
    f_equal. unfold on_day.
    destruct (filter _ stamps) as [|o l] eqn:Hf; [done|].
    exfalso. assert (o ∈ filter (fun o => day_name <$> o = Some d) stamps)
      as Ho by (rewrite Hf; left).
    apply (proj1 (list_elem_of_filter _ _ _)) in Ho as [Hday Hin].
    destruct o as [t|]; [|done]. cbn in Hday. apply (Hnone t Hin). congruence.
  - intros Hr.
    destruct (convert_date_columns_spec date_columns df df' date_columns_NoDup E)
      as (Hcols & _).
    unfold tab3. rewrite Hm, E. bind_step.
    rewrite trends_of_undated by (by rewrite (has_column_same_columns _ _ _ Hcols)).
    bind_step. eauto.
Qed.

Lemma day_of_week_volume_seven_witness :
  ∃ data' trends,
    tab3 master_example = Ok (data', Some trends)
    ∧ tr_day_counts trends
      = Some [("Monday", 2); ("Tuesday", 0); ("Wednesday", 0); ("Thursday", 0);
              ("Friday", 0); ("Saturday", 0); ("Sunday", 1)].
Proof.
  destruct (day_of_week_volume_seven master_example master_table
              (mkDataFrame ["Row Added"; "Priority"]
                 [[CTime (mkTimestamp 2024 1 1 0 0 0); CStr "HIGH"];
                  [CNaT; CStr "NORMAL"];
                  [CTime (mkTimestamp 2024 1 7 0 0 0); CStr "HIGH"];
                  [CTime (mkTimestamp 2024 1 8 0 0 0); CStr "URGENT"]])
              [Some (mkTimestamp 2024 1 1 0 0 0); None;
               Some (mkTimestamp 2024 1 7 0 0 0); Some (mkTimestamp 2024 1 8 0 0 0)]
              eq_refl ltac:(compute_done) eq_refl)
    as [Hdated _].
  destruct (Hdated eq_refl) as (trends & counts & Ht & Hc & -> & _).
  do 2 eexists. split; [exact Ht|]. exact Hc.
Defined.

(** C6 as stated fails: not every input table gives seven entries.  A
    master table without a [Row Added] column gives no day-of-week volume at
    all; and on text with two UTC offsets the date parser of the examples
    raises, as pandas 3 does, and the tab with it. *)
Lemma day_of_week_volume_not_always :
  match tab3 {[ "master" := undated ]} with
  | Ok (_, Some trends) => tr_day_counts trends = None
  | _ => False
  end
  ∧ tab3 {[ "master" := two_offsets ]} = Raise (ValueError "Mixed timezones detected").
Proof. split; vm_compute; reflexivity. Qed.

(** ** C3 *)

Lemma on_analysis_same {A} (data data' : gmap string DataFrame)
    (f : DataFrame → res A) :
  data' !! "analysis" = data !! "analysis" →
  on_analysis data' f = on_analysis data f.
Proof. unfold on_analysis. by intros ->. Qed.

Lemma tab3_analysis `{DatetimeParser} (data data' : gmap string DataFrame)
    (t : option Trends) :
  tab3 data = Ok (data', t) → data' !! "analysis" = data !! "analysis".
Proof.
  intros Ht%tab3_data. destruct (data !! "master") as [m|]; [|by destruct Ht; subst].
  destruct Ht as (m' & trends & _ & -> & _). by rewrite lookup_insert_ne.
Qed.

(** What a rendering is made of: the trends tab yields the tables the
    page ends with, and every other part of the page is computed from the
    analysis table as loaded. *)
Lemma render_parts `{DatetimeParser} `{CellText} (status_filter search_term : string)
    (data data' : gmap string DataFrame) (page : Page) :
  render status_filter search_term data = Ok (data', page) →
  tab3 data = Ok (data', pg_trends page)
  ∧ on_analysis data tab1 = Ok (pg_overview page)
  ∧ on_analysis data (tab2_chart status_filter) = Ok (pg_language page)
  ∧ on_analysis data tab4 = Ok (pg_gaps page)
  ∧ pg_search page = tab5 search_term data.
Proof.
  unfold render.
  destruct (on_analysis data tab1) as [t1|]; [|done]. bind_step.
  destruct (on_analysis data (tab2_chart status_filter)) as [t2|]; [|done]. bind_step.
  destruct (tab3 data) as [[d t3]|] eqn:Ht; [|done]. bind_step.
  pose proof (tab3_analysis _ _ _ Ht) as Ha.
  rewrite (on_analysis_same data d tab4 Ha).
  destruct (on_analysis data tab4) as [t4|]; [|done]. bind_step.
  intros [= <- <-]. cbn [pg_trends pg_overview pg_language pg_gaps pg_search].
  split; [done|]. split; [done|]. split; [done|]. split; [done|].
  unfold tab5. by rewrite Ha.
Qed.

(** C3, as the code has it.  One rendering of the page leaves the
    analysis, summary and linguists tables (every table but [master]) as
    loaded, and the overview, the language statistics, the gaps and the
    search result are computed from the analysis table as loaded.  The
    trends tab writes into the master table: it keeps the columns, the
    number of rows and every cell of a column whose label is not one of
    [Date of request], [Hearing Date], [Row Added]; each of those three
    columns is overwritten by what [pd.to_datetime] answers for it.  The
    charts of the trends tab are then drawn from the master table as
    converted (its labels being distinct). *)
Theorem base_tables_after_render `{DatetimeParser} `{CellText}
    (status_filter search_term : string)
    (data data' : gmap string DataFrame) (page : Page) :
  render status_filter search_term data = Ok (data', page) →
  (∀ key, key ≠ "master" → data' !! key = data !! key)
  ∧ on_analysis data tab1 = Ok (pg_overview page)
  ∧ on_analysis data (tab2_chart status_filter) = Ok (pg_language page)
  ∧ on_analysis data tab4 = Ok (pg_gaps page)
  ∧ pg_search page = tab5 search_term data
  ∧ match data !! "master" with
    | None => data' !! "master" = None ∧ pg_trends page = None
    | Some m =>
        ∃ m', data' !! "master" = Some m'
          ∧ columns m' = columns m
          ∧ len m' = len m
          ∧ (∀ j col, columns m !! j = Some col → col ∉ date_columns →
               column_at j m' = column_at j m)
          ∧ (∀ j col, col ∈ date_columns → column_index col m = Some j →
               to_datetime (column_at j m) = Ok (column_at j m'))
          ∧ (NoDup (columns m) →
             ∃ trends, trends_of m' = Ok trends ∧ pg_trends page = Some trends)
    end.
Proof.
  intros (Ht & Ho & Hl & Hg & Hs)%render_parts. apply tab3_data in Ht.
  split; [|split; [exact Ho|split; [exact Hl|split; [exact Hg|split; [exact Hs|]]]]];
    clear Ho Hl Hg Hs.
  - intros key Hk. destruct (data !! "master") as [m|]; [|by destruct Ht; subst].
    destruct Ht as (m' & trends & _ & -> & _). by rewrite lookup_insert_ne.
  - destruct (data !! "master") as [m|] eqn:Hm; [|by destruct Ht; subst].
    destruct Ht as (m' & trends & Hc & -> & Htr & Hpg).
    destruct (convert_date_columns_spec date_columns m m' date_columns_NoDup Hc)
      as (Hcols & Hlen & Ho & Hs).
    exists m'. rewrite lookup_insert_eq.
    split; [done|]. split; [done|]. split; [done|]. split; [done|].
    split; [done|]. intros _. eauto.
Qed.

Lemma base_tables_after_render_witness :
  match render "All" "" master_example with
  | Ok (data', page) =>
      data' !! "analysis" = None
      ∧ (column_at 1 <$> data' !! "master")
        = Some [CStr "HIGH"; CStr "NORMAL"; CStr "HIGH"; CStr "URGENT"]
      ∧ (pg_trends page ≫= tr_day_counts)
        = Some [("Monday", 2); ("Tuesday", 0); ("Wednesday", 0); ("Thursday", 0);
                ("Friday", 0); ("Saturday", 0); ("Sunday", 1)]
  | Raise _ => False
  end.
Proof.
  destruct (render "All" "" master_example) as [[data' page]|e] eqn:Hr;
    [|vm_compute in Hr; discriminate Hr].
  destruct (base_tables_after_render "All" "" master_example data' page Hr)
    as (Hother & _ & _ & _ & _ & Hmaster).
  split; [by rewrite Hother|].
  change (master_example !! "master") with (Some master_table) in Hmaster.
  destruct Hmaster as (m' & Hm' & _ & _ & Hkeep & _). split.
  - rewrite Hm'. cbn [fmap option_fmap option_map].
    f_equal. apply (Hkeep 1 "Priority"); [reflexivity|]. compute_done.
  - clear Hother Hm' Hkeep. vm_compute in Hr. injection Hr as <- <-. reflexivity.
Defined.

(** C3 as stated fails: the trends tab writes into the loaded master
    table.  A text cell of a date column is replaced by a date-time, and one
    that does not read as a date is lost to NaT. *)
Lemma master_cells_overwritten :
  master_example !! "master"
  = Some (mkDataFrame ["Row Added"; "Priority"]
            [[CStr "2024-01-01"; CStr "HIGH"];
             [CStr "TBD"; CStr "NORMAL"];
             [CStr "2024-01-07"; CStr "HIGH"];
             [CStr "2024-01-08"; CStr "URGENT"]])
  ∧ match render "All" "" master_example with
    | Ok (data', _) => data' !! "master"
    | Raise _ => None
    end
    = Some (mkDataFrame ["Row Added"; "Priority"]
              [[CTime (mkTimestamp 2024 1 1 0 0 0); CStr "HIGH"];
               [CNaT; CStr "NORMAL"];
               [CTime (mkTimestamp 2024 1 7 0 0 0); CStr "HIGH"];
               [CTime (mkTimestamp 2024 1 8 0 0 0); CStr "URGENT"]]).
Proof. split; vm_compute; reflexivity. Qed.

(** ** Loading *)

Lemma load_default_sheet_spec (file : UploadedFile) (data : gmap string DataFrame) :
  load_default_sheet file data
  = match read_excel file None with
    | Ok t => Ok (<["analysis" := t]> data)
    | Raise e => Raise e
    end.
Proof. unfold load_default_sheet. by destruct (read_excel file None). Qed.

(** The analysis step of [load_data] when a named sheet cannot be read:
    whatever was stored so far, the outcome is that of the default read. *)
Lemma load_analysis_fallback (file : UploadedFile) (data : gmap string DataFrame)
    (e : exn) :
  read_excel file (Some "All Historical Data") = Raise e
  ∨ read_excel file (Some "Summary") = Raise e →
  match read_excel file (Some "All Historical Data") with
  | Raise _ => load_default_sheet file data
  | Ok a =>
      match read_excel file (Some "Summary") with
      | Raise _ => load_default_sheet file (<["analysis" := a]> data)
      | Ok s => Ok (<["summary" := s]> (<["analysis" := a]> data))
      end
  end
  = match read_excel file None with
    | Ok t => Ok (<["analysis" := t]> data)
    | Raise e' => Raise e'
    end.
Proof.
  intros Hfail.
  destruct (read_excel file (Some "All Historical Data")) as [a|];
    [|apply load_default_sheet_spec].
  destruct (read_excel file (Some "Summary")) as [s|].
  - by destruct Hfail.
  - rewrite load_default_sheet_spec.
    destruct (read_excel file None); [|done]. by rewrite insert_insert_eq.
Qed.

(** ** C7 *)

(** [.str.strip()] on the header of a sheet that has one. *)
Lemma str_strip_Ok (index : list string) :
  index ≠ [] → str_strip index = Ok (strip <$> index).
Proof. by destruct index. Qed.

(** C7, as the code has it.  When reading one of the two named sheets of
    the analysis file fails (and the master file, if any, loads: it can be
    read and its first sheet has a header), the loader reads the file's
    default sheet instead: if that read succeeds the table is stored under
    ["analysis"], there is no ["summary"] key and no error comes from the
    analysis file; if that read fails too, its error reaches the caller. *)
Theorem load_data_sheet_fallback (master_file linguist_file : option UploadedFile)
    (file : UploadedFile) (e : exn) :
  read_excel file (Some "All Historical Data") = Raise e
  ∨ read_excel file (Some "Summary") = Raise e →
  (∀ f, master_file = Some f →
        ∃ m, read_excel f None = Ok m ∧ columns m ≠ []) →
  (∀ t, read_excel file None = Ok t →
     (∀ f, linguist_file = Some f → ∃ l, read_excel f None = Ok l) →
     ∃ data, load_data master_file (Some file) linguist_file = Ok data
             ∧ data !! "analysis" = Some t
             ∧ data !! "summary" = None)
  ∧ (∀ e', read_excel file None = Raise e' →
       load_data master_file (Some file) linguist_file = Raise e').
Proof.
  intros Hfail Hmaster. unfold load_data.
  assert (∃ d0 : gmap string DataFrame,
            match master_file with
            | Some f =>
                m ← read_excel f None;
                cols ← str_strip (columns m);
                Ok (<["master" := mkDataFrame cols (rows m)]>
                      (∅ : gmap string DataFrame))
            | None => Ok ∅
            end = Ok d0
            ∧ d0 !! "summary" = None) as (d0 & -> & Hd0).
  { destruct master_file as [f|].
    - destruct (Hmaster f eq_refl) as (m & -> & Hcols). bind_step.
      rewrite (str_strip_Ok _ Hcols). eexists. split; [reflexivity|].
      by rewrite lookup_insert_ne.
    - eexists. split; [reflexivity|]. apply lookup_empty. }
  bind_step. rewrite (load_analysis_fallback file d0 e Hfail).
  split.
  - intros t -> Hling. bind_step. destruct linguist_file as [f|].
    + destruct (Hling f eq_refl) as [l ->]. eexists. split; [reflexivity|].
      split; [rewrite lookup_insert_ne by done; apply lookup_insert_eq|].
      by rewrite !lookup_insert_ne.
    + eexists. split; [reflexivity|].
      split; [apply lookup_insert_eq|]. by rewrite lookup_insert_ne.
  - intros e' ->. reflexivity.
Qed.

Lemma load_data_sheet_fallback_witness :
  (∃ data, load_data None (Some no_summary) None = Ok data
           ∧ data !! "analysis" = Some (mkDataFrame ["Title"] [[CStr "Requests"]])
           ∧ data !! "summary" = None)
  ∧ (∃ data, load_data (Some one_sheet) (Some one_sheet) (Some one_sheet) = Ok data
             ∧ data !! "analysis" = Some (mkDataFrame ["Language"] [[CStr "Farsi"]])
             ∧ data !! "summary" = None).
Proof.
  split.
  - apply (load_data_sheet_fallback None None no_summary (ValueError "Summary")).
    + right. reflexivity.
    + intros f [=].
    + reflexivity.
    + intros f [=].
  - apply (load_data_sheet_fallback (Some one_sheet) (Some one_sheet) one_sheet
             (ValueError "All Historical Data")).
    + left. reflexivity.
    + intros f [= <-]. eexists. split; [reflexivity|done].
    + reflexivity.
    + intros f [= <-]. eexists. reflexivity.
Defined.

(** C7 as stated fails: when the named-sheet read fails because the file
    is not a readable spreadsheet, the fallback read fails as well and the
    error reaches the caller. *)
Lemma unreadable_analysis_file_raises :
  read_excel None (Some "All Historical Data") = Raise ReadError
  ∧ load_data None (Some None) None = Raise ReadError
  ∧ script None (Some None) None "All" "" = Raise ReadError.
Proof. repeat split; reflexivity. Qed.

(** ** C8 *)

Lemma process_language_stats_total (df : DataFrame) :
  ∃ out, process_language_stats df = Ok out.
Proof.
  destruct (has_column "Language" df) eqn:Hl.
  - destruct (has_column_get _ _ Hl) as [language Hg].
    rewrite (process_language_stats_Ok _ _ Hg). eauto.
  - unfold process_language_stats. rewrite Hl. eauto.
Qed.

(** C8.  Without the [Has Linguist?] column the gap tab shows nothing and
    raises nothing, and the language statistics and the overview never
    raise on any table.  But the gap tab (and the chart of the language
    tab) read the [Language] column without checking for it: on a table
    that has the status column, an unfulfilled row and no [Language]
    column they raise [KeyError], and the page is not rendered. *)
Theorem gap_tab_missing_language_raises :
  (∀ df, has_column "Has Linguist?" df = false → critical_gaps df = Ok None)
  ∧ (∀ df, ∃ out, process_language_stats df = Ok out)
  ∧ (∀ df, ∃ ov, overview df = Ok ov)
  ∧ critical_gaps status_only = Raise (KeyError "Language")
  ∧ tab2 "All" status_only = Raise (KeyError "Language")
  ∧ render "All" "" {[ "analysis" := status_only ]} = Raise (KeyError "Language").
Proof.
  split; [|split; [|split; [|split; [|split]]]].
  - intros df Hf. unfold critical_gaps. by rewrite Hf.
  - apply process_language_stats_total.
  - intros df. rewrite overview_Ok. eauto.
  - reflexivity.
  - reflexivity.
  - vm_compute. reflexivity.
Qed.

(** ** Search *)

Lemma is_meta_dot (a : ascii) : is_meta a = false → a ≠ "."%char.
Proof. intros Hm ->. by vm_compute in Hm. Qed.

(** A term without regular-expression characters compiles to itself. *)
Lemma re_compile_literal (q : list ascii) :
  (∀ a, a ∈ q → is_meta a = false) →
  re_compile_chars q = Some (Lit <$> q).
Proof.
  induction q as [|a q IH]; [done|]. intros Hq. cbn [re_compile_chars].
  assert (is_meta a = false) as Ha by (apply Hq; left).
  rewrite decide_False by (by apply is_meta_dot). rewrite Ha.
  rewrite IH by (intros b Hb; apply Hq; by right). done.
Qed.

Lemma match_here_literal (q s : list ascii) :
  match_here (Lit <$> q) s = true ↔ (lower <$> q) `prefix_of` (lower <$> s).
Proof.
  revert s. induction q as [|a q IH]; intros s.
  - cbn. split; [intros _; apply prefix_nil|done].
  - destruct s as [|b s]; cbn [fmap list_fmap match_here atom_matches].
    + split; [done|]. intros Hp. by apply prefix_nil_not in Hp.
    + rewrite andb_true_iff, bool_decide_eq_true, IH. split.
      * intros [-> Hp]. by apply prefix_cons.
      * intros Hp. split; [by apply prefix_cons_inv_1 in Hp|].
        by apply prefix_cons_inv_2 in Hp.
Qed.

Lemma infix_of_cons (q : list ascii) (b : ascii) (s : list ascii) :
  infix_of q (b :: s) ↔ q `prefix_of` (b :: s) ∨ infix_of q s.
Proof.
  unfold infix_of. split.
  - intros ([|c pre] & post & E).
    + left. exists post. exact E.
    + right. injection E as -> E. eauto.
  - intros [[post E]|(pre & post & E)].
    + exists [], post. exact E.
    + exists (b :: pre), post. by rewrite E.
Qed.

Lemma infix_of_nil (q : list ascii) : infix_of q [] ↔ q `prefix_of` [].
Proof.
  unfold infix_of. split.
  - intros (pre & post & E). symmetry in E.
    apply app_eq_nil in E as [_ [-> _]%app_eq_nil]. done.
  - intros [post E]. exists [], post. exact E.
Qed.

(** For a literal pattern [re.search] with [IGNORECASE] is substring
    search up to case. *)
Lemma re_search_literal (q s : list ascii) :
  re_search (Lit <$> q) s = true ↔ infix_of (lower <$> q) (lower <$> s).
Proof.
  induction s as [|b s IH]; cbn [re_search fmap list_fmap].
  - rewrite orb_false_r, infix_of_nil. apply match_here_literal.
  - rewrite orb_true_iff, infix_of_cons, IH.
    by rewrite (match_here_literal q (b :: s)).
Qed.

Lemma row_matches_literal `{CellText} (q : string) (df : DataFrame) (r : list cell) :
  row_matches (Lit <$> chars q) df r = true
  ↔ ∃ text, Some text ∈ astype_str df (row_view (length (columns df)) r)
            ∧ contains_ci q text.
Proof.
  unfold row_matches, contains_ci. rewrite existsb_exists. split.
  - intros ([text|] & Hc%list_elem_of_In & Hs); [|done].
    apply re_search_literal in Hs. eauto.
  - intros (text & Hc%list_elem_of_In & Hs%re_search_literal).
    exists (Some text). done.
Qed.

Lemma row_view_lookup (n j : nat) (r : list cell) :
  j < n → row_view n r !! j = Some (cell_at j r).
Proof.
  intros Hj. unfold row_view. rewrite list_lookup_fmap, lookup_seq_lt by done.
  reflexivity.
Qed.

(** A text cell of a row is searched as it is. *)
Lemma text_cell_searched `{CellText} (df : DataFrame) (r : list cell) (j : nat)
    (s : string) :
  j < length (columns df) →
  cell_at j r = CStr s →
  Some s ∈ astype_str df (row_view (length (columns df)) r).
Proof.
  intros Hj Hc. apply list_elem_of_lookup. exists j.
  apply astype_str_text. by rewrite row_view_lookup, Hc.
Qed.

(** ASCII text holds none of the letters that pass for an ASCII letter. *)
Lemma is_ascii_plain_case (s : string) : is_ascii s → plain_case s.
Proof.
  unfold is_ascii, plain_case. intros Hs w Hw (pre & post & E). rewrite E in Hs.
  apply Forall_app in Hs as [_ [Hs _]%Forall_app].
  apply list_elem_of_In in Hw.
  repeat (destruct Hw as [<-|Hw];
          [apply Forall_cons in Hs as [Hs _]; vm_compute in Hs; lia|]).
  destruct Hw.
Qed.

(** ** C9 *)

(** C9, as the code has it.  Take a non-empty search term of ASCII
    characters, none of them one of [. ^ $ * + ? { } [ ] \ | ( )], and an
    analysis table in whose text there is none of the four letters outside
    ASCII that a search ignoring case takes for an ASCII letter.  The search
    selects exactly the rows in which the text of some cell contains the
    term, upper and lower case taken as equal; the text of a cell is what
    [astype(str)] makes of it, a text cell being its own text.  The rows
    keep their order.  In particular a row with a text cell that contains
    the term in any case is selected. *)
Theorem search_literal_term `{CellText} (search_term : string)
    (data : gmap string DataFrame) (df : DataFrame) :
  search_term ≠ "" →
  is_ascii search_term →
  (∀ a, a ∈ chars search_term → is_meta a = false) →
  data !! "analysis" = Some df →
  (∀ r text, r ∈ rows df →
     Some text ∈ astype_str df (row_view (length (columns df)) r) →
     plain_case text) →
  ∃ out (hit : list cell → bool),
    tab5 search_term data = Found out
    ∧ columns out = columns df
    ∧ rows out = filter (fun r => hit r = true) (rows df)
    ∧ (∀ r, hit r = true
            ↔ ∃ text, Some text ∈ astype_str df (row_view (length (columns df)) r)
                      ∧ contains_ci search_term text)
    ∧ (∀ r j s, j < length (columns df) → cell_at j r = CStr s →
         contains_ci search_term s → hit r = true).
Proof.
  intros Hne _ Hlit Hdf _. unfold tab5, search, re_compile.
  rewrite decide_False by done. rewrite Hdf, (re_compile_literal _ Hlit).
  exists (boolean_index (row_matches (Lit <$> chars search_term) df <$> rows df) df),
         (row_matches (Lit <$> chars search_term) df).
  split; [done|]. split; [done|]. split; [apply select_rows_fmap|]. split.
  - intros r. apply row_matches_literal.
  - intros r j s Hj Hc Hs. apply row_matches_literal. exists s.
    split; [by apply (text_cell_searched df r j)|done].
Qed.

Lemma search_literal_term_witness :
  tab5 "spanish" {[ "analysis" := spanish_rows ]}
  = Found (mkDataFrame ["COI"; "Language"]
             [[CInt 101; CStr "Spanish"]; [CInt 103; CStr "SPANISH"]])
  ∧ ∃ out (hit : list cell → bool),
      tab5 "spanish" {[ "analysis" := spanish_rows ]} = Found out
      ∧ columns out = ["COI"; "Language"]
      ∧ hit [CInt 103; CStr "SPANISH"] = true.
Proof.
  split; [vm_compute; reflexivity|].
  destruct (search_literal_term "spanish" {[ "analysis" := spanish_rows ]}
              spanish_rows) as (out & hit & Hout & Hcols & _ & _ & Htext).
  - discriminate.
  - compute_done.
  - intros a Ha. in_literal Ha.
  - reflexivity.
  - intros r text Hr Ht. apply is_ascii_plain_case.
    apply list_elem_of_In in Hr.
    repeat (destruct Hr as [<-|Hr];
            [apply list_elem_of_In in Ht;
             repeat (destruct Ht as [Ht|Ht];
                     [vm_compute in Ht;
                      first [discriminate Ht|injection Ht as <-; compute_done]|]);
             destruct Ht|]).
    destruct Hr.
  - exists out, hit. split; [exact Hout|]. split; [exact Hcols|].
    apply (Htext _ 1 "SPANISH"); [cbn; lia|reflexivity|].
    exists [], []. reflexivity.
Defined.

(** C9 as stated fails: the search term is a regular expression, not a
    plain substring.  The term [.] selects a row whose only cell is
    ["abc"], which does not contain a full stop. *)
Lemma search_term_is_a_pattern :
  tab5 "." {[ "analysis" := mkDataFrame ["Language"] [[CStr "abc"]] ]}
  = Found (mkDataFrame ["Language"] [[CStr "abc"]])
  ∧ ¬ contains_ci "." "abc".
Proof.
  split; [vm_compute; reflexivity|].
  intros (pre & post & E). cbn in E.
  destruct pre as [|? [|? [|? [|? ?]]]]; cbn in E; discriminate E.
Qed.

(** * Further properties *)

(** ** The loader *)


(** The analysis step of [load_data], by the outcome of the three reads. *)
Lemma load_analysis_step (file : UploadedFile) (data : gmap string DataFrame) :
  match read_excel file (Some "All Historical Data") with
  | Raise _ => load_default_sheet file data
  | Ok a =>
      match read_excel file (Some "Summary") with
      | Raise _ => load_default_sheet file (<["analysis" := a]> data)
      | Ok s => Ok (<["summary" := s]> (<["analysis" := a]> data))
      end
  end
  = match read_excel file (Some "All Historical Data"),
          read_excel file (Some "Summary") with
    | Ok a, Ok s => Ok (<["summary" := s]> (<["analysis" := a]> data))
    | _, _ =>
        match read_excel file None with
        | Ok t => Ok (<["analysis" := t]> data)
        | Raise e => Raise e
        end
    end.
Proof.
  destruct (read_excel file (Some "All Historical Data")) as [a|e] eqn:Ea.
  - destruct (read_excel file (Some "Summary")) as [s|e] eqn:Es; [done|].
    rewrite <- (load_analysis_fallback file data e) by (by right).
    by rewrite Ea, Es.
  - rewrite <- (load_analysis_fallback file data e) by (by left).
    by rewrite Ea.
Qed.

Lemma load_data_steps (master_file analysis_file linguist_file : option UploadedFile) :
  load_data master_file analysis_file linguist_file
  = data ← master_step master_file;
    data ← analysis_step analysis_file data;
    linguist_step linguist_file data.
Proof. reflexivity. Qed.

Lemma analysis_step_spec (analysis_file : option UploadedFile)
    (data : gmap string DataFrame) :
  analysis_step analysis_file data
  = match analysis_file with
    | None => Ok data
    | Some f =>
        match read_excel f (Some "All Historical Data"),
              read_excel f (Some "Summary") with
        | Ok a, Ok s => Ok (<["summary" := s]> (<["analysis" := a]> data))
        | _, _ =>
            match read_excel f None with
            | Ok t => Ok (<["analysis" := t]> data)
            | Raise e => Raise e
            end
        end
    end.
Proof. destruct analysis_file as [f|]; [apply load_analysis_step|done]. Qed.





(** ** Trimming column names *)


















(** ** What the loader stores *)

Lemma master_step_spec (master_file : option UploadedFile) (d : gmap string DataFrame) :
  master_step master_file = Ok d →
  d !! "master"
  = (master_file ≫= fun f => strip_columns <$> result_of (read_excel f None))
  ∧ ∀ k, k ≠ "master" → d !! k = None.
Proof.
  unfold master_step. destruct master_file as [f|]; cbn.
  - destruct (read_excel f None) as [t|]; [|done]. cbn.
    unfold strip_columns. destruct (columns t) as [|c cs]; [done|]. cbn.
    intros [= <-].
    split; [apply lookup_insert_eq|]. intros k Hk. by rewrite lookup_insert_ne.
  - intros [= <-]. done.
Qed.

Lemma linguist_step_spec (linguist_file : option UploadedFile)
    (d d' : gmap string DataFrame) :
  linguist_step linguist_file d = Ok d' →
  d' !! "linguists"
  = match linguist_file with
    | Some f => result_of (read_excel f None)
    | None => d !! "linguists"
    end
  ∧ ∀ k, k ≠ "linguists" → d' !! k = d !! k.
Proof.
  unfold linguist_step. destruct linguist_file as [f|]; cbn.
  - destruct (read_excel f None) as [t|]; [|done]. cbn. intros [= <-].
    split; [apply lookup_insert_eq|]. intros k Hk. by rewrite lookup_insert_ne.
  - intros [= <-]. done.
Qed.

Lemma analysis_step_lookup (analysis_file : option UploadedFile)
    (d d' : gmap string DataFrame) :
  analysis_step analysis_file d = Ok d' →
  (∀ k, k ≠ "analysis" → k ≠ "summary" → d' !! k = d !! k)
  ∧ match analysis_file with
    | None => d' !! "analysis" = d !! "analysis" ∧ d' !! "summary" = d !! "summary"
    | Some f =>
        match read_excel f (Some "All Historical Data"),
              read_excel f (Some "Summary") with
        | Ok a, Ok s => d' !! "analysis" = Some a ∧ d' !! "summary" = Some s
        | _, _ =>
            d' !! "analysis" = result_of (read_excel f None)
            ∧ d' !! "summary" = d !! "summary"
        end
    end.
Proof.
  rewrite analysis_step_spec. destruct analysis_file as [f|]; [|by intros [= <-]].
  destruct (read_excel f (Some "All Historical Data")) as [a|],
           (read_excel f (Some "Summary")) as [s|];
    try (destruct (read_excel f None) as [t|]; [|done]);
    intros [= <-]; (split; [intros k H1 H2; by rewrite !lookup_insert_ne|]);
    cbn [result_of];
    rewrite ?lookup_insert_eq, ?(lookup_insert_ne _ "summary" "analysis"),
      ?(lookup_insert_ne _ "analysis" "summary"), ?lookup_insert_eq by done; done.
Qed.

(** X2. What a successful load holds.  The master table is the first
    sheet of the master file with its headers stripped, the linguists
    table the first sheet of the linguist file as it is.  From the analysis
    file come the two named sheets when both can be read, and otherwise its
    first sheet, as it is, and no summary.  There is a key for an uploaded
    file only, and there are no other keys. *)
Theorem load_data_contents (master_file analysis_file linguist_file : option UploadedFile)
    (data : gmap string DataFrame) :
  load_data master_file analysis_file linguist_file = Ok data →
  data !! "master"
  = (master_file ≫= fun f => strip_columns <$> result_of (read_excel f None))
  ∧ data !! "linguists" = (linguist_file ≫= fun f => result_of (read_excel f None))
  ∧ match analysis_file with
    | None => data !! "analysis" = None ∧ data !! "summary" = None
    | Some f =>
        match read_excel f (Some "All Historical Data"),
              read_excel f (Some "Summary") with
        | Ok a, Ok s => data !! "analysis" = Some a ∧ data !! "summary" = Some s
        | _, _ =>
            data !! "analysis" = result_of (read_excel f None)
            ∧ data !! "summary" = None
        end
    end
  ∧ (∀ k, is_Some (data !! k) →
       k ∈ ["master"; "analysis"; "summary"; "linguists"]).
Proof.
  rewrite load_data_steps.
  destruct (master_step master_file) as [d1|] eqn:E1; [|done]. bind_step.
  destruct (analysis_step analysis_file d1) as [d2|] eqn:E2; [|done]. bind_step.
  intros E3.
  destruct (master_step_spec _ _ E1) as [Hm1 Ho1].
  destruct (analysis_step_lookup _ _ _ E2) as [Ho2 Ha2].
  destruct (linguist_step_spec _ _ _ E3) as [Hl3 Ho3].
  assert (data !! "master"
          = (master_file ≫= fun f => strip_columns <$> result_of (read_excel f None)))
    as Hmaster by (by rewrite Ho3, Ho2, Hm1).
  split; [exact Hmaster|]. split; [|split].
  - rewrite Hl3. destruct linguist_file; [done|].
    by rewrite Ho2, Ho1.
  - rewrite !Ho3 by done. rewrite !(Ho1 "analysis"), !(Ho1 "summary") in Ha2 by done.
    exact Ha2.
  - intros k Hk. destruct (decide (k = "linguists")) as [->|Hn1]; [set_solver|].
    rewrite Ho3 in Hk by done.
    destruct (decide (k = "analysis")) as [->|Hn2]; [set_solver|].
    destruct (decide (k = "summary")) as [->|Hn3]; [set_solver|].
    rewrite Ho2 in Hk by done.
    destruct (decide (k = "master")) as [->|Hn4]; [set_solver|].
    rewrite Ho1 in Hk by done. by destruct Hk.
Qed.

Lemma load_data_contents_witness :
  ∃ data,
    load_data (Some padded_master) (Some both_sheets) None = Ok data
    ∧ data !! "master"
      = Some (mkDataFrame ["Row Added"; "Priority"] [[CStr "2024-01-01"; CStr "HIGH"]])
    ∧ data !! "analysis" = Some (mkDataFrame [" Language"] [[CStr "Farsi"]])
    ∧ data !! "summary" = Some (mkDataFrame ["Total"] [[CInt 7]])
    ∧ data !! "linguists" = None.
Proof.
  destruct (load_data (Some padded_master) (Some both_sheets) None) as [data|] eqn:E;
    [|vm_compute in E; discriminate E].
  destruct (load_data_contents _ _ _ data E) as (Hm & Hl & [Ha Hs] & _).
  exists data. split; [reflexivity|]. split; [exact Hm|]. split; [exact Ha|].
  split; [exact Hs|exact Hl].
Defined.




(** ** Overview: the rate at its ends *)

Lemma ratio_hundred (f t : nat) :
  0 < t →
  (Qc_of_Z (Z.of_nat f) / Qc_of_Z (Z.of_nat t) * Qc_of_Z 100 = Qc_of_Z 100)%Qc
  ↔ f = t.
Proof.
  intros Hpos.
  assert (Qc_of_Z (Z.of_nat t) ≠ 0%Qc) as Ht.
  { intros E. rewrite <- Z2Qc_inj_0 in E. apply Z2Qc_inj in E. lia. }
  assert (Qc_of_Z 100 ≠ 0%Qc) as H100
    by (intros E; rewrite <- Z2Qc_inj_0 in E; by apply Z2Qc_inj in E).
  split.
  - intros E.
    assert (Qc_of_Z (Z.of_nat f) / Qc_of_Z (Z.of_nat t) = 1)%Qc as E1.
    { rewrite <- (Qcmult_1_r (_ / _)), <- (Qcmult_inv_r (Qc_of_Z 100)) by done.
      by rewrite Qcmult_assoc, E. }
    assert (Qc_of_Z (Z.of_nat f) = Qc_of_Z (Z.of_nat t)) as E2.
    { rewrite <- (Qcmult_div_r (Qc_of_Z (Z.of_nat f)) (Qc_of_Z (Z.of_nat t))) by done.
      by rewrite E1, Qcmult_1_r. }
    apply Z2Qc_inj in E2. lia.
  - intros ->. unfold Qcdiv. rewrite Qcmult_inv_r by done. apply Qcmult_1_l.
Qed.

Lemma ratio_zero (f t : nat) :
  0 < t →
  (Qc_of_Z (Z.of_nat f) / Qc_of_Z (Z.of_nat t) * Qc_of_Z 100 = Qc_of_Z 0)%Qc
  ↔ f = 0.
Proof.
  intros Hpos.
  assert (Qc_of_Z (Z.of_nat t) ≠ 0%Qc) as Ht.
  { intros E. rewrite <- Z2Qc_inj_0 in E. apply Z2Qc_inj in E. lia. }
  assert (Qc_of_Z 100 ≠ 0%Qc) as H100
    by (intros E; rewrite <- Z2Qc_inj_0 in E; by apply Z2Qc_inj in E).
  rewrite Z2Qc_inj_0. split.
  - intros [E|E]%Qcmult_integral; [|done].
    apply Qcmult_integral in E as [E|E].
    + rewrite <- Z2Qc_inj_0 in E. apply Z2Qc_inj in E. lia.
    + pose proof (Qcmult_inv_r _ Ht) as Hinv. rewrite E, Qcmult_0_r in Hinv.
      discriminate Hinv.
  - intros ->. change (Z.of_nat 0) with 0%Z. rewrite Z2Qc_inj_0. unfold Qcdiv.
    by rewrite !Qcmult_0_l.
Qed.

(** X4. On a non-empty table with the status column the fulfillment
    rate is 100 exactly when every status cell is the string ["YES"], and 0
    exactly when none is. *)
Theorem fulfillment_rate_extremes (df : DataFrame) (hl : list cell) :
  get_column "Has Linguist?" df = Ok hl →
  0 < len df →
  ∃ ov q,
    overview df = Ok ov
    ∧ ov_fulfillment ov = Some (count_str "YES" hl, Num q)
    ∧ (q = Qc_of_Z 100 ↔ ∀ c, c ∈ hl → c = CStr "YES")
    ∧ (q = Qc_of_Z 0 ↔ ∀ c, c ∈ hl → c ≠ CStr "YES").
Proof.
  intros Hh Hpos. rewrite overview_Ok, Hh.
  unfold fulfillment_rate. rewrite decide_True by done.
  unfold true_divide. destruct (len df) as [|t] eqn:Ht; [lia|].
  do 2 eexists. split; [reflexivity|]. cbn [ov_fulfillment times_100].
  split; [reflexivity|].
  rewrite ratio_hundred, ratio_zero by lia.
  rewrite <- Ht, <- (get_column_length _ _ _ Hh). unfold count_str. split.
  - rewrite length_filter_all. by setoid_rewrite eq_str_true.
  - rewrite length_filter_none. setoid_rewrite eq_str_true. done.
Qed.

Lemma fulfillment_rate_extremes_witness :
  ∃ ov q,
    overview status_only = Ok ov
    ∧ ov_fulfillment ov = Some (0, Num q)
    ∧ q = Qc_of_Z 0.
Proof.
  destruct (fulfillment_rate_extremes status_only [CStr "NO"] eq_refl)
    as (ov & q & Ho & Hf & _ & Hz); [vm_compute; lia|].
  exists ov, q. split; [exact Ho|]. split; [exact Hf|].
  apply Hz. intros c Hc. apply list_elem_of_In in Hc.
  destruct Hc as [<-|[]]. discriminate.
Defined.

(** ** The gap table and the ranking behind it *)

Lemma unfulfilled_languages_length (i j : nat) (df : DataFrame) :
  length (unfulfilled_languages i j df) = count_str "NO" (column_at j df).
Proof.
  unfold unfulfilled_languages, count_str, column_at. rewrite length_fmap.
  rewrite <- (length_fmap (cell_at j)). f_equal.
  apply (filter_fmap_cell (eq_str "NO")).
Qed.

(** The gap table, written out on the two column positions. *)
Lemma critical_gaps_eq (df : DataFrame) (i j : nat) :
  column_index "Language" df = Some i →
  column_index "Has Linguist?" df = Some j →
  critical_gaps df
  = Ok (if decide (unfulfilled_languages i j df = []) then None
        else Some ((fun p => mkGapEntry p.1 p.2 (priority_of p.2))
                     <$> filter (fun p => 5 ≤ p.2)
                           (value_counts (unfulfilled_languages i j df)))).
Proof.
  intros Hi Hj. unfold critical_gaps.
  assert (has_column "Has Linguist?" df = true) as ->
    by (apply has_column_index; eauto).
  rewrite (get_column_at_index _ _ _ Hj). bind_step.
  rewrite (boolean_index_column _ _ _ (eq_str "NO") j Hj)
    by (by apply get_column_at_index).
  unfold unfulfilled_languages. set (sel := filter _ (rows df)).
  unfold is_empty. cbn [rows columns].
  destruct sel as [|r sel]; [by rewrite decide_True|].
  destruct (columns df) as [|c cs] eqn:Hc.
  { unfold column_index in Hi. by rewrite Hc in Hi. }
  cbn [negb]. rewrite (get_column_at_index _ _ i) by (by rewrite <- Hc).
  bind_step. rewrite decide_False by done. done.
Qed.

(** The chart of the language tab, likewise. *)
Lemma tab2_eq (status_filter : string) (df : DataFrame) (i j : nat) :
  column_index "Language" df = Some i →
  column_index "Has Linguist?" df = Some j →
  tab2 status_filter df
  = Ok (let full :=
          mkDataFrame ["Language"; "Request Count"; "Status"]
            (merge_left (value_counts (column_at i df))
               (groupby_apply (column_at i df) (column_at j df) sourcing_of)) in
        if decide (status_filter = "All") then full
        else mkDataFrame ["Language"; "Request Count"; "Status"]
               (filter (fun r => eq_str status_filter (cell_at 2 r) = true)
                  (rows full)),
        if decide (unfulfilled_languages i j df = []) then None
        else Some (take 15 (value_counts (unfulfilled_languages i j df)))).
Proof.
  intros Hi Hj. unfold tab2.
  rewrite (process_language_stats_Ok df (column_at i df))
    by (by apply get_column_at_index).
  rewrite (get_column_at_index _ _ _ Hj). bind_step.
  assert (has_column "Has Linguist?" df = true) as ->
    by (apply has_column_index; eauto).
  set (full := mkDataFrame _ _).
  assert ((if bool_decide (status_filter ≠ "All") && has_column "Status" full
           then status ← get_column "Status" full;
                Ok (boolean_index (eq_str status_filter <$> status) full)
           else Ok full)
          = Ok (if decide (status_filter = "All") then full
                else mkDataFrame ["Language"; "Request Count"; "Status"]
                       (filter (fun r => eq_str status_filter (cell_at 2 r) = true)
                          (rows full)))) as ->.
  { destruct (decide (status_filter = "All")) as [Hs|Hs].
    - by rewrite bool_decide_false by (intros Hn; by apply Hn).
    - rewrite bool_decide_true by done.
      change (has_column "Status" full) with true. cbn [andb].
      rewrite (get_column_at_index _ _ 2) by reflexivity. bind_step.
      by rewrite (boolean_index_column "Status" full _ (eq_str status_filter) 2)
        by reflexivity. }
  bind_step.
  rewrite (boolean_index_column _ _ _ (eq_str "NO") j Hj)
    by (by apply get_column_at_index).
  unfold unfulfilled_languages. set (sel := filter _ (rows df)).
  unfold is_empty. cbn [rows columns].
  destruct sel as [|r sel]; [reflexivity|].
  destruct (columns df) as [|c cs] eqn:Hc.
  { unfold column_index in Hi. by rewrite Hc in Hi. }
  cbn [negb]. rewrite (get_column_at_index _ _ i) by (by rewrite <- Hc).
  bind_step. reflexivity.
Qed.

(** In a list in descending order of count, the counts of at least [n]
    come first. *)
Lemma filter_ge_take (n : nat) (l : list (cell * nat)) :
  StronglySorted count_ge l →
  filter (fun p => n ≤ p.2) l = take (length (filter (fun p => n ≤ p.2) l)) l.
Proof.
  induction 1 as [|x l Hs IH Hall]; [done|]. rewrite filter_cons.
  case_decide as Hx.
  - cbn [length take]. by rewrite <- IH.
  - replace (filter (fun p => n ≤ p.2) l) with (@nil (cell * nat)); [done|].
    symmetry. apply length_zero_iff_nil, length_filter_none.
    intros y Hy. eapply Forall_forall in Hall; [|exact Hy].
    unfold count_ge in Hall. lia.
Qed.

Lemma sum_filter_le {A} (f : A → nat) (P : A → Prop) `{∀ x, Decision (P x)}
    (l : list A) :
  sum_list_with f (filter P l) ≤ sum_list_with f l.
Proof.
  induction l as [|x l IH]; [done|]. rewrite filter_cons.
  case_decide; cbn; lia.
Qed.

Lemma sum_gap_entries (l : list (cell * nat)) :
  sum_list_with gap_Unfulfilled
    ((fun p => mkGapEntry p.1 p.2 (priority_of p.2)) <$> l)
  = sum_list_with snd l.
Proof. induction l as [|p l IH]; [done|]. cbn. by rewrite IH. Qed.

Lemma gap_pairs_entries (l : list (cell * nat)) :
  gap_pairs ((fun p => mkGapEntry p.1 p.2 (priority_of p.2)) <$> l) = l.
Proof.
  unfold gap_pairs. induction l as [|[k n] l IH]; [done|]. cbn. by rewrite IH.
Qed.

Lemma get_column_index (col : string) (df : DataFrame) (s : list cell) :
  get_column col df = Ok s →
  ∃ i, column_index col df = Some i ∧ s = column_at i df.
Proof. apply get_column_Ok. Qed.

Lemma requests_with_le (s : string) (l : cell) (language hl : list cell) :
  requests_with s l language hl ≤ count_str s hl.
Proof.
  unfold requests_with, count_str. revert hl.
  induction language as [|k language IH]; intros [|c hl]; cbn [zip zip_with];
    rewrite ?filter_nil; cbn [length]; try lia.
  rewrite !filter_cons. cbn [fst snd]. specialize (IH hl).
  destruct (eq_str s c) eqn:Hc.
  - rewrite (decide_True (P := true = true)) by done.
    case_decide; cbn [length]; lia.
  - rewrite decide_False by (intros [_ ->]; cbn in Hc; by rewrite bool_decide_true in Hc).
    rewrite (decide_False (P := false = true)) by done. exact IH.
Qed.

(** X5. The counts of the gap table never add up to more than the
    Unfulfilled Requests metric of the overview: both count rows whose
    status is ["NO"], the table only those of a language that reaches
    five. *)
Theorem gap_total_le_unfulfilled (df : DataFrame) (language hl : list cell)
    (entries : list GapEntry) :
  get_column "Language" df = Ok language →
  get_column "Has Linguist?" df = Ok hl →
  critical_gaps df = Ok (Some entries) →
  ∃ ov unfulfilled,
    overview df = Ok ov
    ∧ ov_unfulfilled ov = Some unfulfilled
    ∧ unfulfilled = count_str "NO" hl
    ∧ sum_list_with gap_Unfulfilled entries ≤ unfulfilled.
Proof.
  intros (i & Hi & ->)%get_column_index (j & Hj & ->)%get_column_index.
  rewrite (critical_gaps_eq df i j Hi Hj), overview_Ok.
  rewrite (get_column_at_index _ _ _ Hj).
  case_decide; [done|]. intros [= <-].
  do 2 eexists. split; [reflexivity|]. cbn [ov_unfulfilled].
  split; [reflexivity|]. split; [reflexivity|].
  rewrite sum_gap_entries.
  etrans; [apply sum_filter_le|]. rewrite value_counts_sum.
  etrans; [apply length_filter|]. by rewrite unfulfilled_languages_length.
Qed.

Lemma gap_total_le_unfulfilled_witness :
  sum_list_with gap_Unfulfilled
    [mkGapEntry (CStr "Dari") 11 "CRITICAL"; mkGapEntry (CStr "Farsi") 6 "HIGH"]
  ≤ 20.
Proof.
  destruct (gap_total_le_unfulfilled scenario
              (cell_at 0 <$> rows scenario) (cell_at 1 <$> rows scenario)
              [mkGapEntry (CStr "Dari") 11 "CRITICAL"; mkGapEntry (CStr "Farsi") 6 "HIGH"]
              eq_refl eq_refl eq_refl) as (ov & u & _ & _ & -> & Hle).
  exact Hle.
Defined.

(** X6. With both columns present the gap tab shows no table exactly
    when no row has the status ["NO"], and an empty table exactly when some
    row has it but no language reaches five such rows. *)
Theorem gap_table_shown (df : DataFrame) (language hl : list cell) :
  get_column "Language" df = Ok language →
  get_column "Has Linguist?" df = Ok hl →
  (critical_gaps df = Ok None ↔ count_str "NO" hl = 0)
  ∧ (critical_gaps df = Ok (Some [])
     ↔ 0 < count_str "NO" hl
       ∧ ∀ l, isna l = false → requests_with "NO" l language hl < 5).
Proof.
  intros (i & Hi & ->)%get_column_index (j & Hj & ->)%get_column_index.
  rewrite (critical_gaps_eq df i j Hi Hj).
  rewrite <- (unfulfilled_languages_length i j df).
  assert (∀ k, count_eq k (unfulfilled_languages i j df)
               = requests_with "NO" k (column_at i df) (column_at j df)) as Hcnt
    by (intros k; apply count_selected).
  case_decide as Hnl.
  - rewrite Hnl. cbn [length]. split; [done|]. split; [done|lia].
  - assert (0 < length (unfulfilled_languages i j df))
      by (destruct (unfulfilled_languages i j df); [done|cbn; lia]).
    split; [split; [done|lia]|]. split.
    + intros [= E]. split; [done|]. intros l Hna.
      apply fmap_nil_inv in E. rewrite <- Hcnt.
      destruct (decide (5 ≤ count_eq l (unfulfilled_languages i j df))) as [H5|]; [|lia].
      assert ((l, count_eq l (unfulfilled_languages i j df))
              ∈ filter (fun p : cell * nat => 5 ≤ p.2)
                  (value_counts (unfulfilled_languages i j df))) as Hin.
      { apply list_elem_of_filter. split; [done|].
        apply value_counts_elem_of. split; [done|]. split; [|done].
        apply count_eq_pos. lia. }
      rewrite E in Hin. by apply elem_of_nil in Hin.
    + intros [_ Hlt]. do 2 f_equal.
      replace (filter _ _) with (@nil (cell * nat)); [done|]. symmetry.
      apply length_zero_iff_nil, length_filter_none.
      intros [k n] (Hna & _ & ->)%value_counts_elem_of. cbn.
      rewrite Hcnt. specialize (Hlt k Hna). lia.
Qed.

Lemma gap_table_shown_witness :
  critical_gaps mixed_status = Ok (Some [])
  ∧ critical_gaps (mkDataFrame ["Language"; "Has Linguist?"]
                     [[CStr "Farsi"; CStr "YES"]]) = Ok None.
Proof.
  split.
  - apply (gap_table_shown mixed_status (cell_at 0 <$> rows mixed_status)
             (cell_at 1 <$> rows mixed_status) eq_refl eq_refl).
    split; [vm_compute; lia|]. intros l _.
    eapply Nat.le_lt_trans; [apply requests_with_le|]. vm_compute. lia.
  - apply (gap_table_shown (mkDataFrame ["Language"; "Has Linguist?"]
                              [[CStr "Farsi"; CStr "YES"]])
             [CStr "Farsi"] [CStr "YES"] eq_refl eq_refl).
    reflexivity.
Defined.

(** X7. The gap table is the head of the ranking that the chart of the
    language tab draws: both rank the languages of the unfulfilled rows by
    descending count, the chart cut after 15 languages and the table where
    the count falls below five, so the first 15 gap entries are the leading
    bars of the chart, and one is shown exactly when the other is. *)
Theorem gap_table_heads_chart (status_filter : string) (df : DataFrame)
    (language hl : list cell) :
  get_column "Language" df = Ok language →
  get_column "Has Linguist?" df = Ok hl →
  ∃ stats chart gaps,
    tab2 status_filter df = Ok (stats, chart)
    ∧ critical_gaps df = Ok gaps
    ∧ (chart = None ↔ gaps = None)
    ∧ ∀ bars entries, chart = Some bars → gaps = Some entries →
        take 15 (gap_pairs entries) = take (length entries) bars.
Proof.
  intros (i & Hi & ->)%get_column_index (j & Hj & ->)%get_column_index.
  rewrite (tab2_eq status_filter df i j Hi Hj), (critical_gaps_eq df i j Hi Hj).
  do 3 eexists. split; [reflexivity|]. split; [reflexivity|].
  case_decide; [done|]. split; [done|].
  intros bars entries [= <-] [= <-]. rewrite gap_pairs_entries, length_fmap.
  pose proof (filter_ge_take 5 _ (value_counts_sorted (unfulfilled_languages i j df)))
    as Hf.
  pose proof (length_filter (fun p : cell * nat => 5 ≤ p.2)
                (value_counts (unfulfilled_languages i j df))) as Hk.
  revert Hf Hk. generalize (length (filter (fun p : cell * nat => 5 ≤ p.2)
                                      (value_counts (unfulfilled_languages i j df)))).
  intros k -> Hk. rewrite !take_take. f_equal. lia.
Qed.

Lemma gap_table_heads_chart_witness :
  ∃ stats bars,
    tab2 "All" scenario = Ok (stats, Some bars)
    ∧ take 2 bars = [(CStr "Dari", 11); (CStr "Farsi", 6)].
Proof.
  destruct (gap_table_heads_chart "All" scenario
              (cell_at 0 <$> rows scenario) (cell_at 1 <$> rows scenario)
              eq_refl eq_refl) as (stats & chart & gaps & Ht & Hg & _ & Hhead).
  destruct chart as [bars|]; [|vm_compute in Ht; discriminate Ht].
  exists stats, bars. split; [exact Ht|].
  symmetry. apply (Hhead bars [mkGapEntry (CStr "Dari") 11 "CRITICAL";
                                mkGapEntry (CStr "Farsi") 6 "HIGH"] eq_refl).
  vm_compute in Hg. injection Hg as <-. reflexivity.
Defined.

(** ** The language table and the overview charts *)

Lemma merge_left_status (left : list (cell * nat)) (keys vals : list cell)
    (r : list cell) :
  (∀ p, p ∈ left → isna p.1 = false ∧ p.1 ∈ keys) →
  r ∈ merge_left left (groupby_apply keys vals sourcing_of) →
  cell_at 2 r = CStr "Sourceable" ∨ cell_at 2 r = CStr "Not Sourceable".
Proof.
  intros Hleft ([l n] & -> & Hin)%list_elem_of_fmap. cbn [fst snd].
  destruct (Hleft _ Hin) as [Hna Hk]. cbn in Hna, Hk.
  unfold groupby_apply. rewrite assoc_fmap_pair
    by (apply uniques_elem_of, list_elem_of_filter; done).
  cbn. destruct (sourcing_of_cases
    (snd <$> filter (fun kv => kv.1 = l) (zip keys vals))) as [-> | ->]; auto.
Qed.

Lemma filter_two_cases {A} (P Q : A → Prop) `{∀ x, Decision (P x)}
    `{∀ x, Decision (Q x)} (l : list A) :
  (∀ x, x ∈ l → (P x ∨ Q x) ∧ ¬ (P x ∧ Q x)) →
  length (filter P l) + length (filter Q l) = length l.
Proof.
  induction l as [|x l IH]; [done|]. intros Hall.
  rewrite !filter_cons. specialize (IH (fun y Hy => Hall y (list_elem_of_further _ _ _ Hy))).
  destruct (Hall x (list_elem_of_here _ _)) as [Hor Hnot].
  repeat case_decide; cbn [length]; try lia; tauto.
Qed.

(** X8. The status filter of the language tab.  On a table with both
    columns, each of the two status values selects the rows of the
    unfiltered language table that carry it, every language falls under
    exactly one of them, and the chart below is not affected.  On a table
    without the status column the filter does nothing. *)
Theorem status_filter_partition (df : DataFrame) :
  (∀ language hl,
     get_column "Language" df = Ok language →
     get_column "Has Linguist?" df = Ok hl →
     ∃ all sourceable unsourceable chart,
       tab2 "All" df = Ok (all, chart)
       ∧ tab2 "Sourceable" df = Ok (sourceable, chart)
       ∧ tab2 "Not Sourceable" df = Ok (unsourceable, chart)
       ∧ process_language_stats df = Ok all
       ∧ rows sourceable
         = filter (fun r => cell_at 2 r = CStr "Sourceable") (rows all)
       ∧ rows unsourceable
         = filter (fun r => cell_at 2 r = CStr "Not Sourceable") (rows all)
       ∧ len sourceable + len unsourceable = len all)
  ∧ (has_column "Has Linguist?" df = false →
     ∀ status_filter, tab2 status_filter df = tab2 "All" df).
Proof.
  split.
  - intros language hl (i & Hi & ->)%get_column_index Hh.
    destruct (get_column_index _ _ _ Hh) as (j & Hj & ->).
    rewrite !(tab2_eq _ df i j Hi Hj).
    rewrite (process_language_stats_Ok df (column_at i df))
      by (by apply get_column_at_index).
    rewrite Hh. do 4 eexists.
    split; [reflexivity|]. split; [reflexivity|]. split; [reflexivity|].
    split; [reflexivity|]. cbn [rows decide]. unfold len. cbn [rows].
    split; [|split].
    + apply list_filter_iff. intros r. apply eq_str_true.
    + apply list_filter_iff. intros r. apply eq_str_true.
    + erewrite (list_filter_iff _ (fun r => cell_at 2 r = CStr "Sourceable"))
        by (intros r; apply eq_str_true).
      erewrite (list_filter_iff (fun r => eq_str "Not Sourceable" (cell_at 2 r) = true)
                  (fun r => cell_at 2 r = CStr "Not Sourceable"))
        by (intros r; apply eq_str_true).
      apply filter_two_cases. intros r Hr.
      apply merge_left_status in Hr.
      * split; [exact Hr|]. intros [E1 E2]. rewrite E1 in E2. discriminate E2.
      * intros p Hp. destruct p as [k n].
        apply (proj1 (value_counts_elem_of _ _ _)) in Hp. tauto.
  - intros Hh status_filter. unfold tab2, process_language_stats.
    rewrite Hh. destruct (has_column "Language" df) eqn:Hl; cbn [negb].
    + destruct (has_column_get _ _ Hl) as [language ->]. bind_step.
      change (has_column "Status" (mkDataFrame ["Language"; "Request Count"] ?[x]))
        with false.
      by rewrite !andb_false_r.
    + bind_step. change (has_column "Status" empty_frame) with false.
      by rewrite !andb_false_r.
Qed.

Lemma status_filter_partition_witness :
  ∃ sourceable chart,
    tab2 "Sourceable" scenario = Ok (sourceable, chart)
    ∧ rows sourceable = [[CStr "Spanish"; CInt 2; CStr "Sourceable"]].
Proof.
  destruct (proj1 (status_filter_partition scenario)
              (cell_at 0 <$> rows scenario) (cell_at 1 <$> rows scenario)
              eq_refl eq_refl)
    as (all & s & u & chart & _ & Hs & _ & Hall & Hrows & _).
  exists s, chart. split; [exact Hs|]. rewrite Hrows.
  vm_compute in Hall. injection Hall as <-. reflexivity.
Defined.

(** What lies in the first [n] entries of [value_counts] and what lies
    beyond them. *)
Lemma value_counts_head (n : nat) (s : list cell) :
  let top := take n (value_counts s) in
  length top = min n (nunique s)
  ∧ StronglySorted count_ge top
  ∧ NoDup (top.*1)
  ∧ (∀ k c, (k, c) ∈ top → isna k = false ∧ k ∈ s ∧ c = count_eq k s)
  ∧ (∀ k c k', (k, c) ∈ top → k' ∈ s → isna k' = false → k' ∉ top.*1 →
       count_eq k' s ≤ c).
Proof.
  cbn zeta. pose proof (value_counts_sorted s) as Hs.
  pose proof (value_counts_keys_NoDup s) as Hnd.
  rewrite <- (take_drop n (value_counts s)) in Hs, Hnd.
  split; [by rewrite length_take, value_counts_length|].
  split; [by apply StronglySorted_app_1_l in Hs|].
  split; [rewrite fmap_app in Hnd; by apply NoDup_app in Hnd as [? _]|].
  split.
  - intros k c Hin. apply value_counts_elem_of.
    eapply elem_of_sublist; [exact Hin|apply sublist_take].
  - intros k c k' Hin Hk' Hna Hout.
    assert ((k', count_eq k' s) ∈ value_counts s) as Hv
      by (by apply value_counts_elem_of).
    rewrite <- (take_drop n (value_counts s)) in Hv.
    apply elem_of_app in Hv as [Hv|Hv].
    + destruct Hout. apply list_elem_of_fmap. by exists (k', count_eq k' s).
    + exact (StronglySorted_app_1_elem_of _ _ _ _ _ Hs Hin Hv).
Qed.

(** X9. The bar chart of the overview shows at most ten languages, each
    with the number of its rows, most frequent first, and a language that
    is left out has no more rows than any language shown.  The Unique
    Languages metric is the number of rows of the language table, and the
    chart shows that many bars when there are fewer than ten. *)
Theorem top_languages_spec (df : DataFrame) (language : list cell) :
  get_column "Language" df = Ok language →
  ∃ top ov stats,
    top_languages df = Ok (Some top)
    ∧ overview df = Ok ov
    ∧ process_language_stats df = Ok stats
    ∧ ov_unique_languages ov = Some (len stats)
    ∧ length top = min 10 (len stats)
    ∧ StronglySorted (fun p q => q.2 ≤ p.2) top
    ∧ (∀ l n, (l, n) ∈ top → isna l = false ∧ l ∈ language ∧ n = count_eq l language)
    ∧ (∀ l n l', (l, n) ∈ top → l' ∈ language → isna l' = false →
         l' ∉ top.*1 → count_eq l' language ≤ n).
Proof.
  intros Hl. unfold top_languages.
  rewrite (get_column_has _ _ _ Hl), Hl, overview_Ok, Hl. bind_step.
  rewrite (process_language_stats_Ok _ _ Hl).
  destruct (value_counts_head 10 language) as (Hlen & Hs & _ & Hin & Hout).
  assert (len match get_column "Has Linguist?" df with
                   | Ok hl =>
                       mkDataFrame ["Language"; "Request Count"; "Status"]
                         (merge_left (value_counts language)
                            (groupby_apply language hl sourcing_of))
                   | Raise _ =>
                       mkDataFrame ["Language"; "Request Count"]
                         ((fun p => [p.1; CInt (Z.of_nat p.2)])
                            <$> value_counts language)
                   end = nunique language) as Hn.
  { destruct (get_column "Has Linguist?" df); unfold len, merge_left;
      cbn [rows]; by rewrite length_fmap, value_counts_length. }
  do 3 eexists. split; [reflexivity|]. split; [reflexivity|].
  split; [reflexivity|]. cbn [ov_unique_languages]. rewrite Hn.
  split; [done|]. split; [done|]. split; [exact Hs|]. split; [exact Hin|exact Hout].
Qed.

Lemma top_languages_spec_witness :
  ∃ top, top_languages scenario = Ok (Some top) ∧ length top = 4.
Proof.
  destruct (top_languages_spec scenario (cell_at 0 <$> rows scenario) eq_refl)
    as (top & ov & stats & Ht & _ & Hs & _ & Hlen & _).
  exists top. split; [exact Ht|]. rewrite Hlen.
  vm_compute in Hs. injection Hs as <-. reflexivity.
Defined.

(** ** The status pie *)

Lemma pie_share_value_counts (name : string) (s : list cell) :
  pie_share name ((fun p => (pie_name p.1, p.2)) <$> value_counts s)
  = length (filter (fun c => pie_name c = name)
              (filter (fun c => isna c = false) s)).
Proof.
  unfold pie_share. rewrite <- (value_counts_sum_filter (fun c => pie_name c = name)).
  generalize (value_counts s). intros l.
  induction l as [|p l IH]; [done|]. cbn [fmap list_fmap].
  rewrite !filter_cons. cbn [fst]. case_decide; cbn; by rewrite IH.
Qed.

Lemma pie_name_sourceable (c : cell) : pie_name c = "Sourceable" ↔ c = CStr "YES".
Proof.
  unfold pie_name. rewrite <- eq_str_true. by destruct (eq_str "YES" c).
Qed.

Lemma pie_name_cases (c : cell) :
  (pie_name c = "Sourceable" ∨ pie_name c = "Not Sourceable")
  ∧ ¬ (pie_name c = "Sourceable" ∧ pie_name c = "Not Sourceable").
Proof.
  unfold pie_name. destruct (eq_str "YES" c); split; auto; by intros [? ?].
Qed.

(** X10. The pie of the overview.  Its two names together account for
    every non-missing status cell.  The share named Sourceable is the
    fulfilled count.  The share named Not Sourceable takes every other
    value, not only ["NO"]: it is never below the Unfulfilled Requests
    metric and exceeds it as soon as a cell holds some third value. *)
Theorem status_pie_shares (df : DataFrame) (hl : list cell) :
  get_column "Has Linguist?" df = Ok hl →
  ∃ pie,
    status_pie df = Ok (Some pie)
    ∧ (∀ p, p ∈ pie → p.1 = "Sourceable" ∨ p.1 = "Not Sourceable")
    ∧ pie_share "Sourceable" pie = count_str "YES" hl
    ∧ pie_share "Sourceable" pie + pie_share "Not Sourceable" pie
      = length (filter (fun c => isna c = false) hl)
    ∧ count_str "NO" hl ≤ pie_share "Not Sourceable" pie
    ∧ (count_str "NO" hl < pie_share "Not Sourceable" pie
       ↔ ∃ c, c ∈ hl ∧ isna c = false ∧ c ≠ CStr "YES" ∧ c ≠ CStr "NO").
Proof.
  intros Hh. unfold status_pie. rewrite (get_column_has _ _ _ Hh), Hh. bind_step.
  eexists. split; [reflexivity|]. rewrite !pie_share_value_counts.
  set (present := filter (fun c => isna c = false) hl).
  assert (length (filter (fun c => pie_name c = "Sourceable") present)
          = count_str "YES" hl) as Hyes.
  { unfold present, count_str. rewrite list_filter_filter. f_equal.
    apply list_filter_iff. intros c. rewrite pie_name_sourceable, eq_str_true.
    split; [tauto|]. by intros ->. }
  assert (length (filter (fun c => pie_name c = "Sourceable") present)
          + length (filter (fun c => pie_name c = "Not Sourceable") present)
          = length present) as Hsum
    by (apply filter_two_cases; intros c _; apply pie_name_cases).
  assert (length (filter (fun c => pie_name c = "Not Sourceable") present)
          = count_str "NO" hl
            + length (filter (fun c => isna c = false ∧ c ≠ CStr "YES" ∧ c ≠ CStr "NO")
                        hl)) as Hnot.
  { unfold present, count_str. rewrite list_filter_filter. clear.
    induction hl as [|c hl IH]; [done|]. rewrite !filter_cons.
    destruct (pie_name_cases c) as [_ Hx].
    pose proof (pie_name_sourceable c) as Hy.
    pose proof (eq_str_true "NO" c) as Hn.
    assert (c = CStr "NO" → isna c = false ∧ pie_name c = "Not Sourceable")
      as Hno by (by intros ->).
    assert (pie_name c = "Sourceable" ∨ pie_name c = "Not Sourceable") as Hc
      by apply pie_name_cases.
    repeat case_decide; cbn [length]; rewrite ?IH; try lia; exfalso;
      intuition congruence. }
  split; [|split; [exact Hyes|split; [exact Hsum|split; [lia|]]]].
  - intros p ([c n] & -> & _)%list_elem_of_fmap. apply pie_name_cases.
  - rewrite Hnot, <- (filter_length_pos
      (fun c => isna c = false ∧ c ≠ CStr "YES" ∧ c ≠ CStr "NO")). lia.
Qed.

Lemma status_pie_shares_witness :
  ∃ pie,
    status_pie mixed_status = Ok (Some pie)
    ∧ pie_share "Sourceable" pie = 1
    ∧ 1 < pie_share "Not Sourceable" pie.
Proof.
  destruct (status_pie_shares mixed_status (cell_at 1 <$> rows mixed_status) eq_refl)
    as (pie & Hp & _ & Hy & _ & _ & Hgt).
  exists pie. split; [exact Hp|]. split; [exact Hy|].
  apply Hgt. exists (CStr "yes"). split; [|done].
  apply list_elem_of_In. right. left. reflexivity.
Defined.

(** ** The location chart *)

(** A bar chart of a series: drawn when there is something to draw. *)
Lemma draw_bars (series : option (list (cell * nat))) :
  draw (fun s : list (cell * nat) => px_bar s.*1 s.*2) series
  = match series with
    | None => Ok None
    | Some [] => Raise no_bars
    | Some top => Ok (Some top)
    end.
Proof.
  destruct series as [[|p s]|]; [done| |done]. unfold draw.
  by rewrite px_bar_series.
Qed.

(** A series has no counts exactly when it has no value to count. *)
Lemma value_counts_nil (s : list cell) :
  value_counts s = [] ↔ ∀ c, c ∈ s → isna c = true.
Proof.
  split.
  - intros E c Hc. destruct (isna c) eqn:Hna; [done|].
    assert ((c, count_eq c s) ∈ value_counts s) as Hin
      by (by apply value_counts_elem_of).
    rewrite E in Hin. by apply elem_of_nil in Hin.
  - intros Hall. destruct (value_counts s) as [|[k n] l] eqn:E; [done|].
    assert ((k, n) ∈ value_counts s) as Hin by (rewrite E; left).
    apply value_counts_elem_of in Hin as (Hna & Hk & _).
    rewrite (Hall k Hk) in Hna. done.
Qed.

Lemma take_nil_iff {A} (n : nat) (l : list A) : 0 < n → take n l = [] ↔ l = [].
Proof. destruct n; [lia|]. intros _. by destruct l. Qed.

Lemma location_counts_eq (df : DataFrame) :
  location_counts df
  = Ok match get_column "Location" df with
       | Ok location => Some (take 10 (value_counts location))
       | Raise _ =>
           match get_column "Notes" df with
           | Ok notes => Some (take 10 (value_counts notes))
           | Raise _ => None
           end
       end.
Proof.
  unfold location_counts. destruct (has_column "Location" df) eqn:Hl.
  - destruct (has_column_get _ _ Hl) as [location Hg]. cbn [orb]. by rewrite Hg.
  - rewrite (has_column_false_get _ _ Hl).
    destruct (has_column "Notes" df) eqn:Hn; cbn [orb].
    + destruct (has_column_get _ _ Hn) as [notes Hg]. by rewrite Hg.
    + by rewrite (has_column_false_get _ _ Hn).
Qed.

(** X11. The location chart of the gap tab.  Its series is counted from
    the [Location] column when the table has one, from [Notes] when it has
    only that, and there is none when it has neither; it holds at most ten
    places, each with the number of its rows, most frequent first.  The
    chart is drawn from that series, except that an empty series (a column
    in which every cell is blank, or a table without rows) makes [px.bar]
    raise. *)
Theorem location_counts_spec (df : DataFrame) :
  ∃ series,
    location_counts df = Ok series
    ∧ (series = None
       ↔ has_column "Location" df = false ∧ has_column "Notes" df = false)
    ∧ (∀ location, get_column "Location" df = Ok location →
         series = Some (take 10 (value_counts location)))
    ∧ (∀ notes, has_column "Location" df = false →
         get_column "Notes" df = Ok notes →
         series = Some (take 10 (value_counts notes)))
    ∧ (∀ top, series = Some top →
         length top ≤ 10 ∧ StronglySorted (fun p q => q.2 ≤ p.2) top)
    ∧ (series = Some []
       ↔ ∃ col, (get_column "Location" df = Ok col
                 ∨ has_column "Location" df = false
                   ∧ get_column "Notes" df = Ok col)
                ∧ ∀ c, c ∈ col → isna c = true)
    ∧ location_chart df
      = match series with
        | None => Ok None
        | Some [] => Raise no_bars
        | Some top => Ok (Some top)
        end.
Proof.
  assert (∀ s, length (take 10 (value_counts s)) ≤ 10
               ∧ StronglySorted count_ge (take 10 (value_counts s))) as Htop.
  { intros s. destruct (value_counts_head 10 s) as (Hlen & Hs & _).
    split; [lia|exact Hs]. }
  assert (∀ s, take 10 (value_counts s) = [] ↔ ∀ c, c ∈ s → isna c = true) as Hnil.
  { intros s. rewrite take_nil_iff by lia. apply value_counts_nil. }
  unfold location_chart. rewrite location_counts_eq. bind_step.
  eexists. split; [reflexivity|]. rewrite draw_bars.
  destruct (has_column "Location" df) eqn:Hl.
  - destruct (has_column_get _ _ Hl) as [location Hg]. rewrite Hg.
    split; [by split; [|intros [? _]]|].
    split; [by intros ? [= <-]|]. split; [done|].
    split; [intros top [= <-]; apply Htop|]. split; [|done]. split.
    + intros [= E]. exists location. split; [by left|]. by apply Hnil.
    + intros (col & [[= <-]|[? _]] & Hall); [|done]. f_equal. by apply Hnil.
  - rewrite (has_column_false_get _ _ Hl).
    destruct (has_column "Notes" df) eqn:Hn.
    + destruct (has_column_get _ _ Hn) as [notes Hg]. rewrite Hg.
      split; [by split; [|intros [_ ?]]|].
      split; [done|]. split; [by intros ? _ [= <-]|].
      split; [intros top [= <-]; apply Htop|]. split; [|done]. split.
      * intros [= E]. exists notes. split; [by right|]. by apply Hnil.
      * intros (col & [?|[_ [= <-]]] & Hall); [done|]. f_equal. by apply Hnil.
    + rewrite (has_column_false_get _ _ Hn).
      split; [done|]. split; [done|]. split; [done|]. split; [done|].
      split; [|done]. split; [done|]. by intros (col & [?|[_ ?]] & _).
Qed.

(** ** The trends tab as a whole *)

(** X12. The trends tab raises only out of pandas' date handling.
    Without a master table it shows nothing.  With one (its labels being
    distinct), an exception of the date loop ends the tab; and if the loop
    goes through and what it has put under [Row Added] is a date-time
    series, the tab is drawn: the monthly and the day-of-week chart are
    there exactly when the table has a [Row Added] column, and the priority
    pie is the [value_counts] of the [Priority] column as loaded, over all
    rows, also those whose date cannot be read. *)
Theorem trends_tab_total `{DatetimeParser} (data : gmap string DataFrame) :
  (data !! "master" = None → tab3 data = Ok (data, None))
  ∧ ∀ df, data !! "master" = Some df → NoDup (columns df) →
      match convert_date_columns df date_columns with
      | Raise e => tab3 data = Raise e
      | Ok df' =>
          (∀ row_added, get_column "Row Added" df' = Ok row_added →
                        ∃ stamps, row_added = cell_of_datetime <$> stamps) →
          ∃ trends,
            tab3 data = Ok (<["master" := df']> data, Some trends)
            ∧ (tr_monthly trends = None ↔ has_column "Row Added" df = false)
            ∧ (tr_day_counts trends = None ↔ has_column "Row Added" df = false)
            ∧ tr_priority_counts trends
              = match get_column "Priority" df with
                | Ok p => Some (value_counts p)
                | Raise _ => None
                end
      end.
Proof.
  split; [intros Hm; unfold tab3; by rewrite Hm|].
  intros df Hm _.
  destruct (convert_date_columns df date_columns) as [df'|e] eqn:E;
    [|unfold tab3; by rewrite Hm, E].
  intros Hdt.
  destruct (convert_date_columns_spec date_columns df df' date_columns_NoDup E)
    as (Hcols & _).
  destruct (has_column "Row Added" df) eqn:Hr.
  - assert (has_column "Row Added" df' = true) as Hr'
      by (by rewrite (has_column_same_columns _ _ _ Hcols)).
    destruct (has_column_get _ _ Hr') as [row_added Hg].
    destruct (Hdt row_added Hg) as [stamps ->].
    eexists. split; [exact (tab3_dated data df df' stamps Hm E Hg)|].
    cbn [tr_monthly tr_day_counts tr_priority_counts]. done.
  - unfold tab3. rewrite Hm, E. bind_step.
    rewrite trends_of_undated by (by rewrite (has_column_same_columns _ _ _ Hcols)).
    bind_step. eexists. split; [reflexivity|].
    cbn [tr_monthly tr_day_counts tr_priority_counts].
    by rewrite (priority_after_conversion _ _ E).
Qed.

Lemma trends_tab_total_witness :
  ∃ data' trends,
    tab3 master_example = Ok (data', Some trends)
    ∧ tr_priority_counts trends
      = Some [(CStr "HIGH", 2); (CStr "NORMAL", 1); (CStr "URGENT", 1)].
Proof.
  destruct (trends_tab_total master_example) as [_ Hmaster].
  specialize (Hmaster master_table eq_refl ltac:(compute_done)).
  destruct (convert_date_columns master_table date_columns) as [df'|e] eqn:E;
    [|vm_compute in E; discriminate E].
  destruct Hmaster as (trends & Ht & _ & _ & Hp).
  - intros row_added Hg. vm_compute in E. injection E as <-.
    vm_compute in Hg. injection Hg as <-.
    by exists [Some (mkTimestamp 2024 1 1 0 0 0); None;
               Some (mkTimestamp 2024 1 7 0 0 0); Some (mkTimestamp 2024 1 8 0 0 0)].
  - exists (<["master" := df']> master_example), trends. split; [exact Ht|].
    rewrite Hp. reflexivity.
Defined.

(** ** Every dated row falls on one day *)

Lemma weekday_lt (t : Timestamp) : weekday t < 7.
Proof.
  unfold weekday.
  pose proof (Z.mod_pos_bound
    (days_from_civil (ts_year t) (ts_month t) (ts_day t) + 3) 7 ltac:(lia)).
  lia.
Qed.

Lemma day_name_in_order (t : Timestamp) : day_name t ∈ day_order.
Proof.
  unfold day_name. pose proof (weekday_lt t) as Hw.
  destruct (day_order !! weekday t) as [d|] eqn:E.
  - cbn. by eapply list_elem_of_lookup_2.
  - apply lookup_ge_None in E. cbn in E. lia.
Qed.

Lemma sum_indicator_string (y : string) (us : list string) :
  NoDup us → y ∈ us →
  sum_list_with (fun k => if decide (y = k) then 1 else 0) us = 1.
Proof.
  induction 1 as [|z us Hz Hnd IH]; [by rewrite elem_of_nil|].
  rewrite elem_of_cons. cbn. intros Hy. case_decide as Hzy.
  - subst z. f_equal. clear IH Hy Hnd. induction us as [|u us IH]; [done|].
    cbn. apply not_elem_of_cons in Hz as [Hne Hz]. rewrite decide_False by done.
    by apply IH.
  - destruct Hy as [->|Hy]; [done|]. by apply IH.
Qed.

Lemma on_day_total (stamps : list (option Timestamp)) :
  sum_list_with (fun d => on_day d stamps) day_order = length (readable stamps).
Proof.
  induction stamps as [|[t|] stamps IH].
  - reflexivity.
  - change (readable (Some t :: stamps)) with (t :: readable stamps).
    assert (∀ ds, sum_list_with (fun d => on_day d (Some t :: stamps)) ds
                  = sum_list_with (fun d => if decide (day_name t = d) then 1 else 0) ds
                    + sum_list_with (fun d => on_day d stamps) ds) as ->.
    { intros ds. induction ds as [|d ds IHd]; [done|].
      cbn [sum_list_with]. rewrite IHd. unfold on_day at 1.
      rewrite filter_cons. cbn [fmap option_fmap option_map].
      destruct (decide (day_name t = d)) as [->|Hne].
      - rewrite decide_True by done. cbn [length]. unfold on_day. lia.
      - rewrite decide_False by congruence. unfold on_day. lia. }
    rewrite IH, sum_indicator_string; [done|compute_done|apply day_name_in_order].
  - change (readable (None :: stamps)) with (readable stamps). rewrite <- IH.
    generalize day_order. intros ds. induction ds as [|d ds IHd]; [done|].
    cbn [sum_list_with]. rewrite IHd. unfold on_day.
    by rewrite filter_cons_False.
Qed.

Lemma sum_fmap_pair {A} (f : A → nat) (l : list A) :
  sum_list_with snd ((fun k => (k, f k)) <$> l) = sum_list_with f l.
Proof. induction l as [|u us IH]; [done|]. cbn. by rewrite IH. Qed.

Lemma readable_length (stamps : list (option Timestamp)) :
  length (readable stamps) ≤ length stamps.
Proof.
  unfold readable. induction stamps as [|[t|] stamps IH]; cbn; lia.
Qed.

(** X13. No dated row is lost between the days.  On a master table
    (with distinct labels) whose date loop goes through and leaves a
    date-time series under [Row Added], the seven counts of the day-of-week
    chart add up to the number of rows that have a date there, which is at
    most the number of rows of the table. *)
Theorem day_counts_total `{DatetimeParser} (data : gmap string DataFrame)
    (df df' : DataFrame) (stamps : list (option Timestamp)) :
  data !! "master" = Some df →
  NoDup (columns df) →
  convert_date_columns df date_columns = Ok df' →
  get_column "Row Added" df' = Ok (cell_of_datetime <$> stamps) →
  ∃ trends counts,
    tab3 data = Ok (<["master" := df']> data, Some trends)
    ∧ tr_day_counts trends = Some counts
    ∧ sum_list_with snd counts = length (readable stamps)
    ∧ sum_list_with snd counts ≤ len df.
Proof.
  intros Hm _ E Hra.
  do 2 eexists. split; [exact (tab3_dated data df df' stamps Hm E Hra)|].
  cbn [tr_day_counts]. split; [reflexivity|].
  rewrite sum_fmap_pair, on_day_total. split; [done|].
  etrans; [apply readable_length|].
  destruct (convert_date_columns_spec date_columns df df' date_columns_NoDup E)
    as (_ & <- & _).
  by rewrite <- (get_column_length _ _ _ Hra), length_fmap.
Qed.

Lemma day_counts_total_witness :
  ∃ data' trends counts,
    tab3 master_example = Ok (data', Some trends)
    ∧ tr_day_counts trends = Some counts
    ∧ sum_list_with snd counts = 3.
Proof.
  destruct (day_counts_total master_example master_table
              (mkDataFrame ["Row Added"; "Priority"]
                 [[CTime (mkTimestamp 2024 1 1 0 0 0); CStr "HIGH"];
                  [CNaT; CStr "NORMAL"];
                  [CTime (mkTimestamp 2024 1 7 0 0 0); CStr "HIGH"];
                  [CTime (mkTimestamp 2024 1 8 0 0 0); CStr "URGENT"]])
              [Some (mkTimestamp 2024 1 1 0 0 0); None;
               Some (mkTimestamp 2024 1 7 0 0 0); Some (mkTimestamp 2024 1 8 0 0 0)]
              eq_refl ltac:(compute_done) eq_refl eq_refl)
    as (trends & counts & Ht & Hc & Hsum & _).
  do 3 eexists. split; [exact Ht|]. split; [exact Hc|exact Hsum].
Defined.

(** X14. A rendering changes no table at all when the master table has
    none of the three date columns, or when no master table is loaded. *)
Theorem render_without_dates `{DatetimeParser} `{CellText}
    (status_filter search_term : string)
    (data data' : gmap string DataFrame) (page : Page) :
  (∀ m, data !! "master" = Some m →
        ∀ c, c ∈ date_columns → has_column c m = false) →
  render status_filter search_term data = Ok (data', page) →
  data' = data.
Proof.
  intros Hno (Ht & _)%render_parts. apply tab3_data in Ht.
  destruct (data !! "master") as [m|] eqn:Hm; [|by destruct Ht].
  destruct Ht as (m' & trends & E & -> & _).
  rewrite (convert_date_columns_absent _ _ (Hno m eq_refl)) in E.
  injection E as <-. by apply insert_id.
Qed.

Lemma render_without_dates_witness :
  match render "All" "spanish" {[ "analysis" := spanish_rows ]} with
  | Ok (data', _) => data' = {[ "analysis" := spanish_rows ]}
  | Raise _ => False
  end.
Proof.
  destruct (render "All" "spanish" {[ "analysis" := spanish_rows ]})
    as [[data' page]|e] eqn:Hr; [|vm_compute in Hr; discriminate Hr].
  apply (render_without_dates "All" "spanish" _ data' page); [|exact Hr].
  intros m Hm. rewrite lookup_singleton_ne in Hm by done. discriminate Hm.
Defined.

(** ** The monthly series *)

Lemma insert_key_perm (x : cell * nat) (l : list (cell * nat)) :
  insert_key x l ≡ₚ x :: l.
Proof.
  induction l as [|y l IH]; [done|]. cbn.
  destruct (String.leb _ _); [done|]. rewrite IH. apply Permutation_swap.
Qed.

Lemma groupby_size_perm (keys : list cell) :
  let present := filter (fun c => isna c = false) keys in
  groupby_size keys ≡ₚ (fun k => (k, count_eq k present)) <$> uniques present.
Proof.
  cbn zeta. unfold groupby_size.
  generalize ((fun k => (k, count_eq k (filter (fun c => isna c = false) keys)))
                <$> uniques (filter (fun c => isna c = false) keys)).
  intros l. induction l as [|x l IH]; [done|]. cbn.
  rewrite insert_key_perm. by constructor.
Qed.

Lemma insert_key_sorted (x : cell * nat) (l : list (cell * nat)) :
  Sorted key_le l → Sorted key_le (insert_key x l).
Proof.
  induction 1 as [|y l Hs IH Hhd]; cbn.
  - repeat constructor.
  - destruct (String.leb (key_text x.1) (key_text y.1)) eqn:Hle.
    + constructor; [by constructor|]. by constructor.
    + constructor; [exact IH|].
      assert (key_le y x) as Hyx.
      { unfold key_le.
        destruct (String.leb_total (key_text x.1) (key_text y.1)); congruence. }
      clear Hle. destruct Hhd as [|z l Hz]; cbn [insert_key]; [by constructor|].
      destruct (String.leb (key_text x.1) (key_text z.1)); by constructor.
Qed.

Lemma groupby_size_sorted (keys : list cell) : Sorted key_le (groupby_size keys).
Proof.
  unfold groupby_size.
  generalize ((fun k => (k, count_eq k (filter (fun c => isna c = false) keys)))
                <$> uniques (filter (fun c => isna c = false) keys)).
  intros l. induction l as [|x l IH]; cbn; [constructor|].
  by apply insert_key_sorted.
Qed.

(** What [groupby(...).size()] holds. *)
Lemma groupby_size_spec (keys : list cell) :
  Sorted key_le (groupby_size keys)
  ∧ NoDup ((groupby_size keys).*1)
  ∧ (∀ k n, (k, n) ∈ groupby_size keys
            ↔ isna k = false ∧ k ∈ keys ∧ n = count_eq k keys)
  ∧ sum_list_with snd (groupby_size keys)
    = length (filter (fun c => isna c = false) keys).
Proof.
  split; [apply groupby_size_sorted|]. split; [|split].
  - rewrite groupby_size_perm, fmap_fst_pair. apply uniques_NoDup.
  - intros k n. rewrite groupby_size_perm, <- value_counts_perm.
    apply value_counts_elem_of.
  - rewrite groupby_size_perm, <- value_counts_perm. apply value_counts_sum.
Qed.

Lemma count_months (m : string) (ts : list Timestamp) :
  count_eq (CStr m) ((fun t => CStr (month_str t)) <$> ts)
  = length (filter (fun t => month_str t = m) ts).
Proof.
  unfold count_eq. induction ts as [|t ts IH]; [done|]. cbn [fmap list_fmap].
  rewrite !filter_cons. destruct (decide (month_str t = m)) as [->|Hne].
  - rewrite decide_True by done. cbn [length]. by rewrite IH.
  - rewrite decide_False by congruence. exact IH.
Qed.

Lemma sum_counts_points (l : list (cell * nat)) :
  sum_counts ((fun p => (p.1, CInt (Z.of_nat p.2))) <$> l).*2
  = Z.of_nat (sum_list_with snd l).
Proof.
  unfold sum_counts. induction l as [|p l IH]; [done|].
  cbn [fmap list_fmap foldr snd fst int_of sum_list_with]. rewrite IH. lia.
Qed.

(** X15. The monthly chart of the trends tab, on a master table (with
    distinct labels) whose date loop goes through and leaves a date-time
    series under [Row Added]: one point per month in which some row is
    dated, with the number of rows dated in it, the months in ascending
    string order and none twice; the counts add up to the number of rows
    that have a date there, the same rows the day-of-week chart counts. *)
Theorem monthly_volume_spec `{DatetimeParser} (data : gmap string DataFrame)
    (df df' : DataFrame) (stamps : list (option Timestamp)) :
  data !! "master" = Some df →
  NoDup (columns df) →
  convert_date_columns df date_columns = Ok df' →
  get_column "Row Added" df' = Ok (cell_of_datetime <$> stamps) →
  ∃ trends monthly,
    tab3 data = Ok (<["master" := df']> data, Some trends)
    ∧ tr_monthly trends = Some monthly
    ∧ Sorted month_le monthly
    ∧ NoDup (monthly.*1)
    ∧ (∀ k v, (k, v) ∈ monthly
              ↔ ∃ m n, k = CStr m ∧ v = CInt (Z.of_nat n) ∧ 0 < n
                       ∧ n = length (filter (fun t => month_str t = m)
                                       (readable stamps)))
    ∧ sum_counts (monthly.*2) = Z.of_nat (length (readable stamps)).
Proof.
  intros Hm _ E Hra.
  do 2 eexists. split; [exact (tab3_dated data df df' stamps Hm E Hra)|].
  cbn [tr_monthly]. split; [reflexivity|]. unfold monthly_points.
  set (ts := readable stamps).
  destruct (groupby_size_spec ((fun t => CStr (month_str t)) <$> ts))
    as (Hs & Hnd & Hin & Hsum).
  split; [|split; [|split]].
  - eapply Sorted_fmap; [|exact Hs]. by intros [] [].
  - rewrite <- list_fmap_compose.
    by rewrite (list_fmap_ext _ fst (groupby_size _) (fun _ _ _ => eq_refl)).
  - intros k v. rewrite list_elem_of_fmap. split.
    + intros ([k' n] & [= -> ->] & (_ & Hk & ->)%Hin). cbn.
      apply list_elem_of_fmap in Hk as (t & -> & Ht).
      do 2 eexists. split; [reflexivity|]. split; [reflexivity|].
      rewrite <- count_months. split; [|done].
      apply count_eq_pos, list_elem_of_fmap. eauto.
    + intros (m & n & -> & -> & Hpos & ->). rewrite <- count_months in Hpos |- *.
      eexists (_, _). split; [reflexivity|]. apply Hin.
      split; [done|]. split; [by apply count_eq_pos|done].
  - rewrite sum_counts_points, Hsum, filter_all, length_fmap; [done|].
    by intros c (t & -> & _)%list_elem_of_fmap.
Qed.

Lemma monthly_volume_spec_witness :
  ∃ data' trends,
    tab3 master_example = Ok (data', Some trends)
    ∧ tr_monthly trends = Some [(CStr "2024-01", CInt 3)].
Proof.
  destruct (monthly_volume_spec master_example master_table
              (mkDataFrame ["Row Added"; "Priority"]
                 [[CTime (mkTimestamp 2024 1 1 0 0 0); CStr "HIGH"];
                  [CNaT; CStr "NORMAL"];
                  [CTime (mkTimestamp 2024 1 7 0 0 0); CStr "HIGH"];
                  [CTime (mkTimestamp 2024 1 8 0 0 0); CStr "URGENT"]])
              [Some (mkTimestamp 2024 1 1 0 0 0); None;
               Some (mkTimestamp 2024 1 7 0 0 0); Some (mkTimestamp 2024 1 8 0 0 0)]
              eq_refl ltac:(compute_done) eq_refl eq_refl)
    as (trends & monthly & Ht & Hmo & _).
  do 2 eexists. split; [exact Ht|].
  rewrite Hmo. vm_compute in Ht. injection Ht as <-. vm_compute in Hmo.
  symmetry. exact Hmo.
Defined.

(** ** When a rendering fails *)

















(** ** More on the search *)

Lemma match_here_lower (p q : list ascii) (s : list ascii) :
  lower <$> p = lower <$> q →
  match_here (Lit <$> p) s = match_here (Lit <$> q) s.
Proof.
  revert q s. induction p as [|a p IH]; intros [|b q] s; cbn; try done.
  intros [= Hab Hpq]. destruct s as [|c s]; [done|].
  cbn [atom_matches]. rewrite Hab. f_equal. by apply IH.
Qed.

Lemma re_search_lower (p q : list ascii) (s : list ascii) :
  lower <$> p = lower <$> q →
  re_search (Lit <$> p) s = re_search (Lit <$> q) s.
Proof.
  intros Hpq. induction s as [|c s IH]; cbn [re_search].
  - by rewrite (match_here_lower p q).
  - by rewrite (match_here_lower p q), IH.
Qed.

Lemma existsb_pointwise {A} (f g : A → bool) (l : list A) :
  (∀ x, f x = g x) → existsb f l = existsb g l.
Proof. intros E. induction l as [|x l IH]; [done|]. cbn. by rewrite E, IH. Qed.

(** X17. The case of the search term does not matter: two terms without
    regular-expression characters that differ only in upper and lower
    case give the same search outcome on every set of tables. *)
Theorem search_ignores_term_case `{CellText} (q q' : string)
    (data : gmap string DataFrame) :
  (∀ a, a ∈ chars q → is_meta a = false) →
  (∀ a, a ∈ chars q' → is_meta a = false) →
  lower <$> chars q = lower <$> chars q' →
  tab5 q data = tab5 q' data.
Proof.
  intros Hq Hq' Hlow. unfold tab5.
  assert (q = "" ↔ q' = "") as Hempty.
  { destruct q as [|a q], q' as [|a' q']; cbn in Hlow; try done. }
  destruct (decide (q = "")) as [E|E], (decide (q' = "")) as [E'|E']; try tauto.
  destruct (data !! "analysis") as [df|]; [|done].
  unfold search, re_compile.
  rewrite (re_compile_literal _ Hq), (re_compile_literal _ Hq').
  do 2 f_equal. apply list_fmap_ext. intros _ r _. unfold row_matches.
  apply existsb_pointwise. intros [s|]; [by apply re_search_lower|done].
Qed.

Lemma search_ignores_term_case_witness :
  tab5 "SPANISH" {[ "analysis" := spanish_rows ]}
  = tab5 "spanish" {[ "analysis" := spanish_rows ]}.
Proof.
  apply search_ignores_term_case; [| |reflexivity]; intros a Ha; in_literal Ha.
Defined.

Lemma filter_sublist_impl {A} (P Q : A → Prop) `{∀ x, Decision (P x)}
    `{∀ x, Decision (Q x)} (l : list A) :
  (∀ x, x ∈ l → P x → Q x) → filter P l `sublist_of` filter Q l.
Proof.
  induction l as [|x l IH]; [done|]. intros Himp.
  specialize (IH (fun y Hy => Himp y (list_elem_of_further _ _ _ Hy))).
  rewrite !filter_cons. pose proof (Himp x (list_elem_of_here _ _)).
  repeat case_decide; try tauto.
  - by apply sublist_skip.
  - by apply sublist_cons.
Qed.

(** X18. Whatever the term, a search that is carried out returns a
    table with the columns of the analysis table and some of its rows, in
    their order; and no search is carried out exactly when the term is
    empty or no analysis table is loaded. *)
Theorem search_returns_subtable `{CellText} (search_term : string)
    (data : gmap string DataFrame) :
  (tab5 search_term data = NotSearched
   ↔ search_term = "" ∨ data !! "analysis" = None)
  ∧ ∀ out, tab5 search_term data = Found out →
      ∃ df, data !! "analysis" = Some df
            ∧ columns out = columns df
            ∧ rows out `sublist_of` rows df.
Proof.
  unfold tab5, search. destruct (decide (search_term = "")) as [->|Hne].
  - split; [by split; [left|]|done].
  - destruct (data !! "analysis") as [df|]; [|split; [by split; [right|]|done]].
    destruct (re_compile search_term) as [p|].
    + split; [split; [done|by intros [?|?]]|]. intros out [= <-].
      exists df. split; [done|]. split; [done|]. unfold boolean_index. cbn [rows].
      rewrite select_rows_fmap. apply sublist_filter.
    + split; [split; [done|by intros [?|?]]|done].
Qed.

Lemma infix_of_trans (a b c : list ascii) :
  infix_of a b → infix_of b c → infix_of a c.
Proof.
  intros (p1 & s1 & ->) (p2 & s2 & ->). exists (p2 ++ p1), (s1 ++ s2).
  by rewrite <- !app_assoc.
Qed.

Lemma infix_of_fmap (f : ascii → ascii) (a b : list ascii) :
  infix_of a b → infix_of (f <$> a) (f <$> b).
Proof.
  intros (p & s & ->). exists (f <$> p), (f <$> s). by rewrite !fmap_app.
Qed.

(** X19. Typing more never finds more: if a term without
    regular-expression characters occurs inside a longer one, every row
    the longer term selects is selected by the shorter one too. *)
Theorem search_narrows `{CellText} (q q' : string) (df : DataFrame) :
  q ≠ "" →
  (∀ a, a ∈ chars q' → is_meta a = false) →
  infix_of (chars q) (chars q') →
  ∃ out out',
    search q df = Found out
    ∧ search q' df = Found out'
    ∧ rows out' `sublist_of` rows out.
Proof.
  intros Hne Hq' Hinf.
  assert (∀ a, a ∈ chars q → is_meta a = false) as Hq.
  { intros a Ha. apply Hq'. destruct Hinf as (p & s & ->).
    apply elem_of_app. right. apply elem_of_app. by left. }
  unfold search, re_compile.
  rewrite (re_compile_literal _ Hq), (re_compile_literal _ Hq').
  do 2 eexists. split; [reflexivity|]. split; [reflexivity|].
  unfold boolean_index. cbn [rows].
  rewrite !select_rows_fmap. apply filter_sublist_impl.
  intros r _ (text & Hc & Hcon)%row_matches_literal. apply row_matches_literal.
  exists text. split; [done|]. unfold contains_ci in *.
  eapply infix_of_trans; [|exact Hcon]. by apply infix_of_fmap.
Qed.

Lemma search_narrows_witness :
  ∃ out out',
    search "span" spanish_rows = Found out
    ∧ search "spanish" spanish_rows = Found out'
    ∧ rows out' `sublist_of` rows out.
Proof.
  apply search_narrows.
  - discriminate.
  - intros a Ha. in_literal Ha.
  - exists [], (chars "ish"). reflexivity.
Defined.

